(** * Bookify / QuickMeet: time utilities, API client and booking view

  A shallow embedding of the client helpers (time and date utilities), of
  the axios-based [Api] class and of the state transitions of
  [BookRoomView], together with the properties the specification states
  about them.

  JavaScript numbers that the code uses as integers are modelled as [Z];
  strings as [string]; [undefined]/[null] as [None]; a thrown exception as
  the [Throw] case of a completion. *)

From Stdlib Require Import ZArith String Ascii List Bool Lia DecimalString Decimal.
From Stdlib Require FinFun.
Import ListNotations.
Open Scope string_scope.
Open Scope Z_scope.

(* ================================================================== *)
(** ** The parts of the JavaScript runtime the code relies on *)
(* ================================================================== *)

Module Js.

(** Exceptions: the two the runtime raises in the modelled code, and any
    other thrown value (a rejection that is awaited outside a [try]). *)
Inductive Exn := TypeError | RangeError | Uncaught.

(** Result of evaluating a function body: a value or a thrown exception. *)
Inductive Completion (A : Type) :=
| Return (a : A)
| Throw (e : Exn).
Arguments Return {A} a.
Arguments Throw {A} e.

Definition bind {A B} (c : Completion A) (k : A -> Completion B) : Completion B :=
  match c with
  | Return a => k a
  | Throw e => Throw e
  end.

(** [String(n)] for an integral number. *)
Definition String_of (n : Z) : string := NilZero.string_of_int (Z.to_int n).

(** [s.padStart(n, c)] for a one-character filler. *)
Fixpoint replicate (n : nat) (c : ascii) : string :=
  match n with
  | O => EmptyString
  | S k => String c (replicate k c)
  end.

Definition padStart (n : nat) (c : ascii) (s : string) : string :=
  replicate (n - String.length s) c ++ s.

(** [s.split(c)] for a one-character separator. *)
Fixpoint split_go (c : ascii) (cur : string) (s : string) : list string :=
  match s with
  | EmptyString => [cur]
  | String a rest =>
      if Ascii.eqb a c then cur :: split_go c EmptyString rest
      else split_go c (cur ++ String a EmptyString) rest
  end.

Definition split (c : ascii) (s : string) : list string := split_go c EmptyString s.

Definition is_digit (a : ascii) : bool :=
  let n := N_of_ascii a in ((48 <=? n) && (n <=? 57))%N.

Definition digit_val (a : ascii) : Z := Z.of_N (N_of_ascii a) - 48.

(** Longest prefix of decimal digits, and what follows it. *)
Fixpoint span_digits (s : string) : string * string :=
  match s with
  | String a rest =>
      if is_digit a then
        let (d, r) := span_digits rest in (String a d, r)
      else (EmptyString, s)
  | EmptyString => (EmptyString, EmptyString)
  end.

Fixpoint digits_value (acc : Z) (s : string) : Z :=
  match s with
  | EmptyString => acc
  | String a rest => digits_value (10 * acc + digit_val a) rest
  end.

(** [parseInt(s)] in base ten: an optional sign, then the longest prefix of
    digits; [None] is NaN. *)
Definition parseInt (s : string) : option Z :=
  let (neg, body) :=
    match s with
    | String "-" r => (true, r)
    | String "+" r => (false, r)
    | _ => (false, s)
    end in
  let (d, _) := span_digits body in
  match d with
  | EmptyString => None
  | _ => Some (if neg then - digits_value 0 d else digits_value 0 d)
  end.

(** *** Dates

    A [Date] holds a time value: milliseconds since the epoch, or NaN
    ([None]).  The host supplies the clock and the local time zone. *)

Record Runtime := {
  clock : Z;                 (* Date.now() *)
  offsetAtUTC : Z -> Z;      (* getTimezoneOffset() of a date, by its time value *)
  offsetAtLocal : Z -> Z;    (* the same offset, looked up by local wall-clock time *)
  timeZone : string;         (* Intl.DateTimeFormat().resolvedOptions().timeZone *)
  otherDates : string -> option Z
                             (* new Date(s) for the strings whose reading is left
                                to the engine and is not modelled below *)
}.

Definition Date := option Z.

Definition msPerMinute : Z := 60000.
Definition msPerHour : Z := 3600000.
Definition msPerDay : Z := 86400000.

Definition TimeClip (t : Z) : Date :=
  if Z.abs t <=? 8640000000000000 then Some t else None.

Definition LocalTime (rt : Runtime) (t : Z) : Z := t - offsetAtUTC rt t * msPerMinute.
Definition UTC (rt : Runtime) (t : Z) : Z := t + offsetAtLocal rt t * msPerMinute.

Definition Day (t : Z) : Z := t / msPerDay.
Definition TimeWithinDay (t : Z) : Z := t mod msPerDay.
Definition HourFromTime (t : Z) : Z := (t / msPerHour) mod 24.
Definition MinFromTime (t : Z) : Z := (t / msPerMinute) mod 60.
Definition SecFromTime (t : Z) : Z := (t / 1000) mod 60.
Definition msFromTime (t : Z) : Z := t mod 1000.

Definition MakeTime (h m s ms : Z) : Z := h * msPerHour + m * msPerMinute + s * 1000 + ms.
Definition MakeDate (day time : Z) : Z := day * msPerDay + time.

(** Day number of a proleptic Gregorian date (month 1..12; days past the end
    of the month roll over, as [MakeDay] does). *)
Definition MakeDay (y m d : Z) : Z :=
  let y' := if m <=? 2 then y - 1 else y in
  let era := y' / 400 in
  let yoe := y' - era * 400 in
  let mp := if 2 <? m then m - 3 else m + 9 in
  let doy := (153 * mp + 2) / 5 + d - 1 in
  let doe := yoe * 365 + yoe / 4 - yoe / 100 + doy in
  era * 146097 + doe - 719468.

(** Year, month (1..12) and day of the month of a day number. *)
Definition civil_of_day (z0 : Z) : Z * Z * Z :=
  let z := z0 + 719468 in
  let era := z / 146097 in
  let doe := z - era * 146097 in
  let yoe := (doe - doe / 1460 + doe / 36524 - doe / 146096) / 365 in
  let doy := doe - (365 * yoe + yoe / 4 - yoe / 100) in
  let mp := (5 * doy + 2) / 153 in
  let d := doy - (153 * mp + 2) / 5 + 1 in
  let m := if mp <? 10 then mp + 3 else mp - 9 in
  (yoe + era * 400 + (if m <=? 2 then 1 else 0), m, d).

(** [new Date()] is always a valid date; its time value is the clock. *)
Definition new_Date (rt : Runtime) : Z := clock rt.

(** Getters of a valid date, by its time value. *)
Definition getHours (rt : Runtime) (t : Z) : Z := HourFromTime (LocalTime rt t).
Definition getMinutes (rt : Runtime) (t : Z) : Z := MinFromTime (LocalTime rt t).
Definition getTimezoneOffset (rt : Runtime) (t : Z) : Z := offsetAtUTC rt t.

(** Arithmetic on numbers that may be NaN ([None]). *)
Definition nan_add (a b : option Z) : option Z :=
  match a, b with Some x, Some y => Some (x + y) | _, _ => None end.
Definition nan_mul (a b : option Z) : option Z :=
  match a, b with Some x, Some y => Some (x * y) | _, _ => None end.

(** [date.setMinutes(min)]; [min = None] is NaN. *)
Definition setMinutes (rt : Runtime) (d : Date) (min : option Z) : Date :=
  match d, min with
  | Some t0, Some m =>
      let t := LocalTime rt t0 in
      let date := MakeDate (Day t) (MakeTime (HourFromTime t) m (SecFromTime t) (msFromTime t)) in
      TimeClip (UTC rt date)
  | _, _ => None
  end.

Definition pad (n : nat) (v : Z) : string := padStart n "0" (String_of v).

Definition year_string (y : Z) : string :=
  if (0 <=? y) && (y <=? 9999) then pad 4 y
  else (if y <? 0 then "-" else "+") ++ pad 6 (Z.abs y).

(** [date.toISOString()]: throws a RangeError on an invalid date. *)
Definition toISOString (d : Date) : Completion string :=
  match d with
  | None => Throw RangeError
  | Some t =>
      let '(y, m, dd) := civil_of_day (Day t) in
      Return (year_string y ++ "-" ++ pad 2 m ++ "-" ++ pad 2 dd ++ "T"
              ++ pad 2 (HourFromTime t) ++ ":" ++ pad 2 (MinFromTime t) ++ ":"
              ++ pad 2 (SecFromTime t) ++ "." ++ pad 3 (msFromTime t) ++ "Z")
  end.

(** [new Date(s)] for a string that is not in the date-time format is
    implementation-defined.  Two families of strings are modelled, read the
    way V8 reads them; the reading of every other string is the host's
    ([otherDates]).

    - A date [Y-M-D], a space, a clock time [H:MM], and then nothing (a
      24-hour time) or [ AM] / [ PM]; each number has at most nine digits.
      The time is local time.  The date is invalid unless the month is
      1..12, the day 1..31 and the minute 0..59, and the hour 0..12 with a
      meridiem, 0..23 (or 24:00) without.  Years below 100 go through the
      engine's rules for two-digit years and are left to the host.
    - A string without any digit is an invalid date. *)
Inductive Reading :=
| Local (t : Z)   (* a valid date, by its local time value *)
| Invalid         (* an invalid date *)
| Foreign.        (* not modelled: the host decides *)

Definition expect (c : ascii) (s : string) : option string :=
  match s with
  | String a r => if Ascii.eqb a c then Some r else None
  | EmptyString => None
  end.

Definition number (s : string) : option (Z * string) :=
  let (d, r) := span_digits s in
  match d with
  | EmptyString => None
  | _ => Some (digits_value 0 d, r)
  end.

(** A number of one to nine digits. *)
Definition short_number (s : string) : option (Z * string) :=
  let (d, r) := span_digits s in
  if ((1 <=? String.length d) && (String.length d <=? 9))%nat
  then Some (digits_value 0 d, r)
  else None.

Fixpoint has_digit (s : string) : bool :=
  match s with
  | EmptyString => false
  | String a rest => is_digit a || has_digit rest
  end.

(** The numbers of a string [Y-M-D H:MM], [Y-M-D H:MM AM] or
    [Y-M-D H:MM PM], and the hours its meridiem adds, if it has one. *)
Definition legacy_fields (s : string) : option (Z * Z * Z * Z * Z * option Z) :=
  match short_number s with None => None | Some (y, s1) =>
  match expect "-" s1 with None => None | Some s2 =>
  match short_number s2 with None => None | Some (mo, s3) =>
  match expect "-" s3 with None => None | Some s4 =>
  match short_number s4 with None => None | Some (dd, s5) =>
  match expect " " s5 with None => None | Some s6 =>
  match short_number s6 with None => None | Some (h, s7) =>
  match expect ":" s7 with None => None | Some s8 =>
  match short_number s8 with None => None | Some (mi, s9) =>
    if String.eqb s9 " AM" then Some (y, mo, dd, h, mi, Some 0)
    else if String.eqb s9 " PM" then Some (y, mo, dd, h, mi, Some 12)
    else if String.eqb s9 EmptyString then Some (y, mo, dd, h, mi, None)
    else None
  end end end end end end end end end.

(** The hour of the day, when the hour and the minute written are a clock
    time. *)
Definition hour_of_day (h mi : Z) (meridiem : option Z) : option Z :=
  if 59 <? mi then None
  else
    match meridiem with
    | Some off => if h <=? 12 then Some (h mod 12 + off) else None
    | None => if (h <=? 23) || ((h =? 24) && (mi =? 0)) then Some h else None
    end.

Definition parse_local (s : string) : Reading :=
  match legacy_fields s with
  | Some (y, mo, dd, h, mi, meridiem) =>
      if y <? 100 then Foreign
      else if (1 <=? mo) && (mo <=? 12) && (1 <=? dd) && (dd <=? 31) then
        match hour_of_day h mi meridiem with
        | Some hour => Local (MakeDate (MakeDay y mo dd) (MakeTime hour mi 0 0))
        | None => Invalid
        end
      else Invalid
  | None => if has_digit s then Foreign else Invalid
  end.

Definition Date_of_string (rt : Runtime) (s : string) : Date :=
  match parse_local s with
  | Local t => TimeClip (UTC rt t)
  | Invalid => None
  | Foreign => otherDates rt s
  end.

(** A host whose zone has one fixed offset, and which takes the strings
    left to it for invalid dates. *)
Definition fixed_zone (now off : Z) : Runtime :=
  {| clock := now; offsetAtUTC := fun _ => off; offsetAtLocal := fun _ => off;
     timeZone := "Etc/Fixed"; otherDates := fun _ => None |}.

End Js.

(* ================================================================== *)
(** ** Time and date utilities (helpers/utility) *)
(* ================================================================== *)

Module Utility.
Import Js.

Definition toMinutesSinceMidnight (hours minutes : Z) : Z := hours * 60 + minutes.

Definition formatTime (hours minutes : Z) : string :=
  let ampm := if 12 <=? hours then "PM" else "AM" in
  let hours := Z.rem hours 12 in
  let hours := if hours =? 0 then 12 else hours in
  let _minutes := if minutes <? 10 then "0" ++ String_of minutes else String_of minutes in
  String_of hours ++ ":" ++ _minutes ++ " " ++ ampm.

(** State of the loop of [populateTimeOptions]: the array built so far and
    the local [currentTime]. *)
Definition loop_state : Type := list string * option Z.

Definition loop_body (currentTimeInMinutes : Z) (st : loop_state) (i : Z) : loop_state :=
  let '(timeOptions, currentTime) := st in
  let hours := i / 4 in
  let minutes := Z.rem i 4 * 15 in
  let formattedTime := formatTime hours minutes in
  let optionTimeInMinutes := toMinutesSinceMidnight hours minutes in
  if currentTimeInMinutes <=? optionTimeInMinutes then
    ((timeOptions ++ [formattedTime])%list,
     if optionTimeInMinutes =? currentTimeInMinutes then Some currentTimeInMinutes
     else currentTime)
  else st.

(** The indices [0 .. 24 * 4 - 1] the loop runs over. *)
Definition loop_indices : list Z := map Z.of_nat (seq 0 (24 * 4)).

Definition populateTimeOptions (rt : Runtime) : list string :=
  let now := new_Date rt in
  let currentHours := getHours rt now in
  let currentMinutes := getMinutes rt now / 15 * 15 in
  let '(currentHours, currentMinutes) :=
    if currentMinutes =? 60 then (currentHours + 1, 0) else (currentHours, currentMinutes) in
  let currentTimeInMinutes := toMinutesSinceMidnight currentHours currentMinutes in
  fst (fold_left (loop_body currentTimeInMinutes) loop_indices ([], None)).

Definition getTimeZoneString (rt : Runtime) : string := timeZone rt.

Definition getTimezoneOffset (rt : Runtime) : string :=
  let offsetInMinutes := Js.getTimezoneOffset rt (new_Date rt) in
  let sign := if offsetInMinutes <=? 0 then "+" else "-" in
  let offsetInHours := Z.abs offsetInMinutes / 60 in
  let offsetInRemainingMinutes := Z.rem (Z.abs offsetInMinutes) 60 in
  sign ++ padStart 2 "0" (String_of offsetInHours) ++ ":"
       ++ padStart 2 "0" (String_of offsetInRemainingMinutes).

(** The regular expression [/([+-])(\d{2}):(\d{2})/]: a match anchored at
    the start of [s], then the search for the leftmost match. *)
Definition offset_match_here (s : string) : option (string * string * string) :=
  match s with
  | String c0 (String d1 (String d2 (String c3 (String d4 (String d5 _))))) =>
      if (Ascii.eqb c0 "+" || Ascii.eqb c0 "-")
         && is_digit d1 && is_digit d2 && Ascii.eqb c3 ":" && is_digit d4 && is_digit d5
      then Some (String c0 EmptyString,
                 String d1 (String d2 EmptyString),
                 String d4 (String d5 EmptyString))
      else None
  | _ => None
  end.

Fixpoint offset_match (s : string) : option (string * string * string) :=
  match offset_match_here s with
  | Some groups => Some groups
  | None =>
      match s with
      | String _ rest => offset_match rest
      | EmptyString => None
      end
  end.

Definition convertToRFC3339 (rt : Runtime) (dateString timeString : string)
  : Completion string :=
  let timeZoneOffset := getTimezoneOffset rt in
  let date := Date_of_string rt (dateString ++ " " ++ timeString) in
  match offset_match timeZoneOffset with
  | None => Throw TypeError
  | Some (offsetSign, offsetHours, offsetMinutes) =>
      let offsetInMinutes :=
        nan_mul (nan_add (nan_mul (parseInt offsetHours) (Some 60)) (parseInt offsetMinutes))
                (Some (if String.eqb offsetSign "+" then 1 else -1)) in
      let date := setMinutes rt date (nan_add (option_map (getMinutes rt) date) offsetInMinutes) in
      bind (toISOString date) (fun isoString =>
        match split "T" isoString with
        | isoDate :: isoTime :: _ =>
            Return (isoDate ++ "T" ++ hd "undefined" (split "." isoTime) ++ timeZoneOffset)
        | _ => Throw TypeError
        end)
  end.

End Utility.

(* ================================================================== *)
(** ** The API client (class [Api]) *)
(* ================================================================== *)

Module Api.

(** *** Shared data types *)

Inductive StatusTypes := success | error | ignore.

Definition StatusTypes_eqb (a b : StatusTypes) : bool :=
  match a, b with
  | success, success | error, error | ignore, ignore => true
  | _, _ => false
  end.

(** Modelled from the spec: the shared package [@quickmeet/shared] is not
    among the sources; a conference room is {email, name, seats, floor}. *)
Record IConferenceRoom := {
  email : string;
  name : string;
  seats : Z;
  floor : string
}.

Record EventResponse := {
  eventId : option string;
  summary : option string;
  room : option string;
  start : option string;
  end_ : option string;
  meet : option string;
  ev_floor : option string;
  roomEmail : option string;
  roomId : option string;
  ev_seats : option Z;
  attendees : option (list string);
  createdAt : option Z;
  isEditable : option bool
}.

(** The JavaScript values that travel in the [data] field of an envelope
    and in request parameters. *)
Inductive Value :=
| Undefined
| Null
| Bool (b : bool)
| Num (n : Z)
| Str (s : string)
| Strs (l : list string)
| Rooms (l : list IConferenceRoom)
| Event (e : EventResponse).

(** JavaScript truthiness. *)
Definition truthy (v : Value) : bool :=
  match v with
  | Undefined | Null => false
  | Bool b => b
  | Num n => negb (n =? 0)
  | Str s => negb (String.eqb s EmptyString)
  | Strs _ | Rooms _ | Event _ => true
  end.

(** The envelope [{status, message, data}]. *)
Record ApiResponse := {
  status : StatusTypes;
  message : option string;
  data : Value
}.

(** *** axios *)

Inductive Method := GET | POST | PUT | DELETE.

(** A request configuration object.  [rid] names the object, so that a
    replay of the same object can be told from a new request; [_retry] is
    the flag the response interceptor writes on it. *)
Record Config := {
  rid : nat;
  method : Method;
  url : string;
  params : list (string * Value);
  signal : option nat;
  _retry : bool
}.

Record AxiosResponse := {
  res_status : Z;
  res_data : ApiResponse
}.

Record ErrorResponse := {
  err_status : Z;
  err_data : option ApiResponse
}.

Record AxiosError := {
  code : option string;
  response : option ErrorResponse
}.

(** A settled promise. *)
Inductive Settled (A : Type) :=
| Fulfilled (a : A)
| Rejected (e : AxiosError).
Arguments Fulfilled {A} a.
Arguments Rejected {A} e.

(** What comes back from the network for one HTTP exchange. *)
Inductive NetFault := NetworkDown | TimedOut.

Inductive Reply :=
| Success (http : Z) (body : ApiResponse)        (* a 2xx answer *)
| Failure (http : Z) (body : option ApiResponse) (* any other answer *)
| NoReply (why : NetFault).

(** Observable effects of the client. *)
Inductive Effect :=
| EvRequest (id : nat) (u : string) (retried : bool)
| EvCanceled (id : nat)
| EvRefresh
| EvNavigate (route : string).

(** The world the client runs in: the answers of the network to the
    successive HTTP exchanges, the AbortControllers aborted so far, the
    allocation counters for request and controller objects, and the effects
    performed so far (oldest first). *)
Record World := {
  replies : nat -> Reply;
  exchanges : nat;
  aborted : list nat;
  next_rid : nat;
  next_controller : nat;
  trace : list Effect
}.

Definition log (ev : Effect) (w : World) : World :=
  {| replies := replies w; exchanges := exchanges w; aborted := aborted w;
     next_rid := next_rid w; next_controller := next_controller w;
     trace := (trace w ++ [ev])%list |}.

Definition exchange (w : World) : Reply * World :=
  (replies w (exchanges w),
   {| replies := replies w; exchanges := S (exchanges w); aborted := aborted w;
      next_rid := next_rid w; next_controller := next_controller w;
      trace := trace w |}).

Definition is_aborted (w : World) (s : option nat) : bool :=
  match s with
  | Some c => existsb (Nat.eqb c) (aborted w)
  | None => false
  end.

Definition net_code (f : NetFault) : string :=
  match f with
  | NetworkDown => "ERR_NETWORK"
  | TimedOut => "ECONNABORTED"
  end.

(** How axios settles an answer: 2xx fulfils, everything else rejects with
    an error that carries the response, if there is one. *)
Definition settle (r : Reply) : Settled AxiosResponse :=
  match r with
  | Success http body => Fulfilled {| res_status := http; res_data := body |}
  | Failure http body =>
      Rejected {| code := Some (if http <? 500 then "ERR_BAD_REQUEST" else "ERR_BAD_RESPONSE");
                  response := Some {| err_status := http; err_data := body |} |}
  | NoReply why => Rejected {| code := Some (net_code why); response := None |}
  end.

Definition canceled : AxiosError := {| code := Some "ERR_CANCELED"; response := None |}.

(** One request through the adapter: a request whose signal is aborted
    rejects with [ERR_CANCELED]; otherwise the request is sent and settles
    with the answer of the network. *)
Definition dispatch (cfg : Config) (w : World) : Settled AxiosResponse * World :=
  if is_aborted w (signal cfg) then (Rejected canceled, log (EvCanceled (rid cfg)) w)
  else
    let (r, w1) := exchange (log (EvRequest (rid cfg) (url cfg) (_retry cfg)) w) in
    (settle r, w1).

(** A new request configuration object. *)
Definition new_request (m : Method) (u : string) (ps : list (string * Value))
           (s : option nat) (w : World) : Config * World :=
  ({| rid := next_rid w; method := m; url := u; params := ps; signal := s; _retry := false |},
   {| replies := replies w; exchanges := exchanges w; aborted := aborted w;
      next_rid := S (next_rid w); next_controller := next_controller w;
      trace := trace w |}).

Definition set_retry (cfg : Config) : Config :=
  {| rid := rid cfg; method := method cfg; url := url cfg; params := params cfg;
     signal := signal cfg; _retry := true |}.

(** *** The class *)

(** Modelled from the spec: [config/routes] is not among the sources; the
    route the client redirects to is the sign-in route. *)
Module ROUTES.
Definition signIn : string := "/sign-in".
End ROUTES.

Inductive NavigateFunction := RouterNavigate.

Record t := {
  navigate : option NavigateFunction
}.

Definition call_navigate (api : t) (route : string) (w : World) : World :=
  match navigate api with
  | Some RouterNavigate => log (EvNavigate route) w
  | None => w
  end.

Definition createReply (st : StatusTypes) (msg : option string) (d : Value) : ApiResponse :=
  {| status := st; message := msg; data := d |}.

(** [refreshToken]: a plain [axios.get], outside the intercepted client. *)
Definition refreshToken (w : World) : Value * World :=
  let (r, w1) := exchange (log EvRefresh w) in
  match settle r with
  | Fulfilled res => (data (res_data res), w1)
  | Rejected _ => (Null, w1)
  end.

Definition status_is (e : AxiosError) (http : Z) : bool :=
  match response e with
  | Some r => err_status r =? http
  | None => false
  end.

(** [logout], given the client it posts through: the outcome of the request
    is swallowed and turned into a boolean. *)
Definition logout_through (client : Config -> World -> option (Settled AxiosResponse * World))
           (w : World) : option (bool * World) :=
  let (cfg, w1) := new_request POST "/auth/logout" [] None w in
  match client cfg w1 with
  | None => None
  | Some (Fulfilled _, w') => Some (true, w')
  | Some (Rejected _, w') => Some (false, w')
  end.

(** [this.client(config)] with the response interceptor that
    [handleTokenRefresh] installs.  The interceptor calls the client again
    (to replay the request, and through [logout]), so the definition is by
    recursion on a bound for the depth of these calls; [None] means the
    bound was reached. *)
Fixpoint client (fuel : nat) (api : t) (cfg : Config) (w : World)
  : option (Settled AxiosResponse * World) :=
  match fuel with
  | O => None
  | S fuel' =>
      let (r, w1) := dispatch cfg w in
      match r with
      | Fulfilled res => Some (Fulfilled res, w1)
      | Rejected err =>
          let originalRequest := cfg in
          if status_is err 401 && negb (_retry originalRequest) then
            let originalRequest := set_retry originalRequest in
            let (renewedToken, w2) := refreshToken w1 in
            if negb (truthy renewedToken) then
              match logout_through (client fuel' api) w2 with
              | None => None
              | Some (_, w3) =>
                  Some (Rejected err, call_navigate api ROUTES.signIn w3)
              end
            else client fuel' api originalRequest w2
          else Some (Rejected err, w1)
      end
  end.

Definition request (fuel : nat) (api : t) (m : Method) (u : string)
           (ps : list (string * Value)) (s : option nat) (w : World)
  : option (Settled AxiosResponse * World) :=
  let (cfg, w1) := new_request m u ps s w in
  client fuel api cfg w1.


(** [error.code === c] *)
Definition code_is (err : AxiosError) (c : string) : bool :=
  match code err with
  | Some x => String.eqb x c
  | None => false
  end.

Definition handleError (err : AxiosError) : ApiResponse :=
  if code_is err "ERR_CANCELED" then
    createReply ignore (Some "Pending request aborted") Null
  else
    match response err with
    | Some {| err_data := Some res |} => res
    | _ => createReply Api.error (Some "Something went wrong") Null
    end.

(** [try { const res = await call; return res.data } catch (err) { return
    this.handleError(err) }], the body shared by the domain operations. *)
Definition try_data (call : option (Settled AxiosResponse * World))
  : option (Settled ApiResponse * World) :=
  match call with
  | None => None
  | Some (Fulfilled res, w) => Some (Fulfilled (res_data res), w)
  | Some (Rejected err, w) => Some (Fulfilled (handleError err), w)
  end.

Definition opt_str (o : option string) : Value :=
  match o with Some s => Str s | None => Undefined end.

Definition getAvailableRooms (fuel : nat) (api : t) (signal : nat) (startTime : string)
           (duration : Z) (timeZone : string) (seats : Z)
           (floor eventId : option string) (w : World) :=
  let params := [("startTime", Str startTime); ("duration", Num duration);
                 ("timeZone", Str timeZone); ("seats", Num seats);
                 ("floor", opt_str floor); ("eventId", opt_str eventId)] in
  try_data (request fuel api GET "/api/rooms/available" params (Some signal) w).

Definition getRooms (fuel : nat) (api : t) (startTime endTime timeZone : string) (w : World) :=
  try_data (request fuel api GET "/api/events"
              [("startTime", Str startTime); ("endTime", Str endTime);
               ("timeZone", Str timeZone)] None w).

(** Modelled from the spec: [BookRoomDto] of [@quickmeet/shared], the booking
    request {startTime, duration, seats, floor, timeZone, createConference,
    title, room, attendees}, with the fields [onBookClick] fills in. *)
Record BookRoomDto := {
  dto_startTime : string;
  dto_duration : Z;
  dto_seats : Z;
  dto_floor : option string;
  dto_timeZone : string;
  dto_createConference : option bool;
  dto_title : option string;
  dto_room : string;
  dto_attendees : option (list string)
}.

Definition payload_fields (p : BookRoomDto) : list (string * Value) :=
  [("startTime", Str (dto_startTime p)); ("duration", Num (dto_duration p));
   ("seats", Num (dto_seats p)); ("floor", opt_str (dto_floor p));
   ("timeZone", Str (dto_timeZone p));
   ("createConference", match dto_createConference p with Some b => Bool b | None => Undefined end);
   ("title", opt_str (dto_title p)); ("room", Str (dto_room p));
   ("attendees", match dto_attendees p with Some l => Strs l | None => Undefined end)].

Definition createEvent (fuel : nat) (api : t) (payload : BookRoomDto) (w : World) :=
  try_data (request fuel api POST "/api/event" (payload_fields payload) None w).

Definition updateEvent (fuel : nat) (api : t) (eventId : string) (payload : BookRoomDto)
           (w : World) :=
  try_data (request fuel api PUT "/api/event"
              (("eventId", Str eventId) :: payload_fields payload) None w).

Definition deleteEvent (fuel : nat) (api : t) (eventId : string) (w : World) :=
  try_data (request fuel api DELETE ("/api/event?id=" ++ eventId) [] None w).

Definition getMaxSeatCount (fuel : nat) (api : t) (w : World) :=
  try_data (request fuel api GET "/api/rooms/highest-seat-count" [] None w).

Definition getFloors (fuel : nat) (api : t) (w : World) :=
  try_data (request fuel api GET "/api/floors" [] None w).

(** *** OAuth operations *)

Definition getOAuthUrl (fuel : nat) (api : t) (w : World)
  : option (Settled ApiResponse * World) :=
  match request fuel api GET "/auth/oauth2/url" [] None w with
  | None => None
  | Some (Fulfilled res, w') =>
      Some (Fulfilled (createReply success (Some EmptyString) (data (res_data res))), w')
  | Some (Rejected err, w') => Some (Fulfilled (handleError err), w')
  end.

(** [code] is what the caller passes; [undefined] when it has none. *)
Definition handleOAuthCallback (fuel : nat) (api : t) (code : option string) (w : World)
  : option (Settled ApiResponse * World) :=
  match request fuel api POST "/auth/oauth2/callback" [("code", opt_str code)] None w with
  | None => None
  | Some (Fulfilled _, w') => Some (Fulfilled (createReply success None Undefined), w')
  | Some (Rejected err, w') => Some (Fulfilled (handleError err), w')
  end.

(** What the extension's background script answers to the [startAuthFlow]
    message. *)
Record AuthFlowResponse := {
  flow_success : bool;
  flow_error : option string;
  flow_code : option string
}.

(** [a || b] on optional strings: the empty string is falsy. *)
Definition message_or (a : option string) (b : string) : option string :=
  match a with
  | Some s => if String.eqb s EmptyString then Some b else a
  | None => Some b
  end.

(** [handleChromeOauthFlow(authUrl)], given the answer of the extension to
    the message [{ type: 'startAuthFlow', redirectUrl: authUrl }]. *)
Definition handleChromeOauthFlow (fuel : nat) (api : t) (authUrl : Value)
           (extension : Value -> AuthFlowResponse) (w : World)
  : option (Settled ApiResponse * World) :=
  let response := extension authUrl in
  if negb (flow_success response) then
    Some (Fulfilled (createReply Api.error (flow_error response) Undefined), w)
  else
    match handleOAuthCallback fuel api (flow_code response) w with
    | None => None
    | Some (Rejected err, w') => Some (Rejected err, w')
    | Some (Fulfilled res, w') =>
        if StatusTypes_eqb (status res) Api.error then
          Some (Fulfilled (createReply Api.error
                             (message_or (message res) "Something went wrong") Undefined), w')
        else
          Some (Fulfilled (createReply success (Some "OAuth flow completed") Undefined), w')
    end.

Definition loginChrome (fuel : nat) (api : t) (extension : Value -> AuthFlowResponse)
           (w : World) : option (Settled ApiResponse * World) :=
  match getOAuthUrl fuel api w with
  | None => None
  | Some (Rejected err, w') => Some (Rejected err, w')
  | Some (Fulfilled reply, w') =>
      if truthy (data reply) then handleChromeOauthFlow fuel api (data reply) extension w'
      else Some (Fulfilled (createReply Api.error None Undefined), w')
  end.

(** What [login] does to the page: an error toast, or a full-page redirect. *)
Inductive LoginOutcome :=
| ToastError (msg : string)
| Redirect (href : Value).

Definition login (fuel : nat) (api : t) (w : World)
  : option (Settled LoginOutcome * World) :=
  match getOAuthUrl fuel api w with
  | None => None
  | Some (Rejected err, w') => Some (Rejected err, w')
  | Some (Fulfilled reply, w') =>
      if negb (truthy (data reply)) then
        Some (Fulfilled (ToastError "Failed to retrieve oauth callback url"), w')
      else Some (Fulfilled (Redirect (data reply)), w')
  end.

End Api.

(* ================================================================== *)
(** ** The booking view (component [BookRoomView]) *)
(* ================================================================== *)

Module BookRoomView.
Import Js Api.

Record DropdownOption := {
  opt_text : string;
  opt_value : string
}.

Record RoomsDropdownOption := {
  value : string;
  text : string;
  option_seats : Z;
  option_floor : string
}.

(** Modelled from the spec: [helpers/types] is not among the sources; the
    form state holds the selected time, duration, seat count, room,
    conference flag, attendees and title. *)
Record FormData := {
  startTime : string;
  duration : Z;
  form_seats : Z;
  form_room : option string;
  conference : option bool;
  form_attendees : option (list string);
  title : option string
}.

(** Modelled from the spec: the stored user preferences
    ([context/PreferencesContext], not among the sources), with the fields
    the view reads. *)
Record Preferences := {
  pref_duration : Z;
  pref_seats : Z;
  pref_floor : option string;
  pref_title : option string
}.

Definition createRoomDropdownOptions (rooms : list IConferenceRoom) : list RoomsDropdownOption :=
  map (fun room => {| value := email room; text := name room;
                      option_seats := seats room; option_floor := floor room |}) rooms.

(** The state of the component (its [useState] cells and the
    [abortControllerRef] ref), followed by what it has shown to the user
    and told its parent: the envelopes passed to [renderError], the
    success toasts and the number of [onRoomBooked] calls. *)
Record View := {
  bookClickLoading : bool;
  roomLoading : bool;
  loading : bool;
  initialPageLoad : bool;
  timeOptions : list DropdownOption;
  durationOptions : list DropdownOption;
  roomCapacityOptions : list DropdownOption;
  availableRoomOptions : list RoomsDropdownOption;
  formData : FormData;
  abortControllerRef : option nat;
  rendered : list ApiResponse;
  toasts : list string;
  booked : nat
}.

Definition setBookClickLoading (b : bool) (v : View) : View :=
  {| bookClickLoading := b; roomLoading := roomLoading v; loading := loading v;
     initialPageLoad := initialPageLoad v; timeOptions := timeOptions v;
     durationOptions := durationOptions v; roomCapacityOptions := roomCapacityOptions v;
     availableRoomOptions := availableRoomOptions v; formData := formData v;
     abortControllerRef := abortControllerRef v; rendered := rendered v;
     toasts := toasts v; booked := booked v |}.

Definition setRoomLoading (b : bool) (v : View) : View :=
  {| bookClickLoading := bookClickLoading v; roomLoading := b; loading := loading v;
     initialPageLoad := initialPageLoad v; timeOptions := timeOptions v;
     durationOptions := durationOptions v; roomCapacityOptions := roomCapacityOptions v;
     availableRoomOptions := availableRoomOptions v; formData := formData v;
     abortControllerRef := abortControllerRef v; rendered := rendered v;
     toasts := toasts v; booked := booked v |}.

Definition setAvailableRoomOptions (l : list RoomsDropdownOption) (v : View) : View :=
  {| bookClickLoading := bookClickLoading v; roomLoading := roomLoading v; loading := loading v;
     initialPageLoad := initialPageLoad v; timeOptions := timeOptions v;
     durationOptions := durationOptions v; roomCapacityOptions := roomCapacityOptions v;
     availableRoomOptions := l; formData := formData v;
     abortControllerRef := abortControllerRef v; rendered := rendered v;
     toasts := toasts v; booked := booked v |}.

Definition setFormData (f : FormData) (v : View) : View :=
  {| bookClickLoading := bookClickLoading v; roomLoading := roomLoading v; loading := loading v;
     initialPageLoad := initialPageLoad v; timeOptions := timeOptions v;
     durationOptions := durationOptions v; roomCapacityOptions := roomCapacityOptions v;
     availableRoomOptions := availableRoomOptions v; formData := f;
     abortControllerRef := abortControllerRef v; rendered := rendered v;
     toasts := toasts v; booked := booked v |}.

Definition set_abortControllerRef (c : option nat) (v : View) : View :=
  {| bookClickLoading := bookClickLoading v; roomLoading := roomLoading v; loading := loading v;
     initialPageLoad := initialPageLoad v; timeOptions := timeOptions v;
     durationOptions := durationOptions v; roomCapacityOptions := roomCapacityOptions v;
     availableRoomOptions := availableRoomOptions v; formData := formData v;
     abortControllerRef := c; rendered := rendered v;
     toasts := toasts v; booked := booked v |}.

(** Modelled from the spec: [renderError] of [helpers/utility] is not among
    the sources; it surfaces the error to the user, which is recorded here. *)
Definition renderError (res : ApiResponse) (v : View) : View :=
  {| bookClickLoading := bookClickLoading v; roomLoading := roomLoading v; loading := loading v;
     initialPageLoad := initialPageLoad v; timeOptions := timeOptions v;
     durationOptions := durationOptions v; roomCapacityOptions := roomCapacityOptions v;
     availableRoomOptions := availableRoomOptions v; formData := formData v;
     abortControllerRef := abortControllerRef v; rendered := (rendered v ++ [res])%list;
     toasts := toasts v; booked := booked v |}.

Definition toast_success (msg : string) (v : View) : View :=
  {| bookClickLoading := bookClickLoading v; roomLoading := roomLoading v; loading := loading v;
     initialPageLoad := initialPageLoad v; timeOptions := timeOptions v;
     durationOptions := durationOptions v; roomCapacityOptions := roomCapacityOptions v;
     availableRoomOptions := availableRoomOptions v; formData := formData v;
     abortControllerRef := abortControllerRef v; rendered := rendered v;
     toasts := (toasts v ++ [msg])%list; booked := booked v |}.

Definition onRoomBooked (v : View) : View :=
  {| bookClickLoading := bookClickLoading v; roomLoading := roomLoading v; loading := loading v;
     initialPageLoad := initialPageLoad v; timeOptions := timeOptions v;
     durationOptions := durationOptions v; roomCapacityOptions := roomCapacityOptions v;
     availableRoomOptions := availableRoomOptions v; formData := formData v;
     abortControllerRef := abortControllerRef v; rendered := rendered v;
     toasts := toasts v; booked := S (booked v) |}.

Definition with_room (f : FormData) (r : option string) : FormData :=
  {| startTime := startTime f; duration := duration f; form_seats := form_seats f;
     form_room := r; conference := conference f; form_attendees := form_attendees f;
     title := title f |}.

(** [controller.abort()] and [new AbortController()]. *)
Definition abort (c : nat) (w : World) : World :=
  {| replies := replies w; exchanges := exchanges w; aborted := c :: aborted w;
     next_rid := next_rid w; next_controller := next_controller w; trace := trace w |}.

Definition new_AbortController (w : World) : nat * World :=
  (next_controller w,
   {| replies := replies w; exchanges := exchanges w; aborted := aborted w;
      next_rid := next_rid w; next_controller := S (next_controller w);
      trace := trace w |}).

(** [new Date(Date.now()).toISOString().split('T')[0]] *)
Definition today (rt : Runtime) : Completion string :=
  bind (toISOString (Some (clock rt))) (fun iso => Return (hd "undefined" (split "T" iso))).

(** An availability query that has been issued and not yet answered: the
    arguments given to [api.getAvailableRooms] and the [formData] the
    running call of [setAvailableRooms] closed over.  The call is suspended
    at its [await]; what it resolves with is computed when it settles, in
    the world of that moment (with the controllers aborted since). *)
Record Query := {
  q_signal : nat;
  q_startTime : string;
  q_duration : Z;
  q_timeZone : string;
  q_seats : Z;
  q_floor : option string;
  q_formData : FormData
}.

(** [setAvailableRooms] up to its [await]. *)
Definition setAvailableRooms_start (rt : Runtime) (preferences : Preferences)
           (v : View) (w : World) : Completion (Query * View * World) :=
  let fd := formData v in
  bind (today rt) (fun date =>
  bind (Utility.convertToRFC3339 rt date (startTime fd)) (fun formattedStartTime =>
    let v1 := setRoomLoading true v in
    let w1 := match abortControllerRef v1 with
              | Some c => abort c w
              | None => w
              end in
    let (c, w2) := new_AbortController w1 in
    let v2 := set_abortControllerRef (Some c) v1 in
    Return ({| q_signal := c; q_startTime := formattedStartTime;
               q_duration := duration fd; q_timeZone := Utility.getTimeZoneString rt;
               q_seats := form_seats fd; q_floor := pref_floor preferences;
               q_formData := fd |}, v2, w2))).

(** The call [api.getAvailableRooms(...)] a query is waiting for. *)
Definition query_call (fuel : nat) (api : Api.t) (q : Query) (w : World) :=
  getAvailableRooms fuel api (q_signal q) (q_startTime q) (q_duration q) (q_timeZone q)
                    (q_seats q) (q_floor q) None w.

(** [setAvailableRooms] from its [await] on, given the envelope the call
    resolved with.  The payload of a successful envelope is an array of
    rooms ([res.data as IConferenceRoom[]]); reading [length] of anything
    else is taken to throw. *)
Definition setAvailableRooms_resume (q : Query) (res : ApiResponse) (v : View)
  : Completion unit * View :=
  let v1 := setRoomLoading false v in
  if StatusTypes_eqb (status res) ignore then (Return tt, v1)
  else if StatusTypes_eqb (status res) Api.error then (Return tt, renderError res v1)
  else
    match data res with
    | Rooms rooms =>
        let '(roomEmail, roomOptions) :=
          match rooms with
          | first :: _ => (Some (email first), createRoomDropdownOptions rooms)
          | [] => (None, [])
          end in
        let v2 := setFormData (with_room (q_formData q) roomEmail) v1 in
        (Return tt, setAvailableRoomOptions roomOptions v2)
    | _ => (Throw TypeError, v1)
    end.

(** A whole call of [setAvailableRooms] that nothing interrupts. *)
Definition setAvailableRooms (fuel : nat) (rt : Runtime) (api : Api.t)
           (preferences : Preferences) (v : View) (w : World)
  : option (Completion unit * View * World) :=
  match setAvailableRooms_start rt preferences v w with
  | Throw e => Some (Throw e, v, w)
  | Return (q, v1, w1) =>
      match query_call fuel api q w1 with
      | None => None
      | Some (Rejected _, w2) => Some (Throw Uncaught, v1, w2)
      | Some (Fulfilled res, w2) =>
          let (c, v2) := setAvailableRooms_resume q res v1 in
          Some (c, v2, w2)
      end
  end.

(** [a || b] on optional strings: the empty string is falsy. *)
Definition or_else (a b : option string) : option string :=
  match a with
  | Some s => if String.eqb s EmptyString then b else a
  | None => b
  end.

Definition onBookClick (fuel : nat) (rt : Runtime) (api : Api.t)
           (preferences : Preferences) (v : View) (w : World)
  : option (Completion unit * View * World) :=
  let v1 := setBookClickLoading true v in
  let fd := formData v in
  match or_else (form_room fd) None with
  | None => Some (Return tt, v1, w)
  | Some room =>
      match bind (today rt) (fun date => Utility.convertToRFC3339 rt date (startTime fd)) with
      | Throw e => Some (Throw e, v1, w)
      | Return formattedStartTime =>
          let payload :=
            {| dto_startTime := formattedStartTime;
               dto_duration := duration fd;
               dto_seats := form_seats fd;
               dto_floor := or_else (pref_floor preferences) None;
               dto_timeZone := Utility.getTimeZoneString rt;
               dto_createConference := conference fd;
               dto_title := or_else (title fd) (pref_title preferences);
               dto_room := room;
               dto_attendees := form_attendees fd |} in
          match createEvent fuel api payload w with
          | None => None
          | Some (Rejected _, w1) => Some (Throw Uncaught, v1, w1)
          | Some (Fulfilled res, w1) =>
              let v2 := setBookClickLoading false v1 in
              if negb (StatusTypes_eqb (status res) success) then
                match setAvailableRooms fuel rt api preferences v2 w1 with
                | None => None
                | Some (Throw e, v3, w2) => Some (Throw e, v3, w2)
                | Some (Return _, v3, w2) => Some (Return tt, renderError res v3, w2)
                end
              else
                match data res with
                | Undefined | Null => Some (Throw TypeError, v2, w1)
                | d =>
                    let roomName :=
                      match d with
                      | Event {| Api.room := Some s |} => s
                      | _ => "undefined"
                      end in
                    let v3 := toast_success (roomName ++ " has been booked!") v2 in
                    Some (Return tt, onRoomBooked (setAvailableRoomOptions [] v3), w1)
                end
          end
      end
  end.



End BookRoomView.

(* ================================================================== *)
(** ** The calendar controller (backend) *)
(* ================================================================== *)

Module CalenderController.
Import Js.

(** Exactly [k] digits at the start of [s], and what follows them. *)
Fixpoint take_digits (k : nat) (s : string) : option (string * string) :=
  match k with
  | O => Some (EmptyString, s)
  | S k' =>
      match s with
      | String a rest =>
          if is_digit a then
            match take_digits k' rest with
            | Some (d, r) => Some (String a d, r)
            | None => None
            end
          else None
      | EmptyString => None
      end
  end.

Definition fixed_number (k : nat) (s : string) : option (Z * string) :=
  match take_digits k s with
  | Some (d, r) => Some (digits_value 0 d, r)
  | None => None
  end.

(** The zone designator of the date-time format: [Z], or a sign, two digits
    of hours, a colon and two digits of minutes; in minutes east of UTC. *)
Definition parse_zone (s : string) : option Z :=
  match s with
  | String sg rest =>
      if Ascii.eqb sg "Z" then
        match rest with EmptyString => Some 0 | _ => None end
      else if Ascii.eqb sg "+" || Ascii.eqb sg "-" then
        match fixed_number 2 rest with None => None | Some (oh, s1) =>
        match expect ":" s1 with None => None | Some s2 =>
        match fixed_number 2 s2 with None => None | Some (om, s3) =>
          match s3 with
          | EmptyString =>
              if (oh <=? 23) && (om <=? 59)
              then Some ((oh * 60 + om) * (if Ascii.eqb sg "+" then 1 else -1))
              else None
          | _ => None
          end
        end end end
      else None
  | EmptyString => None
  end.

(** [new Date(s)] for a string in the ECMAScript date-time format with
    seconds and a zone, [YYYY-MM-DDTHH:mm:ss] followed by [Z] or [±HH:mm],
    which is what the client sends as [startTime].  The fields must name a
    real date and time; every other string is taken to be an invalid date. *)
Definition parse_iso (s : string) : option Z :=
  match fixed_number 4 s with None => None | Some (y, s1) =>
  match expect "-" s1 with None => None | Some s2 =>
  match fixed_number 2 s2 with None => None | Some (mo, s3) =>
  match expect "-" s3 with None => None | Some s4 =>
  match fixed_number 2 s4 with None => None | Some (dd, s5) =>
  match expect "T" s5 with None => None | Some s6 =>
  match fixed_number 2 s6 with None => None | Some (h, s7) =>
  match expect ":" s7 with None => None | Some s8 =>
  match fixed_number 2 s8 with None => None | Some (mi, s9) =>
  match expect ":" s9 with None => None | Some s10 =>
  match fixed_number 2 s10 with None => None | Some (ss, s11) =>
  match parse_zone s11 with None => None | Some east =>
    let '(y', mo', dd') := civil_of_day (MakeDay y mo dd) in
    if (y' =? y) && (mo' =? mo) && (dd' =? dd) && (1 <=? mo) && (mo <=? 12)
       && (h <=? 23) && (mi <=? 59) && (ss <=? 59)
    then Some (MakeDate (MakeDay y mo dd) (MakeTime h mi ss 0) - east * msPerMinute)
    else None
  end end end end end end end end end end end end.

Definition Date_of_iso (s : string) : Date :=
  match parse_iso s with
  | Some t => TimeClip t
  | None => None
  end.

(** The end time the handlers [getAvailableRooms], [bookRoom] and
    [updateEvent] derive from [startTime] and [duration] before they call
    the calendar service:
    [const startDate = new Date(startTime);
     startDate.setMinutes(startDate.getMinutes() + duration);
     const endTime = startDate.toISOString();] *)
Definition endTime (rt : Runtime) (startTime : string) (duration : Z) : Completion string :=
  let startDate := Date_of_iso startTime in
  let startDate :=
    setMinutes rt startDate (nan_add (option_map (getMinutes rt) startDate) (Some duration)) in
  toISOString startDate.

End CalenderController.

(* ================================================================== *)
(** ** Vocabulary of the specification *)
(* ================================================================== *)

Module Spec.
Import Js.

(** The integers [lo, lo + 1, ..., lo + n - 1]. *)
Definition zrange (lo : Z) (n : nat) : list Z := map (fun k => lo + Z.of_nat k) (seq 0 n).

(** [s] ends with [suffix]. *)
Definition ends_with (suffix s : string) : bool :=
  let n := String.length s in
  let k := String.length suffix in
  (k <=? n)%nat && String.eqb (substring (n - k) k s) suffix.

(** The slot a display string ["H:MM AM"] / ["H:MM PM"] denotes, in minutes
    since midnight. *)
Definition displayMinutes (s : string) : option Z :=
  match number s with None => None | Some (h, s1) =>
  match expect ":" s1 with None => None | Some s2 =>
  match number s2 with None => None | Some (m, s3) =>
    if String.eqb s3 " AM" then Some (h mod 12 * 60 + m)
    else if String.eqb s3 " PM" then Some ((h mod 12 + 12) * 60 + m)
    else None
  end end end.

(** The display string of the [i]-th quarter-hour slot of the day. *)
Definition slot_label (i : Z) : string :=
  Utility.formatTime (i / 4) (Z.rem i 4 * 15).

(** The quarter-hour slots from index [k] to the last one of the day
    (23:45), in minutes since midnight. *)
Definition slots_from (k : nat) : list Z := map (fun i => 15 * Z.of_nat i) (seq k (96 - k)).

(** Minutes since local midnight at the time of the call. *)
Definition now_minutes (rt : Runtime) : Z :=
  getHours rt (new_Date rt) * 60 + getMinutes rt (new_Date rt).

(** The index of the quarter-hour slot the call time falls in. *)
Definition first_slot (rt : Runtime) : nat := Z.to_nat (now_minutes rt / 15).

Definition floor15 (t : Z) : Z := t / 15 * 15.
Definition ceil15 (t : Z) : Z := (t + 14) / 15 * 15.

(** [formatTime] as the specification words it: 0 and 12 are shown as 12,
    the other hours modulo 12; minutes on two digits; AM before noon. *)
Definition display_hour (h : Z) : string :=
  if (h =? 0) || (h =? 12) then "12" else String_of (h mod 12).
Definition two_digits (m : Z) : string := pad 2 m.
Definition period (h : Z) : string := if h <? 12 then "AM" else "PM".
Definition formatTime_spec (h m : Z) : string :=
  display_hour h ++ ":" ++ two_digits m ++ " " ++ period h.

(** A string of the exact shape [±HH:MM]. *)
Definition is_offset_string (s : string) : bool :=
  (String.length s =? 6)%nat
  && match Utility.offset_match_here s with Some _ => true | None => false end.

(** A host at UTC whose clock shows 10:07. *)
Definition seven_past_ten : Runtime := fixed_zone (10 * msPerHour + 7 * msPerMinute) 0.

(** The offset in minutes the host reports for the current time. *)
Definition host_offset (rt : Runtime) : Z := Js.getTimezoneOffset rt (new_Date rt).

(** [c] occurs in [s]. *)
Fixpoint occurs (c : ascii) (s : string) : bool :=
  match s with
  | EmptyString => false
  | String a rest => Ascii.eqb a c || occurs c rest
  end.

(** What the regular expression of [convertToRFC3339] makes of the offset
    string of a host whose offset is [off]: it matches at the start, and
    its groups are the sign, the hours and the minutes. *)
Definition offset_string_ok (off : Z) : bool :=
  let rt := fixed_zone 0 off in
  let s := Utility.getTimezoneOffset rt in
  is_offset_string s
  && match Utility.offset_match s with
     | Some (sg, hh, mm) =>
         String.eqb sg (if off <=? 0 then "+" else "-")
         && match parseInt hh, parseInt mm with
            | Some h, Some m => (h =? Z.abs off / 60) && (m =? Z.abs off mod 60)
            | _, _ => false
            end
     | None => false
     end.

(** *** Vocabulary for the API client *)

(** The envelope the server put in the response an error carries, if any. *)
Definition server_envelope (e : Api.AxiosError) : option Api.ApiResponse :=
  match Api.response e with
  | Some r => Api.err_data r
  | None => None
  end.

(** The error is a cancellation: the one axios raises for an aborted
    request. *)
Definition is_cancellation (e : Api.AxiosError) : bool := Api.code_is e "ERR_CANCELED".

Definition generic_error : Api.ApiResponse :=
  {| Api.status := Api.error; Api.message := Some "Something went wrong"; Api.data := Api.Null |}.

(** The public domain operations, with their arguments. *)
Inductive DomainCall :=
| GetAvailableRooms (signal : nat) (startTime : string) (duration : Z) (timeZone : string)
                    (seats : Z) (floor eventId : option string)
| GetRooms (startTime endTime timeZone : string)
| CreateEvent (payload : Api.BookRoomDto)
| UpdateEvent (eventId : string) (payload : Api.BookRoomDto)
| DeleteEvent (eventId : string)
| GetMaxSeatCount
| GetFloors.

Definition perform (c : DomainCall) (fuel : nat) (api : Api.t) (w : Api.World)
  : option (Api.Settled Api.ApiResponse * Api.World) :=
  match c with
  | GetAvailableRooms sg st du tz se fl ev => Api.getAvailableRooms fuel api sg st du tz se fl ev w
  | GetRooms st en tz => Api.getRooms fuel api st en tz w
  | CreateEvent p => Api.createEvent fuel api p w
  | UpdateEvent ev p => Api.updateEvent fuel api ev p w
  | DeleteEvent ev => Api.deleteEvent fuel api ev w
  | GetMaxSeatCount => Api.getMaxSeatCount fuel api w
  | GetFloors => Api.getFloors fuel api w
  end.

(** The request each operation awaits inside its [try]. *)
Definition transport (c : DomainCall)
  : Api.Method * string * list (string * Api.Value) * option nat :=
  match c with
  | GetAvailableRooms sg st du tz se fl ev =>
      (Api.GET, "/api/rooms/available",
       [("startTime", Api.Str st); ("duration", Api.Num du); ("timeZone", Api.Str tz);
        ("seats", Api.Num se); ("floor", Api.opt_str fl); ("eventId", Api.opt_str ev)],
       Some sg)
  | GetRooms st en tz =>
      (Api.GET, "/api/events",
       [("startTime", Api.Str st); ("endTime", Api.Str en); ("timeZone", Api.Str tz)], None)
  | CreateEvent p => (Api.POST, "/api/event", Api.payload_fields p, None)
  | UpdateEvent ev p =>
      (Api.PUT, "/api/event", ("eventId", Api.Str ev) :: Api.payload_fields p, None)
  | DeleteEvent ev => (Api.DELETE, "/api/event?id=" ++ ev, [], None)
  | GetMaxSeatCount => (Api.GET, "/api/rooms/highest-seat-count", [], None)
  | GetFloors => (Api.GET, "/api/floors", [], None)
  end.

Definition awaited (c : DomainCall) (fuel : nat) (api : Api.t) (w : Api.World)
  : option (Api.Settled Api.AxiosResponse * Api.World) :=
  let '(m, u, ps, s) := transport c in Api.request fuel api m u ps s w.

(** A network that is down. *)
Definition net_down : nat -> Api.Reply := fun _ => Api.NoReply Api.NetworkDown.




(** The answer to a request calls for a token refresh: a rejection with
    status 401. *)
Definition is_unauthorized (r : Api.Settled Api.AxiosResponse) : bool :=
  match r with
  | Api.Fulfilled _ => false
  | Api.Rejected e => Api.status_is e 401
  end.

(** A network that answers 401 to everything. *)
Definition always_401 : nat -> Api.Reply := fun _ => Api.Failure 401 None.

Definition world_of (net : nat -> Api.Reply) : Api.World :=
  {| Api.replies := net; Api.exchanges := 0; Api.aborted := []; Api.next_rid := 1;
     Api.next_controller := 0; Api.trace := [] |}.

Definition first_request : Api.Config :=
  {| Api.rid := 0; Api.method := Api.GET; Api.url := "/api/floors"; Api.params := [];
     Api.signal := None; Api._retry := false |}.

Definition ok_envelope (d : Api.Value) : Api.ApiResponse :=
  {| Api.status := Api.success; Api.message := None; Api.data := d |}.


(** 401, then a refresh that fails, then a logout that is accepted. *)
Definition net_refresh_fails (n : nat) : Api.Reply :=
  match n with
  | O => Api.Failure 401 None
  | S O => Api.NoReply Api.NetworkDown
  | _ => Api.Success 200 (ok_envelope Api.Null)
  end.

Definition with_router : Api.t := {| Api.navigate := Some Api.RouterNavigate |}.

(** *** Vocabulary for the booking view *)

Definition room_a : Api.IConferenceRoom :=
  {| Api.email := "a@rooms.example"; Api.name := "Room A"; Api.seats := 4;
     Api.floor := "F1" |}.

Definition sample_preferences : BookRoomView.Preferences :=
  {| BookRoomView.pref_duration := 30; BookRoomView.pref_seats := 1;
     BookRoomView.pref_floor := None; BookRoomView.pref_title := Some "Quick meeting" |}.

(** A loaded view showing one room, nothing in flight. *)
Definition idle_view (rm : option string) : BookRoomView.View :=
  {| BookRoomView.bookClickLoading := false;
     BookRoomView.roomLoading := false;
     BookRoomView.loading := false;
     BookRoomView.initialPageLoad := true;
     BookRoomView.timeOptions := [];
     BookRoomView.durationOptions := [];
     BookRoomView.roomCapacityOptions := [];
     BookRoomView.availableRoomOptions := BookRoomView.createRoomDropdownOptions [room_a];
     BookRoomView.formData :=
       {| BookRoomView.startTime := "2:00 PM"; BookRoomView.duration := 30;
          BookRoomView.form_seats := 1; BookRoomView.form_room := rm;
          BookRoomView.conference := None; BookRoomView.form_attendees := None;
          BookRoomView.title := None |};
     BookRoomView.abortControllerRef := None;
     BookRoomView.rendered := [];
     BookRoomView.toasts := [];
     BookRoomView.booked := 0 |}.

(** A host at UTC on 2024-01-15, 10:07. *)
Definition sample_host : Runtime :=
  fixed_zone (MakeDate (MakeDay 2024 1 15) (MakeTime 10 7 0 0)) 0.

(** Every controller that has been aborted, and the one the view holds, has
    been allocated. *)
Definition controllers_allocated (v : BookRoomView.View) (w : Api.World) : Prop :=
  (forall c, In c (Api.aborted w) -> (c < Api.next_controller w)%nat)
  /\ (forall c, BookRoomView.abortControllerRef v = Some c -> (c < Api.next_controller w)%nat).

(** *** Vocabulary for the further properties *)

(** Every character of [s] satisfies [p]. *)
Fixpoint all_chars (p : ascii -> bool) (s : string) : bool :=
  match s with
  | EmptyString => true
  | String a rest => p a && all_chars p rest
  end.

(** The characters of a number written in decimal. *)
Definition numeric (a : ascii) : bool := is_digit a || Ascii.eqb a "-" || Ascii.eqb a "+".

(** The characters of a date or a clock time: those of numbers, and the
    colon. *)
Definition stamp_char (a : ascii) : bool := numeric a || Ascii.eqb a ":".

(** A time value written as a calendar date, [YYYY-MM-DD], as a clock time to
    the second, [HH:mm:ss], and as both, [YYYY-MM-DDTHH:mm:ss]. *)
Definition date_part (t : Z) : string :=
  let '(y, m, dd) := civil_of_day (Day t) in
  year_string y ++ "-" ++ pad 2 m ++ "-" ++ pad 2 dd.

Definition time_part (t : Z) : string :=
  pad 2 (HourFromTime t) ++ ":" ++ pad 2 (MinFromTime t) ++ ":" ++ pad 2 (SecFromTime t).

Definition wall_clock (t : Z) : string := date_part t ++ "T" ++ time_part t.

(** The largest time value a [Date] can hold. *)
Definition max_time : Z := 8640000000000000.

(** [s] is a non-empty string of digits that reads as the number [n]. *)
Definition reads_as (s : string) (n : Z) : bool :=
  all_chars is_digit s
  && negb (String.eqb s EmptyString)
  && (digits_value 0 s =? n).

(** The year of a time value, in UTC. *)
Definition year_of (t : Z) : Z := fst (fst (civil_of_day (Day t))).

(** The quarter-hours of a day as valid clock times. *)
Definition valid_time (h m : Z) : Prop := 0 <= h <= 23 /\ 0 <= m <= 59.

(** The network answers the exchange with a 401. *)
Definition answers_401 (r : Api.Reply) : bool :=
  match r with
  | Api.Failure http _ => http =? 401
  | _ => false
  end.

(** An extension that completes the flow with a code, and one that fails. *)
Definition extension_ok : Api.Value -> Api.AuthFlowResponse :=
  fun _ => {| Api.flow_success := true; Api.flow_error := None; Api.flow_code := Some "4/abc" |}.
Definition extension_denied : Api.Value -> Api.AuthFlowResponse :=
  fun _ => {| Api.flow_success := false; Api.flow_error := Some "denied"; Api.flow_code := None |}.

(** The server hands out an authorization URL and accepts what follows. *)
Definition net_oauth (n : nat) : Api.Reply :=
  match n with
  | O => Api.Success 200 (ok_envelope (Api.Str "https://accounts.example/auth"))
  | _ => Api.Success 200 (ok_envelope Api.Null)
  end.

Definition is_callback (ev : Api.Effect) : bool :=
  match ev with
  | Api.EvRequest _ u _ => String.eqb u "/auth/oauth2/callback"
  | _ => false
  end.

(** The envelope a reply of the network carries, if any. *)
Definition reply_envelope (r : Api.Reply) : option Api.ApiResponse :=
  match r with
  | Api.Success _ body => Some body
  | Api.Failure _ body => body
  | Api.NoReply _ => None
  end.

(** [n] availability queries started one after the other, none of them
    answered yet: the queries, the latest first, and the view and the world
    after the last start. *)
Fixpoint start_many (n : nat) (rt : Runtime) (prefs : BookRoomView.Preferences)
         (v : BookRoomView.View) (w : Api.World)
  : Completion (list BookRoomView.Query * BookRoomView.View * Api.World) :=
  match n with
  | O => Return ([], v, w)
  | S k =>
      bind (start_many k rt prefs v w) (fun '(qs, v1, w1) =>
      bind (BookRoomView.setAvailableRooms_start rt prefs v1 w1) (fun '(q, v2, w2) =>
        Return (q :: qs, v2, w2)))
  end.

Definition is_booking (ev : Api.Effect) : bool :=
  match ev with
  | Api.EvRequest _ u _ => String.eqb u "/api/event"
  | _ => false
  end.

(** The server books the room. *)
Definition net_booked (n : nat) : Api.Reply :=
  Api.Success 200
    {| Api.status := Api.success; Api.message := Some "Room has been booked";
       Api.data := Api.Event
         {| Api.eventId := Some "e1"; Api.summary := None; Api.room := Some "Room A";
            Api.start := None; Api.end_ := None; Api.meet := None; Api.ev_floor := None;
            Api.roomEmail := None; Api.roomId := None; Api.ev_seats := None;
            Api.attendees := None; Api.createdAt := None; Api.isEditable := None |} |}.

(** [s] has exactly [k] characters, all digits, and reads as [n]. *)
Definition reads_exactly (k : nat) (s : string) (n : Z) : bool :=
  (String.length s =? k)%nat && reads_as s n.


(** A host at UTC whose clock shows 10:14:59.999. *)
Definition end_of_first_quarter : Runtime := fixed_zone (MakeTime 10 14 59 999) 0.

(** The [data] of the envelope an answer of the network yields: that of the
    body it carries, and null when it carries none. *)
Definition answer_data (r : Api.Reply) : Api.Value :=
  match reply_envelope r with
  | Some body => Api.data body
  | None => Api.Null
  end.

(** The answer to the callback request lets the sign-in through: it is a
    success, or a failure whose body is an envelope that does not say
    "error". *)
Definition callback_accepted (r : Api.Reply) : bool :=
  match r with
  | Api.Success _ _ => true
  | _ =>
      match reply_envelope r with
      | Some body => negb (Api.StatusTypes_eqb (Api.status body) Api.error)
      | None => false
      end
  end.

(** The server hands out an authorization URL and then refuses the code. *)
Definition net_oauth_refused (n : nat) : Api.Reply :=
  match n with
  | O => Api.Success 200 (ok_envelope (Api.Str "https://accounts.example/auth"))
  | _ => Api.Failure 400 None
  end.

(** The booking request [onBookClick] builds for a room and a start time. *)
Definition booking_request (rt : Runtime) (prefs : BookRoomView.Preferences)
           (fd : BookRoomView.FormData) (room start : string) : Api.BookRoomDto :=
  {| Api.dto_startTime := start;
     Api.dto_duration := BookRoomView.duration fd;
     Api.dto_seats := BookRoomView.form_seats fd;
     Api.dto_floor := BookRoomView.or_else (BookRoomView.pref_floor prefs) None;
     Api.dto_timeZone := Utility.getTimeZoneString rt;
     Api.dto_createConference := BookRoomView.conference fd;
     Api.dto_title := BookRoomView.or_else (BookRoomView.title fd) (BookRoomView.pref_title prefs);
     Api.dto_room := room;
     Api.dto_attendees := BookRoomView.form_attendees fd |}.

(** The server refuses the booking. *)
Definition net_room_taken (n : nat) : Api.Reply :=
  Api.Failure 409
    (Some {| Api.status := Api.error; Api.message := Some "Room is not available";
             Api.data := Api.Null |}).

(** The zone of the host has the offset [off] at every instant. *)
Definition fixed_offset (rt : Runtime) (off : Z) : Prop :=
  forall t, offsetAtUTC rt t = off /\ offsetAtLocal rt t = off.

(** [s] has at most [k] characters, all digits, and reads as [n]. *)
Definition reads_within (k : nat) (s : string) (n : Z) : bool :=
  (String.length s <=? k)%nat && reads_as s n.

(** Milliseconds since local midnight at the time of the call. *)
Definition now_millis (rt : Runtime) : Z := TimeWithinDay (LocalTime rt (new_Date rt)).

End Spec.

(* ================================================================== *)
(** ** Properties of the time and date utilities *)
(* ================================================================== *)

Module UtilityFacts.
Import Js Utility Spec.

(** *** Checking a decidable property on a finite range *)

Lemma zrange_complete (P : Z -> bool) (lo : Z) (n : nat) :
  forallb P (zrange lo n) = true ->
  forall z, lo <= z < lo + Z.of_nat n -> P z = true.
Proof.
  intros Hall z Hz.
  rewrite forallb_forall in Hall. apply Hall.
  unfold zrange. apply in_map_iff.
  exists (Z.to_nat (z - lo)). split; [lia|].
  apply in_seq. lia.
Qed.

Lemma hours_range rt t : 0 <= getHours rt t < 24.
Proof. unfold getHours, HourFromTime. apply Z.mod_pos_bound. lia. Qed.

Lemma minutes_range rt t : 0 <= getMinutes rt t < 60.
Proof. unfold getMinutes, MinFromTime. apply Z.mod_pos_bound. lia. Qed.

Lemma now_minutes_range rt : 0 <= now_minutes rt < 1440.
Proof.
  unfold now_minutes.
  pose proof (hours_range rt (new_Date rt)). pose proof (minutes_range rt (new_Date rt)). lia.
Qed.

(** *** [formatTime] *)

Lemma formatTime_agrees_with_spec h m :
  0 <= h <= 23 -> 0 <= m <= 59 -> formatTime h m = formatTime_spec h m.
Proof.
  intros Hh Hm.
  assert (Hall : forallb (fun h => forallb (fun m =>
             String.eqb (formatTime h m) (formatTime_spec h m)) (zrange 0 60)) (zrange 0 24) = true)
    by (vm_compute; reflexivity).
  pose proof (zrange_complete _ 0 24 Hall h ltac:(lia)) as Hrow. cbv beta in Hrow.
  pose proof (zrange_complete _ 0 60 Hrow m ltac:(lia)) as Hcell. cbv beta in Hcell.
  now apply String.eqb_eq.
Qed.

(** C9: for every hour in 0..23 and minute in 0..59, [formatTime] shows
    hours 0 and 12 as "12", writes minutes below 10 on two digits with a
    leading zero, and appends "AM" when the hour given is below 12 and "PM"
    otherwise; in particular 0:00 is "12:00 AM", 12:00 is "12:00 PM" and
    13:05 is "1:05 PM". *)
Theorem formatTime_display (h m : Z) :
  0 <= h <= 23 -> 0 <= m <= 59 ->
  formatTime h m = display_hour h ++ ":" ++ two_digits m ++ " " ++ period h
  /\ (h = 0 \/ h = 12 -> display_hour h = "12")
  /\ (m < 10 -> two_digits m = "0" ++ String_of m)
  /\ (10 <= m -> two_digits m = String_of m)
  /\ (h < 12 -> period h = "AM")
  /\ (12 <= h -> period h = "PM")
  /\ formatTime 0 0 = "12:00 AM"
  /\ formatTime 12 0 = "12:00 PM"
  /\ formatTime 13 5 = "1:05 PM".
Proof.
  intros Hh Hm.
  split; [exact (formatTime_agrees_with_spec h m Hh Hm)|].
  split; [intros [->| ->]; reflexivity|].
  split.
  { intros Hlt.
    assert (Hall : forallb (fun m => String.eqb (two_digits m) ("0" ++ String_of m)) (zrange 0 10) = true)
      by (vm_compute; reflexivity).
    apply String.eqb_eq. exact (zrange_complete _ 0 10 Hall m ltac:(lia)). }
  split.
  { intros Hge.
    assert (Hall : forallb (fun m => String.eqb (two_digits m) (String_of m)) (zrange 10 50) = true)
      by (vm_compute; reflexivity).
    apply String.eqb_eq. exact (zrange_complete _ 10 50 Hall m ltac:(lia)). }
  split.
  { intros Hlt. unfold period. destruct (Z.ltb_spec h 12); [reflexivity|lia]. }
  split.
  { intros Hge. unfold period. destruct (Z.ltb_spec h 12); [lia|reflexivity]. }
  repeat split; reflexivity.
Qed.

Lemma formatTime_display_witness :
  formatTime 9 7 = display_hour 9 ++ ":" ++ two_digits 7 ++ " " ++ period 9
  /\ formatTime 9 7 = "9:07 AM".
Proof.
  split.
  - apply (formatTime_display 9 7); lia.
  - reflexivity.
Defined.

(** *** [populateTimeOptions] *)

Lemma loop_fold (c : Z) (l : list Z) :
  forall acc cur,
    fst (fold_left (loop_body c) l (acc, cur))
    = (acc ++ map slot_label
             (filter (fun i => c <=? toMinutesSinceMidnight (i / 4) (Z.rem i 4 * 15)) l))%list.
Proof.
  induction l as [|i l IH]; intros acc cur.
  - cbn [fold_left fst filter map]. now rewrite app_nil_r.
  - cbn [fold_left filter]. unfold loop_body at 2.
    destruct (c <=? toMinutesSinceMidnight (i / 4) (Z.rem i 4 * 15)) eqn:Hge.
    + rewrite IH. cbn [map]. rewrite <- app_assoc. reflexivity.
    + apply IH.
Qed.

Lemma filter_below (k : nat) :
  forall n a, (a + n <= k)%nat -> filter (fun i => (k <=? i)%nat) (seq a n) = [].
Proof.
  induction n as [|n IH]; intros a Ha; cbn [seq filter]; [reflexivity|].
  destruct (Nat.leb_spec k a); [lia|]. apply IH. lia.
Qed.

Lemma filter_from (k n : nat) :
  (k <= n)%nat -> filter (fun i => (k <=? i)%nat) (seq 0 n) = seq k (n - k).
Proof.
  induction n as [|n IH]; intros Hk.
  - now replace k with O by lia.
  - rewrite seq_S, filter_app. cbn [filter Nat.add].
    destruct (Nat.eq_dec k (S n)) as [->|Hne].
    + rewrite Nat.sub_diag, filter_below by lia. cbn [seq app].
      destruct (Nat.leb_spec (S n) n); [lia|reflexivity].
    + rewrite IH by lia.
      destruct (Nat.leb_spec k n); [|lia].
      replace (S n - k)%nat with (S (n - k)) by lia.
      rewrite seq_S. now replace (k + (n - k))%nat with n by lia.
Qed.

Lemma slot_minutes (i : Z) :
  0 <= i -> toMinutesSinceMidnight (i / 4) (Z.rem i 4 * 15) = 15 * i.
Proof.
  intros Hi. unfold toMinutesSinceMidnight.
  rewrite Z.rem_mod_nonneg by lia.
  pose proof (Z.div_mod i 4 ltac:(lia)). lia.
Qed.

Lemma first_slot_range rt : (first_slot rt < 96)%nat.
Proof.
  unfold first_slot. pose proof (now_minutes_range rt).
  assert (now_minutes rt / 15 < 96) by (apply Z.div_lt_upper_bound; lia).
  assert (0 <= now_minutes rt / 15) by (apply Z.div_pos; lia). lia.
Qed.

Lemma populateTimeOptions_labels rt :
  populateTimeOptions rt
  = map slot_label (map Z.of_nat (seq (first_slot rt) (96 - first_slot rt))).
Proof.
  unfold populateTimeOptions.
  pose proof (hours_range rt (new_Date rt)) as Hh.
  pose proof (minutes_range rt (new_Date rt)) as Hm.
  set (h := getHours rt (new_Date rt)) in *.
  set (m := getMinutes rt (new_Date rt)) in *.
  assert (Hq : 0 <= m / 15 <= 3).
  { split; [apply Z.div_pos; lia|]. assert (m / 15 < 4) by (apply Z.div_lt_upper_bound; lia). lia. }
  destruct (Z.eqb_spec (m / 15 * 15) 60) as [Heq|_]; [lia|].
  rewrite loop_fold, app_nil_l. f_equal.
  unfold loop_indices. change (24 * 4)%nat with 96%nat.
  rewrite <- (filter_from (first_slot rt) 96) by (pose proof (first_slot_range rt); lia).
  assert (Hk : Z.of_nat (first_slot rt) = 4 * h + m / 15).
  { unfold first_slot, now_minutes. fold h. fold m.
    rewrite Z2Nat.id.
    - replace (h * 60 + m) with (m + (4 * h) * 15) by lia.
      rewrite Z.div_add by lia. lia.
    - apply Z.div_pos; lia. }
  generalize (seq 0 96). intros l.
  induction l as [|i l IH]; [reflexivity|].
  cbn [map filter]. rewrite slot_minutes by lia. rewrite IH.
  unfold toMinutesSinceMidnight.
  destruct (Z.leb_spec (h * 60 + m / 15 * 15) (15 * Z.of_nat i));
    destruct (Nat.leb_spec (first_slot rt) i); try reflexivity; lia.
Qed.

Lemma slot_label_denotes (i : nat) :
  (i < 96)%nat -> displayMinutes (slot_label (Z.of_nat i)) = Some (15 * Z.of_nat i).
Proof.
  intros Hi.
  assert (Hall : forallb (fun z => match displayMinutes (slot_label z) with
                                   | Some x => x =? 15 * z
                                   | None => false
                                   end) (zrange 0 96) = true)
    by (vm_compute; reflexivity).
  pose proof (zrange_complete _ 0 96 Hall (Z.of_nat i) ltac:(lia)) as H. cbv beta in H.
  destruct (displayMinutes (slot_label (Z.of_nat i))); [|discriminate].
  apply Z.eqb_eq in H. now subst.
Qed.

Lemma populateTimeOptions_denotes rt :
  map displayMinutes (populateTimeOptions rt) = map Some (slots_from (first_slot rt)).
Proof.
  rewrite populateTimeOptions_labels. unfold slots_from.
  rewrite !map_map.
  apply map_ext_in. intros i Hi. apply in_seq in Hi.
  apply slot_label_denotes. pose proof (first_slot_range rt). lia.
Qed.

Lemma slots_from_nth (k i : nat) :
  (k + i < 96)%nat -> nth_error (slots_from k) i = Some (15 * Z.of_nat (k + i)).
Proof.
  intros Hi. unfold slots_from.
  rewrite nth_error_map, nth_error_seq.
  destruct (Nat.ltb_spec i (96 - k)); [reflexivity|lia].
Qed.

Lemma slots_from_In (k : nat) (x : Z) :
  (k < 96)%nat ->
  In x (slots_from k) <-> (15 * Z.of_nat k <= x <= 1425 /\ x mod 15 = 0).
Proof.
  intros Hk. unfold slots_from. rewrite in_map_iff. split.
  - intros (i & <- & Hi). apply in_seq in Hi. split; [lia|].
    rewrite Z.mul_comm. apply Z.mod_mul. lia.
  - intros (Hx & Hmod). exists (Z.to_nat (x / 15)).
    pose proof (Z.div_mod x 15 ltac:(lia)) as Hdm. rewrite Hmod in Hdm.
    split; [lia|]. apply in_seq. lia.
Qed.

Lemma floor15_first_slot rt : floor15 (now_minutes rt) = 15 * Z.of_nat (first_slot rt).
Proof.
  unfold floor15, first_slot. pose proof (now_minutes_range rt).
  rewrite Z2Nat.id by (apply Z.div_pos; lia). lia.
Qed.

(** C8: called at any time, [populateTimeOptions] returns exactly the
    quarter-hour slots from the 15-minute floor of the call time on, in
    increasing order and 15 minutes apart, the last one being 23:45; the
    result could only be empty after 23:45, and in fact never is. *)
Theorem populateTimeOptions_quarter_hours (rt : Runtime) :
  let opts := populateTimeOptions rt in
  let slots := slots_from (first_slot rt) in
  map displayMinutes opts = map Some slots
  /\ (forall x, In x slots <-> (floor15 (now_minutes rt) <= x <= 1425 /\ x mod 15 = 0))
  /\ nth_error slots 0 = Some (floor15 (now_minutes rt))
  /\ (forall i a b, nth_error slots i = Some a -> nth_error slots (S i) = Some b -> b = a + 15)
  /\ last opts EmptyString = "11:45 PM"
  /\ (opts = [] -> 23 * 60 + 45 < now_minutes rt)
  /\ opts <> [].
Proof.
  intros opts slots. pose proof (first_slot_range rt) as Hk.
  split; [apply populateTimeOptions_denotes|].
  split; [intros x; rewrite floor15_first_slot; now apply slots_from_In|].
  split.
  { unfold slots. rewrite slots_from_nth by lia. rewrite floor15_first_slot. do 2 f_equal. lia. }
  split.
  { intros i a b Ha Hb.
    assert (Hi : (first_slot rt + S i < 96)%nat).
    { assert (Hlen : (S i < length slots)%nat) by (apply nth_error_Some; congruence).
      unfold slots, slots_from in Hlen. rewrite length_map, length_seq in Hlen. lia. }
    unfold slots in *. rewrite slots_from_nth in Ha, Hb by lia.
    assert (Ha' : a = 15 * Z.of_nat (first_slot rt + i)) by congruence.
    assert (Hb' : b = 15 * Z.of_nat (first_slot rt + S i)) by congruence.
    lia. }
  assert (Hopts : opts = (map slot_label (map Z.of_nat
                    (seq (first_slot rt) (95 - first_slot rt))) ++ ["11:45 PM"])%list).
  { unfold opts. rewrite populateTimeOptions_labels.
    replace (96 - first_slot rt)%nat with (S (95 - first_slot rt)) by lia.
    rewrite seq_S, !map_app. cbn [map]. do 2 f_equal.
    replace (first_slot rt + (95 - first_slot rt))%nat with 95%nat by lia. reflexivity. }
  assert (Hne : opts <> []).
  { rewrite Hopts. intros Hnil. now apply app_eq_nil in Hnil as [_ Hnil]. }
  split; [rewrite Hopts; apply last_last|].
  split; [intros Hnil; now contradiction Hne|exact Hne].
Qed.

Lemma now_minutes_millis rt : now_minutes rt = now_millis rt / msPerMinute.
Proof.
  unfold now_minutes, now_millis, getHours, getMinutes, HourFromTime, MinFromTime,
    TimeWithinDay, msPerHour, msPerMinute, msPerDay.
  Z.to_euclidean_division_equations; lia.
Qed.

(** C7, as the code has it: every display string [populateTimeOptions]
    emits denotes a slot at or after the call time rounded down to the
    quarter-hour (the seconds of the call time play no part), so a slot
    that began less than 15 minutes before the call time, to the
    millisecond, or a later one. *)
Theorem populateTimeOptions_not_before_floor (rt : Runtime) (s : string) :
  In s (populateTimeOptions rt) ->
  exists x, displayMinutes s = Some x
            /\ floor15 (now_minutes rt) <= x
            /\ now_minutes rt - 14 <= x
            /\ now_millis rt - 15 * msPerMinute < x * msPerMinute.
Proof.
  intros Hin.
  assert (Hd : In (displayMinutes s) (map displayMinutes (populateTimeOptions rt)))
    by now apply in_map.
  rewrite populateTimeOptions_denotes in Hd.
  apply in_map_iff in Hd as (x & Hx & Hin').
  apply slots_from_In in Hin'; [|apply first_slot_range].
  rewrite <- floor15_first_slot in Hin'.
  exists x. split; [now symmetry|]. split; [lia|].
  unfold floor15 in Hin'. pose proof (Z.div_mod (now_minutes rt) 15 ltac:(lia)).
  pose proof (Z.mod_pos_bound (now_minutes rt) 15 ltac:(lia)).
  split; [lia|].
  assert (Hms : now_millis rt < (now_minutes rt + 1) * msPerMinute).
  { rewrite now_minutes_millis. unfold msPerMinute.
    Z.to_euclidean_division_equations; lia. }
  unfold msPerMinute in *. lia.
Qed.

Lemma populateTimeOptions_not_before_floor_witness :
  In "10:15 AM" (populateTimeOptions seven_past_ten)
  /\ (exists x, displayMinutes "10:15 AM" = Some x
                /\ floor15 (now_minutes seven_past_ten) <= x
                /\ now_minutes seven_past_ten - 14 <= x
                /\ now_millis seven_past_ten - 15 * msPerMinute < x * msPerMinute)
  /\ hd_error (populateTimeOptions end_of_first_quarter) = Some "10:00 AM"
  /\ (exists x, displayMinutes "10:00 AM" = Some x
                /\ now_millis end_of_first_quarter - x * msPerMinute = 899999
                /\ now_millis end_of_first_quarter - 15 * msPerMinute < x * msPerMinute).
Proof.
  assert (Hin : In "10:15 AM" (populateTimeOptions seven_past_ten))
    by (vm_compute; tauto).
  split; [exact Hin|].
  split; [exact (populateTimeOptions_not_before_floor seven_past_ten "10:15 AM" Hin)|].
  split; [reflexivity|].
  assert (Hin' : In "10:00 AM" (populateTimeOptions end_of_first_quarter))
    by (vm_compute; tauto).
  destruct (populateTimeOptions_not_before_floor end_of_first_quarter "10:00 AM" Hin')
    as (x & Hx & _ & _ & Hlate).
  exists x. split; [exact Hx|]. split; [|exact Hlate].
  vm_compute in Hx. injection Hx as <-. reflexivity.
Defined.

(** C7 as stated fails: at 10:07 the first option is "10:00 AM", a slot
    seven minutes in the past and before the next quarter-hour. *)
Lemma populateTimeOptions_includes_started_slot :
  now_minutes seven_past_ten = 607
  /\ hd_error (populateTimeOptions seven_past_ten) = Some "10:00 AM"
  /\ displayMinutes "10:00 AM" = Some 600
  /\ ceil15 607 = 615
  /\ ~ (forall rt s, In s (populateTimeOptions rt) ->
         exists x, displayMinutes s = Some x /\ ceil15 (now_minutes rt) <= x).
Proof.
  split; [reflexivity|]. split; [reflexivity|]. split; [reflexivity|].
  split; [reflexivity|].
  intros Hall.
  destruct (Hall seven_past_ten "10:00 AM") as (x & Hx & Hle).
  - vm_compute. tauto.
  - vm_compute in Hx. injection Hx as <-. vm_compute in Hle. now apply Hle.
Qed.

End UtilityFacts.

(* ================================================================== *)
(** ** Properties of the offset string and of [convertToRFC3339] *)
(* ================================================================== *)

Module OffsetFacts.
Import Js Utility Spec.

(** *** Strings *)

Lemma append_assoc (a b c : string) : (a ++ b) ++ c = a ++ (b ++ c).
Proof. induction a as [|x a IH]; cbn; [reflexivity|now rewrite IH]. Qed.

Lemma length_append (a b : string) :
  String.length (a ++ b) = (String.length a + String.length b)%nat.
Proof. induction a as [|x a IH]; cbn; [reflexivity|now rewrite IH]. Qed.

Lemma substring_all (b : string) : substring 0 (String.length b) b = b.
Proof. induction b as [|x b IH]; cbn; [reflexivity|now rewrite IH]. Qed.

Lemma substring_skip (a b : string) :
  substring (String.length a) (String.length b) (a ++ b) = b.
Proof. induction a as [|x a IH]; cbn; [apply substring_all|exact IH]. Qed.

Lemma ends_with_append (a b : string) : ends_with b (a ++ b) = true.
Proof.
  unfold ends_with. rewrite length_append.
  replace (String.length a + String.length b - String.length b)%nat
    with (String.length a) by lia.
  rewrite substring_skip, String.eqb_refl.
  destruct (Nat.leb_spec (String.length b) (String.length a + String.length b)); [reflexivity|lia].
Qed.

Lemma occurs_append_r (c : ascii) (a b : string) :
  occurs c b = true -> occurs c (a ++ b) = true.
Proof.
  intros Hb. induction a as [|x a IH]; cbn; [exact Hb|].
  rewrite IH. apply orb_true_r.
Qed.

Lemma split_go_nonempty (c : ascii) (s : string) : forall cur, split_go c cur s <> [].
Proof.
  induction s as [|a s IH]; intros cur; cbn; [discriminate|].
  destruct (Ascii.eqb a c); [discriminate|apply IH].
Qed.

Lemma split_two_pieces (c : ascii) (s : string) :
  occurs c s = true ->
  forall cur, exists x y rest, split_go c cur s = x :: y :: rest.
Proof.
  induction s as [|a s IH]; intros Hocc cur; cbn in *; [discriminate|].
  destruct (Ascii.eqb a c).
  - pose proof (split_go_nonempty c s EmptyString) as Hne.
    destruct (split_go c EmptyString s) as [|y rest]; [congruence|].
    now exists cur, y, rest.
  - apply IH. exact Hocc.
Qed.

Lemma toISOString_has_T (t : Z) :
  exists iso, toISOString (Some t) = Return iso /\ occurs "T" iso = true.
Proof.
  unfold toISOString. destruct (civil_of_day (Day t)) as [[y m] dd].
  eexists. split; [reflexivity|].
  do 5 apply occurs_append_r. reflexivity.
Qed.

(** *** [getTimezoneOffset] *)

Lemma offset_string_checked (off : Z) :
  Z.abs off < 6000 -> offset_string_ok off = true.
Proof.
  intros Hoff.
  assert (Hall : forallb (fun a => offset_string_ok a && offset_string_ok (- a))
                         (zrange 0 (60 * 100)) = true)
    by (vm_compute; reflexivity).
  pose proof (UtilityFacts.zrange_complete _ _ _ Hall (Z.abs off) ltac:(lia)) as H.
  cbv beta in H. apply andb_prop in H as [Hpos Hneg].
  destruct (Z.abs_spec off) as [[_ Heq]|[_ Heq]]; rewrite Heq in *.
  - exact Hpos.
  - now rewrite Z.opp_involutive in Hneg.
Qed.

Lemma getTimezoneOffset_by_offset rt :
  getTimezoneOffset rt = getTimezoneOffset (fixed_zone 0 (host_offset rt)).
Proof. reflexivity. Qed.

Lemma offset_groups rt :
  Z.abs (host_offset rt) < 6000 ->
  exists sg hh mm,
    offset_match (getTimezoneOffset rt) = Some (sg, hh, mm)
    /\ sg = (if host_offset rt <=? 0 then "+" else "-")
    /\ parseInt hh = Some (Z.abs (host_offset rt) / 60)
    /\ parseInt mm = Some (Z.abs (host_offset rt) mod 60).
Proof.
  intros Hoff. pose proof (offset_string_checked _ Hoff) as Hok.
  unfold offset_string_ok in Hok. rewrite <- getTimezoneOffset_by_offset in Hok.
  apply andb_prop in Hok as [_ Hok].
  destruct (offset_match (getTimezoneOffset rt)) as [[[sg hh] mm]|]; [|discriminate].
  apply andb_prop in Hok as [Hsg Hnum]. apply String.eqb_eq in Hsg.
  destruct (parseInt hh) as [h|] eqn:Ehh; [|discriminate].
  destruct (parseInt mm) as [m|] eqn:Emm; [|discriminate].
  apply andb_prop in Hnum as [Hh Hm]. apply Z.eqb_eq in Hh, Hm.
  exists sg, hh, mm. subst. repeat split; assumption || reflexivity.
Qed.

(** C6, as the code has it: the offset string starts with '+' when the
    offset the host reports is zero or negative (UTC and east of it) and
    with '-' when it is positive (west of UTC), which is the usual
    convention; for every offset of less than 100 hours the string has the
    shape [±HH:MM]. *)
Theorem getTimezoneOffset_sign (rt : Runtime) :
  (host_offset rt <= 0 -> String.get 0 (getTimezoneOffset rt) = Some "+"%char)
  /\ (0 < host_offset rt -> String.get 0 (getTimezoneOffset rt) = Some "-"%char)
  /\ (Z.abs (host_offset rt) < 6000 -> is_offset_string (getTimezoneOffset rt) = true).
Proof.
  split; [|split].
  - intros Hle. unfold getTimezoneOffset. fold (host_offset rt).
    destruct (Z.leb_spec (host_offset rt) 0); [reflexivity|lia].
  - intros Hlt. unfold getTimezoneOffset. fold (host_offset rt).
    destruct (Z.leb_spec (host_offset rt) 0); [lia|reflexivity].
  - intros Hoff. pose proof (offset_string_checked _ Hoff) as Hok.
    unfold offset_string_ok in Hok. rewrite <- getTimezoneOffset_by_offset in Hok.
    now apply andb_prop in Hok as [Hshape _].
Qed.

Lemma getTimezoneOffset_sign_witness :
  getTimezoneOffset (fixed_zone 0 (-330)) = "+05:30"
  /\ String.get 0 (getTimezoneOffset (fixed_zone 0 (-330))) = Some "+"%char
  /\ is_offset_string (getTimezoneOffset (fixed_zone 0 (-330))) = true.
Proof.
  split; [reflexivity|].
  destruct (getTimezoneOffset_sign (fixed_zone 0 (-330))) as (Hplus & _ & Hshape).
  split.
  - apply Hplus. vm_compute. discriminate.
  - apply Hshape. vm_compute. reflexivity.
Defined.

(** C6 as stated fails: a host five hours west of UTC reports the positive
    offset 300, and the string starts with '-', not '+'. *)
Lemma getTimezoneOffset_west_is_minus :
  host_offset (fixed_zone 0 300) = 300
  /\ getTimezoneOffset (fixed_zone 0 300) = "-05:00"
  /\ ~ (forall rt, (0 < host_offset rt -> String.get 0 (getTimezoneOffset rt) = Some "+"%char)
                  /\ (host_offset rt <= 0 -> String.get 0 (getTimezoneOffset rt) = Some "-"%char)).
Proof.
  split; [reflexivity|]. split; [reflexivity|].
  intros Hall. destruct (Hall (fixed_zone 0 300)) as [Hpos _].
  assert (H : 0 < host_offset (fixed_zone 0 300)) by (vm_compute; reflexivity).
  specialize (Hpos H). vm_compute in Hpos. discriminate.
Qed.

(** *** [convertToRFC3339] *)

(** C5, as the code has it: in a zone with the fixed offset string
    "+05:30", [convertToRFC3339("2024-01-15", "2:00 PM")] is the local wall
    clock followed by the offset, "2024-01-15T14:00:00+05:30", at whatever
    time it is called. *)
Theorem convertToRFC3339_example (now : Z) :
  getTimezoneOffset (fixed_zone now (-330)) = "+05:30"
  /\ convertToRFC3339 (fixed_zone now (-330)) "2024-01-15" "2:00 PM"
     = Return "2024-01-15T14:00:00+05:30".
Proof. split; vm_compute; reflexivity. Qed.

(** C5 as stated fails: the result does not end in "T08:30:00+05:30". *)
Lemma convertToRFC3339_example_not_0830 :
  getTimezoneOffset (fixed_zone 0 (-330)) = "+05:30"
  /\ ~ (exists s, convertToRFC3339 (fixed_zone 0 (-330)) "2024-01-15" "2:00 PM" = Return s
                  /\ ends_with "T08:30:00+05:30" s = true).
Proof.
  split; [reflexivity|].
  intros (s & Hs & Hend).
  vm_compute in Hs. injection Hs as <-. vm_compute in Hend. discriminate.
Qed.

Lemma recompose_minutes (t o : Z) :
  MakeDate (Day t) (MakeTime (HourFromTime t) (MinFromTime t + o) (SecFromTime t) (msFromTime t))
  = t + o * msPerMinute.
Proof.
  unfold MakeDate, MakeTime, Day, HourFromTime, MinFromTime, SecFromTime, msFromTime,
    msPerDay, msPerHour, msPerMinute.
  pose proof (Z.div_mod t 1000 ltac:(lia)).
  pose proof (Z.div_mod (t / 1000) 60 ltac:(lia)).
  pose proof (Z.div_mod (t / 60000) 60 ltac:(lia)).
  pose proof (Z.div_mod (t / 3600000) 24 ltac:(lia)).
  replace (t / 60000) with (t / 1000 / 60) in *
    by (rewrite Z.div_div; [reflexivity|lia|lia]).
  replace (t / 3600000) with (t / 1000 / 60 / 60) in *
    by (rewrite !Z.div_div; [reflexivity|lia..]).
  replace (t / 86400000) with (t / 1000 / 60 / 60 / 24) in *
    by (rewrite !Z.div_div; [reflexivity|lia..]).
  lia.
Qed.

(** The date [convertToRFC3339] formats: the parsed date, with the offset of
    the host taken off its local minutes. *)
Lemma shifted_date rt (date : Date) sg hh mm :
  sg = (if host_offset rt <=? 0 then "+" else "-") ->
  parseInt hh = Some (Z.abs (host_offset rt) / 60) ->
  parseInt mm = Some (Z.abs (host_offset rt) mod 60) ->
  setMinutes rt date
    (nan_add (option_map (getMinutes rt) date)
       (nan_mul (nan_add (nan_mul (parseInt hh) (Some 60)) (parseInt mm))
          (Some (if String.eqb sg "+" then 1 else -1))))
  = match date with
    | Some t0 => TimeClip (UTC rt (LocalTime rt t0 - host_offset rt * msPerMinute))
    | None => None
    end.
Proof.
  intros -> -> ->. destruct date as [t0|]; [|reflexivity].
  cbn [option_map nan_add nan_mul setMinutes]. unfold getMinutes.
  rewrite recompose_minutes. do 2 f_equal.
  pose proof (Z.div_mod (Z.abs (host_offset rt)) 60 ltac:(lia)).
  unfold msPerMinute.
  destruct (Z.leb_spec (host_offset rt) 0); cbn [String.eqb Ascii.eqb Bool.eqb]; lia.
Qed.

(** How [new Date] reads the strings modelled, and which it leaves to the
    host. *)
Example parse_local_readings :
  parse_local "2024-01-15 2:00 PM" = Local (MakeDate (MakeDay 2024 1 15) (MakeTime 14 0 0 0))
  /\ parse_local "2024-01-15 14:00" = Local (MakeDate (MakeDay 2024 1 15) (MakeTime 14 0 0 0))
  /\ parse_local "2024-01-15 12:05 AM" = Local (MakeDate (MakeDay 2024 1 15) (MakeTime 0 5 0 0))
  /\ parse_local "2024-02-31 9:00 AM" = Local (MakeDate (MakeDay 2024 3 2) (MakeTime 9 0 0 0))
  /\ parse_local "2024-13-01 2:00 PM" = Invalid
  /\ parse_local "2024-01-15 13:00 PM" = Invalid
  /\ parse_local "2024-01-15 2:60 PM" = Invalid
  /\ parse_local "not a date x" = Invalid
  /\ parse_local "0099-01-15 2:00 PM" = Foreign
  /\ parse_local "Jan 15, 2024 2:00 PM" = Foreign
  /\ convertToRFC3339 (fixed_zone 0 0) "2024-01-15" "14:00" = Return "2024-01-15T14:00:00+00:00".
Proof. repeat split; vm_compute; reflexivity. Qed.

(** C10, as the code has it: for every offset a host can report (less than
    100 hours) the regular expression matches the offset string, so the
    non-null assertion never fails and no TypeError is thrown; the function
    returns a string ending in the offset string when the date the host
    reads from the two strings, shifted by the offset, is a valid date, and
    throws a RangeError, from [toISOString], when it is not, as when the
    host reads an invalid date. *)
Theorem convertToRFC3339_failure_modes (rt : Runtime) (d t : string) :
  Z.abs (host_offset rt) < 6000 ->
  (exists sg hh mm, offset_match (getTimezoneOffset rt) = Some (sg, hh, mm))
  /\ ((exists s, convertToRFC3339 rt d t = Return s
                /\ ends_with (getTimezoneOffset rt) s = true)
      \/ convertToRFC3339 rt d t = Throw RangeError)
  /\ (Date_of_string rt (d ++ " " ++ t) = None ->
      convertToRFC3339 rt d t = Throw RangeError)
  /\ (forall t0,
        Date_of_string rt (d ++ " " ++ t) = Some t0 ->
        (TimeClip (UTC rt (LocalTime rt t0 - host_offset rt * msPerMinute)) <> None
         <-> exists s, convertToRFC3339 rt d t = Return s)).
Proof.
  intros Hoff.
  destruct (offset_groups rt Hoff) as (sg & hh & mm & Hmatch & Hsg & Hhh & Hmm).
  split; [now exists sg, hh, mm|].
  assert (Hshape : forall t1, exists s,
             bind (toISOString (Some t1)) (fun isoString =>
               match split "T" isoString with
               | isoDate :: isoTime :: _ =>
                   Return (isoDate ++ "T" ++ hd "undefined" (split "." isoTime)
                                   ++ getTimezoneOffset rt)
               | _ => Throw TypeError
               end) = Return s
             /\ ends_with (getTimezoneOffset rt) s = true).
  { intros t1. destruct (toISOString_has_T t1) as (iso & -> & Hocc).
    cbn [bind]. unfold split.
    destruct (split_two_pieces "T" iso Hocc EmptyString) as (x & y & rest & ->).
    eexists. split; [reflexivity|].
    rewrite <- !append_assoc. apply ends_with_append. }
  unfold convertToRFC3339. rewrite Hmatch.
  rewrite (shifted_date rt _ sg hh mm Hsg Hhh Hmm).
  destruct (Date_of_string rt (d ++ " " ++ t)) as [t0|].
  - destruct (TimeClip (UTC rt (LocalTime rt t0 - host_offset rt * msPerMinute)))
      as [t1|] eqn:Eclip.
    + destruct (Hshape t1) as (s & Hs & Hend). rewrite Hs.
      split; [left; now exists s|]. split; [intros Hnone; discriminate Hnone|].
      intros t2 Heq. injection Heq as <-. rewrite Eclip.
      split; [now exists s|intros _ Hnone; discriminate Hnone].
    + cbn [toISOString bind].
      split; [now right|]. split; [intros Hnone; discriminate Hnone|].
      intros t2 Heq. injection Heq as <-. rewrite Eclip.
      split; [congruence|]. intros (s & Hs). discriminate Hs.
  - cbn [toISOString bind].
    split; [now right|]. split; [reflexivity|].
    intros t0 Hsome. discriminate Hsome.
Qed.

Lemma convertToRFC3339_failure_modes_witness :
  offset_match (getTimezoneOffset (fixed_zone 0 300)) = Some ("-", "05", "00")
  /\ convertToRFC3339 (fixed_zone 0 300) "2024-01-15" "2:00 PM"
     = Return "2024-01-15T14:00:00-05:00"
  /\ ((exists s, convertToRFC3339 (fixed_zone 0 300) "2024-01-15" "2:00 PM" = Return s
                /\ ends_with (getTimezoneOffset (fixed_zone 0 300)) s = true)
      \/ convertToRFC3339 (fixed_zone 0 300) "2024-01-15" "2:00 PM" = Throw RangeError).
Proof.
  split; [reflexivity|]. split; [reflexivity|].
  apply (convertToRFC3339_failure_modes (fixed_zone 0 300) "2024-01-15" "2:00 PM").
  vm_compute. reflexivity.
Defined.

(** C10 as stated fails: [convertToRFC3339] is not total over its string
    arguments; a date that does not parse makes [toISOString] throw. *)
Lemma convertToRFC3339_throws_on_invalid_date :
  Date_of_string (fixed_zone 0 0) ("not a date" ++ " " ++ "x") = None
  /\ convertToRFC3339 (fixed_zone 0 0) "not a date" "x" = Throw RangeError
  /\ ~ (forall rt d t, exists s, convertToRFC3339 rt d t = Return s).
Proof.
  split; [reflexivity|]. split; [reflexivity|].
  intros Htotal. destruct (Htotal (fixed_zone 0 0) "not a date" "x") as (s & Hs).
  vm_compute in Hs. discriminate.
Qed.

End OffsetFacts.

(* ================================================================== *)
(** ** Properties of the API client *)
(* ================================================================== *)

Module ApiFacts.
Import Api Spec.

(** *** Error policy *)

Lemma handleError_cancellation (e : AxiosError) :
  is_cancellation e = true ->
  handleError e = createReply ignore (Some "Pending request aborted") Null.
Proof. unfold is_cancellation, handleError. now intros ->. Qed.

Lemma handleError_other (e : AxiosError) :
  is_cancellation e = false ->
  handleError e = match server_envelope e with
                  | Some res => res
                  | None => generic_error
                  end.
Proof.
  unfold is_cancellation, handleError, server_envelope. intros ->.
  destruct (response e) as [[st [res|]]|]; reflexivity.
Qed.

Lemma try_data_fulfils call r w :
  try_data call = Some (r, w) -> exists env, r = Fulfilled env.
Proof.
  unfold try_data. destruct call as [[[res|e] w0]|]; intros H; [| |discriminate].
  - injection H as <- _. now eexists.
  - injection H as <- _. now eexists.
Qed.

Lemma perform_is_guarded (c : DomainCall) fuel api w :
  perform c fuel api w = try_data (awaited c fuel api w).
Proof. destruct c; reflexivity. Qed.

(** C3: whatever error is thrown inside a public domain operation, the
    operation resolves to an envelope and never throws: a cancellation
    gives status "ignore"; any other error gives the envelope the server
    sent when the error carries one, and the generic "Something went wrong"
    error envelope when it carries none. *)
Theorem domain_operations_never_throw (c : DomainCall) (fuel : nat) (api : Api.t)
        (w w' : World) (e : AxiosError) :
  awaited c fuel api w = Some (Rejected e, w') ->
  perform c fuel api w = Some (Fulfilled (handleError e), w')
  /\ (is_cancellation e = true ->
      handleError e = createReply ignore (Some "Pending request aborted") Null
      /\ status (handleError e) = ignore)
  /\ (is_cancellation e = false ->
      forall res, server_envelope e = Some res -> handleError e = res)
  /\ (is_cancellation e = false ->
      server_envelope e = None ->
      handleError e = {| status := Api.error; message := Some "Something went wrong";
                         data := Null |})
  /\ (forall c0 fuel0 api0 w0 r w1,
        perform c0 fuel0 api0 w0 = Some (r, w1) -> exists env, r = Fulfilled env).
Proof.
  intros Hthrown.
  split; [rewrite perform_is_guarded, Hthrown; reflexivity|].
  split; [intros Hc; rewrite (handleError_cancellation e Hc); split; reflexivity|].
  split; [intros Hc res Hres; rewrite (handleError_other e Hc), Hres; reflexivity|].
  split; [intros Hc Hnone; rewrite (handleError_other e Hc), Hnone; reflexivity|].
  intros c0 fuel0 api0 w0 r w1 Hperf. rewrite perform_is_guarded in Hperf.
  exact (try_data_fulfils _ _ _ Hperf).
Qed.

Lemma domain_operations_never_throw_witness :
  exists e w',
    awaited GetFloors 1 with_router (world_of net_down) = Some (Rejected e, w')
    /\ perform GetFloors 1 with_router (world_of net_down)
       = Some (Fulfilled (handleError e), w')
    /\ handleError e = generic_error.
Proof.
  eexists. eexists.
  assert (H : awaited GetFloors 1 with_router (world_of net_down) = Some (Rejected _, _))
    by reflexivity.
  split; [exact H|].
  split; [exact (proj1 (domain_operations_never_throw _ _ _ _ _ _ H))|reflexivity].
Defined.

(** *** The 401 interceptor *)



Lemma refreshToken_effects w :
  trace (snd (refreshToken w)) = (trace w ++ [EvRefresh])%list
  /\ aborted (snd (refreshToken w)) = aborted w
  /\ next_rid (snd (refreshToken w)) = next_rid w.
Proof.
  unfold refreshToken. cbn.
  destruct (settle (replies w (exchanges w))); cbn; auto.
Qed.

Lemma client_step n api cfg w :
  client (S n) api cfg w
  = let (r, w1) := dispatch cfg w in
    match r with
    | Fulfilled res => Some (Fulfilled res, w1)
    | Rejected err =>
        if status_is err 401 && negb (_retry cfg) then
          let (renewedToken, w2) := refreshToken w1 in
          if negb (truthy renewedToken) then
            match logout_through (client n api) w2 with
            | None => None
            | Some (_, w3) => Some (Rejected err, call_navigate api ROUTES.signIn w3)
            end
          else client n api (set_retry cfg) w2
        else Some (Rejected err, w1)
    end.
Proof. reflexivity. Qed.

(** After a rejection that the interceptor does not act on, or a success,
    the client returns what the adapter returned. *)
Lemma client_passes_through n api cfg w :
  is_unauthorized (fst (dispatch cfg w)) && negb (_retry cfg) = false ->
  client (S n) api cfg w = Some (dispatch cfg w).
Proof.
  cbn [client]. destruct (dispatch cfg w) as [[res|e] w1]; cbn [fst is_unauthorized].
  - reflexivity.
  - now intros ->.
Qed.



(** *** Counting the sends of a request object *)










(** The logout request goes through the intercepted client too: against a
    server that answers 401 to everything, refresh included, each logout
    triggers another refresh and another logout, and the call never
    settles, whatever the bound on the depth. *)
Lemma logout_recurs_on_401 api :
  forall fuel cfg w,
    replies w = always_401 -> signal cfg = None -> _retry cfg = false ->
    client fuel api cfg w = None.
Proof.
  induction fuel as [|fuel IH]; intros cfg w Hnet Hsig Hretry; [reflexivity|].
  destruct w as [net ex ab nr nc tr]. cbn [replies] in Hnet. subst net.
  destruct cfg as [id m u ps sg flag]. cbn [signal _retry] in Hsig, Hretry. subst sg flag.
  cbn [client].
  change (dispatch _ _)
    with (settle (always_401 ex),
          {| replies := always_401; exchanges := S ex; aborted := ab; next_rid := nr;
             next_controller := nc;
             trace := (tr ++ [EvRequest id u false])%list |}).
  cbn [always_401 settle status_is response err_status _retry negb andb Z.eqb Pos.eqb].
  change (refreshToken _)
    with (Null,
          {| replies := always_401; exchanges := S (S ex); aborted := ab; next_rid := nr;
             next_controller := nc;
             trace := ((tr ++ [EvRequest id u false]) ++ [EvRefresh])%list |}).
  cbn [truthy negb]. unfold logout_through. cbn [new_request].
  rewrite IH; reflexivity.
Qed.

End ApiFacts.

(* ================================================================== *)
(** ** Properties of the booking view *)
(* ================================================================== *)

Module ViewFacts.
Import Js Api BookRoomView Spec.

(** *** Availability queries *)

(** Starting a query aborts the controller of the one before it, installs
    a new controller, and raises the room-loading flag; it touches neither
    the room options nor the form. *)
Lemma start_aborts_previous rt prefs v w q v' w' :
  setAvailableRooms_start rt prefs v w = Return (q, v', w') ->
  (forall c, abortControllerRef v = Some c -> is_aborted w' (Some c) = true)
  /\ q_signal q = next_controller w
  /\ abortControllerRef v' = Some (q_signal q)
  /\ roomLoading v' = true
  /\ availableRoomOptions v' = availableRoomOptions v
  /\ formData v' = formData v
  /\ q_formData q = formData v.
Proof.
  unfold setAvailableRooms_start.
  destruct (today rt) as [date|ex]; cbn [bind]; [|discriminate].
  destruct (Utility.convertToRFC3339 rt date (startTime (formData v))) as [fst_|ex];
    cbn [bind]; [|discriminate].
  intros H. injection H as <- <- <-. cbn.
  repeat split; try reflexivity.
  - intros c ->. cbn. now rewrite Nat.eqb_refl.
  - now destruct (abortControllerRef v).
Qed.

(** A query whose controller has been aborted resolves to the "ignore"
    envelope, whatever the network would have answered. *)
Lemma aborted_query_is_ignored n api q w :
  is_aborted w (Some (q_signal q)) = true ->
  exists w', query_call (S n) api q w
             = Some (Fulfilled (createReply ignore (Some "Pending request aborted") Null), w').
Proof.
  intros Hab. unfold query_call, getAvailableRooms, request, new_request.
  cbn [client]. unfold dispatch. cbn [signal].
  replace (is_aborted _ (Some (q_signal q))) with true by (symmetry; exact Hab).
  cbn. eexists. reflexivity.
Qed.

(** What an "ignore" envelope does to the view: it leaves the room options
    and the form alone, and lowers the room-loading flag. *)
Lemma resume_on_ignore q res v :
  status res = ignore ->
  setAvailableRooms_resume q res v = (Return tt, setRoomLoading false v).
Proof. unfold setAvailableRooms_resume. now intros ->. Qed.

(** What a successful envelope does to the view: the rooms it carries become
    the room options and the room-loading flag is lowered. *)
Lemma resume_on_success q res v rooms :
  status res = success -> data res = Rooms rooms ->
  availableRoomOptions (snd (setAvailableRooms_resume q res v)) = createRoomDropdownOptions rooms
  /\ roomLoading (snd (setAvailableRooms_resume q res v)) = false.
Proof.
  unfold setAvailableRooms_resume. intros -> ->. cbn [StatusTypes_eqb].
  destruct rooms as [|first rest]; split; reflexivity.
Qed.

Lemma is_aborted_In w c : is_aborted w (Some c) = true <-> In c (aborted w).
Proof.
  unfold is_aborted. rewrite existsb_exists. split.
  - intros (x & Hin & Heq). apply Nat.eqb_eq in Heq. now subst.
  - intros Hin. exists c. split; [exact Hin|apply Nat.eqb_refl].
Qed.

Lemma query_call_keeps_aborted n api q w r w' :
  is_aborted w (Some (q_signal q)) = true ->
  query_call (S n) api q w = Some (r, w') -> aborted w' = aborted w.
Proof.
  intros Hab. unfold query_call, getAvailableRooms, request, new_request.
  cbn [client]. unfold dispatch. cbn [signal].
  replace (is_aborted _ (Some (q_signal q))) with true by (symmetry; exact Hab).
  cbn. intros H. injection H as _ <-. reflexivity.
Qed.

(** C1 on the code: when a second availability query is started before the
    first resolves, the first one's controller is aborted, the first query
    resolves to "ignore", and that resolution leaves the room options and
    the form as they were; the result of the second query is the one
    applied.  But the "ignore" resolution lowers the room-loading flag,
    which the second query had raised, while the second query is still
    outstanding. *)
Theorem superseded_query_lowers_roomLoading (rt : Runtime) (prefs : Preferences)
        (api : Api.t) (n : nat) (v v1 v2 : View) (w w1 w2 : World) (q1 q2 : Query) :
  controllers_allocated v w ->
  setAvailableRooms_start rt prefs v w = Return (q1, v1, w1) ->
  setAvailableRooms_start rt prefs v1 w1 = Return (q2, v2, w2) ->
  is_aborted w2 (Some (q_signal q1)) = true
  /\ exists res w3,
      query_call (S n) api q1 w2 = Some (Fulfilled res, w3)
      /\ status res = ignore
      /\ availableRoomOptions (snd (setAvailableRooms_resume q1 res v2)) = availableRoomOptions v
      /\ formData (snd (setAvailableRooms_resume q1 res v2)) = formData v
      /\ abortControllerRef (snd (setAvailableRooms_resume q1 res v2)) = Some (q_signal q2)
      /\ is_aborted w3 (Some (q_signal q2)) = false
      /\ roomLoading v2 = true
      /\ roomLoading (snd (setAvailableRooms_resume q1 res v2)) = false
      /\ (forall res2 rooms,
            status res2 = success -> data res2 = Rooms rooms ->
            availableRoomOptions
              (snd (setAvailableRooms_resume q2 res2 (snd (setAvailableRooms_resume q1 res v2))))
            = createRoomDropdownOptions rooms).
Proof.
  intros (Hknown & Href) H1 H2.
  destruct (start_aborts_previous _ _ _ _ _ _ _ H1)
    as (_ & Hsig1 & Href1 & _ & Hopts1 & Hform1 & _).
  destruct (start_aborts_previous _ _ _ _ _ _ _ H2)
    as (Hab & Hsig2 & Href2 & Hload2 & Hopts2 & Hform2 & _).
  specialize (Hab _ Href1). split; [exact Hab|].
  destruct (aborted_query_is_ignored n api q1 w2 Hab) as (w3 & Hcall).
  eexists. exists w3. split; [exact Hcall|]. split; [reflexivity|].
  rewrite resume_on_ignore by reflexivity.
  cbn [snd setRoomLoading availableRoomOptions formData abortControllerRef roomLoading].
  split; [congruence|]. split; [congruence|]. split; [exact Href2|].
  split.
  { (* the controller of the second query is a new one *)
    destruct (is_aborted w3 (Some (q_signal q2))) eqn:Hlive; [|reflexivity].
    apply is_aborted_In in Hlive.
    rewrite (query_call_keeps_aborted n api q1 w2 _ w3 Hab Hcall) in Hlive.
    assert (Hw1 : next_controller w1 = S (next_controller w)
                  /\ forall c, In c (aborted w1) -> (c < next_controller w)%nat).
    { unfold setAvailableRooms_start in H1.
      destruct (today rt) as [date|ex]; cbn [bind] in H1; [|discriminate].
      destruct (Utility.convertToRFC3339 rt date (startTime (formData v))) as [t|ex];
        cbn [bind] in H1; [|discriminate].
      injection H1 as _ _ <-. cbn [abortControllerRef setRoomLoading].
      destruct (abortControllerRef v) as [c0|] eqn:Hc0; cbn; (split; [reflexivity|]).
      - intros c [<-|Hin]; [now apply Href|now apply Hknown].
      - exact Hknown. }
    destruct Hw1 as (Hnext1 & Hab1).
    assert (Hw2 : aborted w2 = q_signal q1 :: aborted w1).
    { unfold setAvailableRooms_start in H2.
      destruct (today rt) as [date|ex]; cbn [bind] in H2; [|discriminate].
      destruct (Utility.convertToRFC3339 rt date (startTime (formData v1))) as [t|ex];
        cbn [bind] in H2; [|discriminate].
      injection H2 as _ _ <-. cbn [abortControllerRef setRoomLoading].
      rewrite Href1. reflexivity. }
    rewrite Hw2 in Hlive. destruct Hlive as [Heq|Hin].
    - lia.
    - specialize (Hab1 _ Hin). lia. }
  split; [exact Hload2|]. split; [reflexivity|].
  intros res2 rooms Hst Hdata.
  exact (proj1 (resume_on_success q2 res2 _ rooms Hst Hdata)).
Qed.

Lemma superseded_query_lowers_roomLoading_witness :
  exists q1 v1 w1 q2 v2 w2 res w3,
    setAvailableRooms_start sample_host sample_preferences
      (idle_view (Some "a@rooms.example")) (world_of net_down) = Return (q1, v1, w1)
    /\ setAvailableRooms_start sample_host sample_preferences v1 w1 = Return (q2, v2, w2)
    /\ query_call 1 with_router q1 w2 = Some (Fulfilled res, w3)
    /\ status res = ignore
    /\ roomLoading v2 = true
    /\ roomLoading (snd (setAvailableRooms_resume q1 res v2)) = false.
Proof.
  assert (H1 : setAvailableRooms_start sample_host sample_preferences
                 (idle_view (Some "a@rooms.example")) (world_of net_down)
               = Return (_, _, _)) by (vm_compute; reflexivity).
  match type of H1 with
  | _ = Return (?q1, ?v1, ?w1) =>
      assert (H2 : setAvailableRooms_start sample_host sample_preferences v1 w1
                   = Return (_, _, _)) by (vm_compute; reflexivity)
  end.
  assert (H0 : controllers_allocated (idle_view (Some "a@rooms.example")) (world_of net_down)).
  { split; [intros c []|intros c Hc; discriminate Hc]. }
  destruct (superseded_query_lowers_roomLoading sample_host sample_preferences with_router 0
              _ _ _ _ _ _ _ _ H0 H1 H2)
    as (_ & res & w3 & Hcall & Hst & _ & _ & _ & _ & Hbefore & Hafter & _).
  do 6 eexists. exists res, w3.
  split; [exact H1|]. split; [exact H2|].
  split; [exact Hcall|]. split; [exact Hst|]. split; [exact Hbefore|exact Hafter].
Defined.

(** *** Booking *)





End ViewFacts.

(* ================================================================== *)
(** ** Further properties of the time utilities *)
(* ================================================================== *)

Module UtilityMore.
Import Js Utility Spec.

(** X1: on valid clock times, [toMinutesSinceMidnight] is one-to-one and
    orders times as the clock does: first by hour, then by minute. *)
Theorem toMinutesSinceMidnight_key (h m h' m' : Z) :
  0 <= m < 60 -> 0 <= m' < 60 ->
  (toMinutesSinceMidnight h m = toMinutesSinceMidnight h' m' <-> h = h' /\ m = m')
  /\ (toMinutesSinceMidnight h m < toMinutesSinceMidnight h' m'
      <-> h < h' \/ (h = h' /\ m < m')).
Proof. unfold toMinutesSinceMidnight. intros Hm Hm'. split; split; lia. Qed.

Lemma toMinutesSinceMidnight_key_witness :
  (toMinutesSinceMidnight 9 59 = toMinutesSinceMidnight 10 0 <-> 9 = 10 /\ 59 = 0)
  /\ (toMinutesSinceMidnight 9 59 < toMinutesSinceMidnight 10 0
      <-> 9 < 10 \/ (9 = 10 /\ 59 < 0)).
Proof. apply (toMinutesSinceMidnight_key 9 59 10 0); lia. Defined.

Lemma formatTime_denotes (h m : Z) :
  0 <= h <= 23 -> 0 <= m <= 59 ->
  displayMinutes (formatTime h m) = Some (toMinutesSinceMidnight h m).
Proof.
  intros Hh Hm.
  assert (Hall : forallb (fun h => forallb (fun m =>
             match displayMinutes (formatTime h m) with
             | Some x => x =? toMinutesSinceMidnight h m
             | None => false
             end) (zrange 0 60)) (zrange 0 24) = true)
    by (vm_compute; reflexivity).
  pose proof (UtilityFacts.zrange_complete _ 0 24 Hall h ltac:(lia)) as Hrow. cbv beta in Hrow.
  pose proof (UtilityFacts.zrange_complete _ 0 60 Hrow m ltac:(lia)) as Hcell. cbv beta in Hcell.
  destruct (displayMinutes (formatTime h m)) as [x|]; [|discriminate].
  apply Z.eqb_eq in Hcell. now subst.
Qed.

(** X2: a display string determines the time it was made from: reading
    ["H:MM AM"] / ["H:MM PM"] back gives the minutes since midnight, so two
    different valid times never share a display string. *)
Theorem formatTime_round_trip (h m h' m' : Z) :
  0 <= h <= 23 -> 0 <= m <= 59 -> 0 <= h' <= 23 -> 0 <= m' <= 59 ->
  displayMinutes (formatTime h m) = Some (h * 60 + m)
  /\ (formatTime h m = formatTime h' m' -> h = h' /\ m = m').
Proof.
  intros Hh Hm Hh' Hm'. split; [exact (formatTime_denotes h m Hh Hm)|].
  intros Heq.
  pose proof (formatTime_denotes h m Hh Hm) as H1.
  pose proof (formatTime_denotes h' m' Hh' Hm') as H2.
  rewrite Heq, H2 in H1. injection H1 as H1. unfold toMinutesSinceMidnight in H1. lia.
Qed.

Lemma formatTime_round_trip_witness :
  displayMinutes (formatTime 0 5) = Some (0 * 60 + 5)
  /\ (formatTime 0 5 = formatTime 12 5 -> 0 = 12 /\ 5 = 5).
Proof. apply (formatTime_round_trip 0 5 12 5); lia. Defined.

Lemma slots_from_NoDup (k : nat) : NoDup (slots_from k).
Proof.
  unfold slots_from. apply Finite.Injective_map_NoDup; [|apply seq_NoDup].
  intros i j Hij. lia.
Qed.

(** X3: the options [populateTimeOptions] returns are pairwise different;
    there are as many as quarter-hours are left in the day, counting the
    one in progress, so between 1 and 96; and the first one is the label of
    the quarter-hour in progress. *)
Theorem populateTimeOptions_distinct (rt : Runtime) :
  NoDup (populateTimeOptions rt)
  /\ Z.of_nat (length (populateTimeOptions rt)) = 96 - now_minutes rt / 15
  /\ (1 <= length (populateTimeOptions rt) <= 96)%nat
  /\ hd_error (populateTimeOptions rt)
     = Some (formatTime (getHours rt (new_Date rt)) (getMinutes rt (new_Date rt) / 15 * 15)).
Proof.
  pose proof (UtilityFacts.first_slot_range rt) as Hk.
  pose proof (UtilityFacts.now_minutes_range rt) as Hnow.
  assert (Hlen : length (populateTimeOptions rt) = (96 - first_slot rt)%nat).
  { rewrite UtilityFacts.populateTimeOptions_labels, !length_map, length_seq. reflexivity. }
  split.
  { apply (NoDup_map_inv displayMinutes).
    rewrite UtilityFacts.populateTimeOptions_denotes.
    apply Finite.Injective_map_NoDup; [|apply slots_from_NoDup].
    intros a b Hab. now injection Hab. }
  split.
  { rewrite Hlen. unfold first_slot.
    assert (0 <= now_minutes rt / 15) by (apply Z.div_pos; lia).
    assert (now_minutes rt / 15 < 96) by (apply Z.div_lt_upper_bound; lia). lia. }
  split; [lia|].
  rewrite UtilityFacts.populateTimeOptions_labels.
  replace (96 - first_slot rt)%nat with (S (95 - first_slot rt)) by lia.
  cbn [seq map hd_error]. f_equal. unfold slot_label.
  pose proof (UtilityFacts.hours_range rt (new_Date rt)) as Hh.
  pose proof (UtilityFacts.minutes_range rt (new_Date rt)) as Hm.
  assert (Hq : Z.of_nat (first_slot rt)
               = 4 * getHours rt (new_Date rt) + getMinutes rt (new_Date rt) / 15).
  { unfold first_slot, now_minutes.
    rewrite Z2Nat.id by (apply Z.div_pos; lia).
    replace (getHours rt (new_Date rt) * 60 + getMinutes rt (new_Date rt))
      with (getMinutes rt (new_Date rt) + (4 * getHours rt (new_Date rt)) * 15) by lia.
    rewrite Z.div_add by lia. lia. }
  assert (Hq3 : 0 <= getMinutes rt (new_Date rt) / 15 < 4).
  { split; [apply Z.div_pos; lia|apply Z.div_lt_upper_bound; lia]. }
  rewrite Hq. f_equal.
  - replace (4 * getHours rt (new_Date rt) + getMinutes rt (new_Date rt) / 15)
      with (getMinutes rt (new_Date rt) / 15 + getHours rt (new_Date rt) * 4) by lia.
    rewrite Z.div_add by lia. rewrite Z.div_small by lia. lia.
  - rewrite Z.rem_mod_nonneg by lia.
    replace (4 * getHours rt (new_Date rt) + getMinutes rt (new_Date rt) / 15)
      with (getMinutes rt (new_Date rt) / 15 + getHours rt (new_Date rt) * 4) by lia.
    rewrite Z.mod_add by lia. rewrite Z.mod_small by lia. reflexivity.
Qed.

(** X4: the offset string reads back to the offset it was made from: the
    sign and the two numbers the regular expression of [convertToRFC3339]
    extracts give the offset in minutes east of UTC, the opposite of what
    the host reports. *)
Theorem offset_string_round_trip (rt : Runtime) :
  Z.abs (host_offset rt) < 6000 ->
  exists sg hh mm h m,
    offset_match (getTimezoneOffset rt) = Some (sg, hh, mm)
    /\ parseInt hh = Some h /\ parseInt mm = Some m
    /\ 0 <= h < 100 /\ 0 <= m < 60
    /\ (h * 60 + m) * (if String.eqb sg "+" then 1 else -1) = - host_offset rt.
Proof.
  intros Hoff.
  destruct (OffsetFacts.offset_groups rt Hoff) as (sg & hh & mm & Hmatch & Hsg & Hhh & Hmm).
  exists sg, hh, mm, (Z.abs (host_offset rt) / 60), (Z.abs (host_offset rt) mod 60).
  split; [exact Hmatch|]. split; [exact Hhh|]. split; [exact Hmm|].
  pose proof (Z.div_mod (Z.abs (host_offset rt)) 60 ltac:(lia)) as Hdm.
  pose proof (Z.mod_pos_bound (Z.abs (host_offset rt)) 60 ltac:(lia)) as Hmod.
  assert (0 <= Z.abs (host_offset rt) / 60) by (apply Z.div_pos; lia).
  assert (Z.abs (host_offset rt) / 60 < 100) by (apply Z.div_lt_upper_bound; lia).
  split; [lia|]. split; [lia|].
  subst sg. destruct (Z.leb_spec (host_offset rt) 0); cbn [String.eqb Ascii.eqb Bool.eqb]; lia.
Qed.

Lemma offset_string_round_trip_witness :
  getTimezoneOffset (fixed_zone 0 (-345)) = "+05:45"
  /\ exists sg hh mm h m,
      offset_match (getTimezoneOffset (fixed_zone 0 (-345))) = Some (sg, hh, mm)
      /\ parseInt hh = Some h /\ parseInt mm = Some m
      /\ 0 <= h < 100 /\ 0 <= m < 60
      /\ (h * 60 + m) * (if String.eqb sg "+" then 1 else -1) = - host_offset (fixed_zone 0 (-345)).
Proof.
  split; [reflexivity|].
  apply (offset_string_round_trip (fixed_zone 0 (-345))). vm_compute. reflexivity.
Defined.

End UtilityMore.
(* ================================================================== *)
(** ** The calendar of the runtime, and reading numbers back *)
(* ================================================================== *)

Module CalendarFacts.
Import Js Spec.

Lemma civil_of_day_ranges (z : Z) :
  let '(y, m, d) := civil_of_day z in 1 <= m <= 12 /\ 1 <= d <= 31.
Proof.
  unfold civil_of_day.
  set (doe := z + 719468 - (z + 719468) / 146097 * 146097).
  assert (Hdoe : 0 <= doe <= 146096) by (subst doe; Z.to_euclidean_division_equations; lia).
  clearbody doe.
  set (yoe := (doe - doe / 1460 + doe / 36524 - doe / 146096) / 365).
  set (doy := doe - (365 * yoe + yoe / 4 - yoe / 100)).
  assert (Hy : 0 <= yoe <= 399 /\ 0 <= doy <= 365)
    by (subst doy yoe; Z.to_euclidean_division_equations; lia).
  clearbody doy. clearbody yoe.
  set (mp := (5 * doy + 2) / 153).
  assert (Hmp : 0 <= mp <= 11) by (subst mp; Z.to_euclidean_division_equations; lia).
  destruct (Z.ltb_spec mp 10); (split; [lia|]);
    subst mp; Z.to_euclidean_division_equations; lia.
Qed.

Lemma MakeDay_civil_of_day (z : Z) :
  let '(y, m, d) := civil_of_day z in MakeDay y m d = z.
Proof.
  unfold civil_of_day, MakeDay.
  set (era := (z + 719468) / 146097).
  set (doe := z + 719468 - era * 146097).
  assert (Hdoe : 0 <= doe <= 146096) by (subst doe era; Z.to_euclidean_division_equations; lia).
  assert (Hz : z = era * 146097 + doe - 719468) by (subst doe; lia).
  clearbody doe. clearbody era.
  set (yoe := (doe - doe / 1460 + doe / 36524 - doe / 146096) / 365).
  set (doy := doe - (365 * yoe + yoe / 4 - yoe / 100)).
  assert (Hy : 0 <= yoe <= 399 /\ 0 <= doy <= 365)
    by (subst doy yoe; Z.to_euclidean_division_equations; lia).
  assert (Hdoy : doe = yoe * 365 + yoe / 4 - yoe / 100 + doy) by (subst doy; lia).
  clearbody doy. clearbody yoe.
  set (mp := (5 * doy + 2) / 153).
  assert (Hmp : 0 <= mp <= 11) by (subst mp; Z.to_euclidean_division_equations; lia).
  clearbody mp.
  set (m := if mp <? 10 then mp + 3 else mp - 9).
  assert (Hm : (m <= 2 -> mp = m + 9) /\ (2 < m -> mp = m - 3))
    by (subst m; destruct (Z.ltb_spec mp 10); lia).
  clearbody m.
  destruct (Z.leb_spec m 2); destruct (Z.ltb_spec 2 m); try lia.
  - replace (yoe + era * 400 + 1 - 1) with (yoe + era * 400) by lia.
    rewrite Z.div_add, Z.div_small by lia.
    replace (0 + era) with era by lia.
    replace (yoe + era * 400 - era * 400) with yoe by lia.
    replace (m + 9) with mp by lia. lia.
  - replace (yoe + era * 400 + 0) with (yoe + era * 400) by lia.
    rewrite Z.div_add, Z.div_small by lia.
    replace (0 + era) with era by lia.
    replace (yoe + era * 400 - era * 400) with yoe by lia.
    replace (m - 3) with mp by lia. lia.
Qed.

(** *** Reading numbers back *)

Lemma span_digits_append (a : string) (c : ascii) (rest : string) :
  all_chars is_digit a = true -> is_digit c = false ->
  span_digits (a ++ String c rest) = (a, String c rest).
Proof.
  intros Ha Hc. induction a as [|x a IH]; cbn [append span_digits].
  - now rewrite Hc.
  - cbn [all_chars] in Ha. apply andb_prop in Ha as [Hx Ha].
    rewrite Hx, (IH Ha). reflexivity.
Qed.

Lemma pad4_exact (y : Z) : 0 <= y <= 9999 -> reads_exactly 4 (pad 4 y) y = true.
Proof.
  intros Hy.
  assert (Hall : forallb (fun y => reads_exactly 4 (pad 4 y) y) (zrange 0 (100 * 100)) = true)
    by (vm_compute; reflexivity).
  exact (UtilityFacts.zrange_complete _ _ _ Hall y ltac:(lia)).
Qed.

Lemma pad2_exact (m : Z) : 0 <= m <= 99 -> reads_exactly 2 (pad 2 m) m = true.
Proof.
  intros Hm.
  assert (Hall : forallb (fun m => reads_exactly 2 (pad 2 m) m) (zrange 0 100) = true)
    by (vm_compute; reflexivity).
  exact (UtilityFacts.zrange_complete _ _ _ Hall m ltac:(lia)).
Qed.

Lemma String_of_within (h : Z) : 0 <= h <= 99 -> reads_within 9 (String_of h) h = true.
Proof.
  intros Hh.
  assert (Hall : forallb (fun h => reads_within 9 (String_of h) h) (zrange 0 100) = true)
    by (vm_compute; reflexivity).
  exact (UtilityFacts.zrange_complete _ _ _ Hall h ltac:(lia)).
Qed.

Lemma exact_within (k : nat) s n :
  (k <= 9)%nat -> reads_exactly k s n = true -> reads_within 9 s n = true.
Proof.
  unfold reads_exactly, reads_within. intros Hk H.
  apply andb_prop in H as [Hlen ->]. apply Nat.eqb_eq in Hlen.
  rewrite andb_true_r. apply Nat.leb_le. lia.
Qed.

Lemma short_number_append (a : string) (n : Z) (c : ascii) (rest : string) :
  reads_within 9 a n = true -> is_digit c = false ->
  short_number (a ++ String c rest) = Some (n, String c rest).
Proof.
  unfold reads_within, reads_as. intros H Hc.
  apply andb_prop in H as [Hlen H].
  apply andb_prop in H as [H Hval]. apply andb_prop in H as [Hdig Hne].
  apply Z.eqb_eq in Hval. unfold short_number.
  rewrite (span_digits_append a c rest Hdig Hc), Hlen, Hval.
  destruct a as [|x a]; [discriminate Hne|reflexivity].
Qed.

(** A date written by [toISOString] with a four-digit year from 100 on, a
    space, and a time written by [formatTime], parse to that day and that
    time. *)
Lemma parse_local_formatTime (c h m : Z) :
  100 <= year_of c <= 9999 -> valid_time h m ->
  parse_local (date_part c ++ " " ++ Utility.formatTime h m)
  = Local (MakeDate (Day c) (MakeTime h m 0 0)).
Proof.
  intros Hyear (Hh & Hm).
  rewrite (UtilityFacts.formatTime_agrees_with_spec h m Hh Hm).
  unfold formatTime_spec, two_digits, date_part, year_of in *.
  pose proof (civil_of_day_ranges (Day c)) as Hrange.
  pose proof (MakeDay_civil_of_day (Day c)) as Hday.
  destruct (civil_of_day (Day c)) as [[y mo] dd]. cbn [fst] in Hyear.
  destruct Hrange as (Hmo & Hdd).
  unfold year_string.
  destruct (Z.leb_spec 0 y); [|lia]. destruct (Z.leb_spec y 9999); [|lia]. cbn [andb].
  rewrite !OffsetFacts.append_assoc. cbn [append].
  unfold parse_local, legacy_fields.
  rewrite (short_number_append (pad 4 y) y)
    by (apply (exact_within 4); [lia|apply pad4_exact; lia]) || reflexivity.
  cbn [expect Ascii.eqb Bool.eqb].
  rewrite (short_number_append (pad 2 mo) mo)
    by (apply (exact_within 2); [lia|apply pad2_exact; lia]) || reflexivity.
  cbn [expect Ascii.eqb Bool.eqb].
  rewrite (short_number_append (pad 2 dd) dd)
    by (apply (exact_within 2); [lia|apply pad2_exact; lia]) || reflexivity.
  cbn [expect Ascii.eqb Bool.eqb].
  assert (Hdh : exists k, display_hour h = String_of k /\ 1 <= k <= 12 /\ k mod 12 = h mod 12).
  { unfold display_hour.
    destruct (Z.eqb_spec h 0) as [->|Hnz]; [exists 12; repeat split; lia|].
    destruct (Z.eqb_spec h 12) as [->|Hn12]; [exists 12; repeat split; lia|].
    cbn [orb]. exists (h mod 12).
    pose proof (Z.mod_pos_bound h 12 ltac:(lia)).
    assert (h mod 12 <> 0).
    { intros Hz. pose proof (Z.div_mod h 12 ltac:(lia)) as Hdm. rewrite Hz in Hdm.
      assert (h / 12 = 0 \/ h / 12 = 1) by (Z.to_euclidean_division_equations; lia). lia. }
    repeat split; try lia. now rewrite Z.mod_mod by lia. }
  destruct Hdh as (k & -> & Hk & Hkmod).
  rewrite (short_number_append (String_of k) k) by (apply String_of_within; lia) || reflexivity.
  cbn [expect Ascii.eqb Bool.eqb].
  rewrite (short_number_append (pad 2 m) m)
    by (apply (exact_within 2); [lia|apply pad2_exact; lia]) || reflexivity.
  assert (Hy : (y <? 100) = false) by (apply Z.ltb_ge; lia).
  assert (Hchk : (1 <=? mo) && (mo <=? 12) && (1 <=? dd) && (dd <=? 31) = true).
  { repeat (apply andb_true_intro; split); apply Z.leb_le; lia. }
  assert (Hhour : forall off, hour_of_day k m (Some off) = Some (k mod 12 + off)).
  { intros off. unfold hour_of_day.
    destruct (Z.ltb_spec 59 m); [lia|]. destruct (Z.leb_spec k 12); [reflexivity|lia]. }
  unfold period.
  destruct (Z.ltb_spec h 12); cbn [String.eqb Ascii.eqb Bool.eqb];
    rewrite Hy, Hchk, Hhour, Hday; do 3 f_equal; rewrite Hkmod.
  - rewrite Z.mod_small by lia. lia.
  - assert (h mod 12 = h - 12) by (Z.to_euclidean_division_equations; lia). lia.
Qed.

End CalendarFacts.

(* ================================================================== *)
(** ** Further properties of [convertToRFC3339] *)
(* ================================================================== *)

Module ConvertMore.
Import Js Utility Spec.

(** *** The characters of the strings involved *)

Lemma all_chars_append p a b : all_chars p (a ++ b) = all_chars p a && all_chars p b.
Proof. induction a as [|x a IH]; cbn; [reflexivity|]. now rewrite IH, andb_assoc. Qed.

Lemma all_chars_weaken (p q : ascii -> bool) s :
  (forall a, p a = true -> q a = true) -> all_chars p s = true -> all_chars q s = true.
Proof.
  intros Hpq. induction s as [|x s IH]; cbn; [reflexivity|].
  intros H. apply andb_prop in H as [Hx Hs]. now rewrite (Hpq x Hx), IH.
Qed.

Lemma uint_digits (d : Decimal.uint) : all_chars is_digit (NilEmpty.string_of_uint d) = true.
Proof. induction d; cbn; try reflexivity; exact IHd. Qed.

Lemma String_of_numeric (n : Z) : all_chars numeric (String_of n) = true.
Proof.
  unfold String_of, NilZero.string_of_int, NilZero.string_of_uint.
  assert (Hd : forall d, all_chars numeric (NilEmpty.string_of_uint d) = true).
  { intros d. apply (all_chars_weaken is_digit); [|apply uint_digits].
    intros a Ha. unfold numeric. now rewrite Ha. }
  destruct (Z.to_int n) as [d|d]; destruct d; cbn [all_chars];
    try reflexivity; try (apply (Hd (_ _)));
    try (rewrite (Hd (_ _)); reflexivity).
Qed.

Lemma String_of_digits (n : Z) : 0 <= n -> all_chars is_digit (String_of n) = true.
Proof.
  intros Hn. unfold String_of, NilZero.string_of_int, NilZero.string_of_uint.
  destruct n as [|p|p]; [reflexivity| |lia].
  cbn [Z.to_int]. destruct (Pos.to_uint p) eqn:E; try reflexivity;
    rewrite <- E; apply uint_digits.
Qed.

Lemma replicate_chars p n c : p c = true -> all_chars p (replicate n c) = true.
Proof. intros Hc. induction n as [|n IH]; cbn; [reflexivity|]. now rewrite Hc, IH. Qed.

Lemma pad_numeric k n : all_chars numeric (pad k n) = true.
Proof.
  unfold pad, padStart. rewrite all_chars_append, String_of_numeric.
  now rewrite replicate_chars.
Qed.

Lemma pad_digits k n : 0 <= n -> all_chars is_digit (pad k n) = true.
Proof.
  intros Hn. unfold pad, padStart. rewrite all_chars_append, String_of_digits by exact Hn.
  now rewrite replicate_chars.
Qed.

Lemma year_string_numeric y : all_chars numeric (year_string y) = true.
Proof.
  unfold year_string. destruct ((0 <=? y) && (y <=? 9999)); [apply pad_numeric|].
  rewrite all_chars_append, pad_numeric. now destruct (y <? 0).
Qed.

Lemma absent_from (p : ascii -> bool) c s :
  p c = false -> all_chars p s = true -> occurs c s = false.
Proof.
  intros Hc. induction s as [|x s IH]; cbn; [reflexivity|].
  intros H. apply andb_prop in H as [Hx Hs]. rewrite (IH Hs), orb_false_r.
  destruct (Ascii.eqb_spec x c); [congruence|reflexivity].
Qed.

Lemma occurs_append c a b : occurs c (a ++ b) = occurs c a || occurs c b.
Proof. induction a as [|x a IH]; cbn; [reflexivity|]. now rewrite IH, orb_assoc. Qed.

(** *** Splitting *)

Lemma append_empty_r (s : string) : s ++ EmptyString = s.
Proof. induction s as [|x s IH]; cbn; [reflexivity|now rewrite IH]. Qed.

Lemma split_go_absent c s : forall cur, occurs c s = false -> split_go c cur s = [cur ++ s].
Proof.
  induction s as [|x s IH]; intros cur Hs; cbn in *.
  - now rewrite append_empty_r.
  - apply orb_false_elim in Hs as [Hx Hs]. rewrite Hx, IH by exact Hs.
    now rewrite OffsetFacts.append_assoc.
Qed.

Lemma split_go_first c a b :
  forall cur, occurs c a = false ->
  split_go c cur (a ++ String c b) = (cur ++ a) :: split_go c EmptyString b.
Proof.
  induction a as [|x a IH]; intros cur Ha; cbn in *.
  - now rewrite Ascii.eqb_refl, append_empty_r.
  - apply orb_false_elim in Ha as [Hx Ha]. rewrite Hx, IH by exact Ha.
    now rewrite OffsetFacts.append_assoc.
Qed.

Lemma toISOString_shape (t : Z) :
  toISOString (Some t)
  = Return (date_part t ++ String "T" (time_part t ++ String "." (pad 3 (msFromTime t) ++ "Z"))).
Proof.
  unfold toISOString, date_part, time_part.
  destruct (civil_of_day (Day t)) as [[y m] dd].
  rewrite !OffsetFacts.append_assoc. reflexivity.
Qed.

Lemma date_part_chars t : all_chars stamp_char (date_part t) = true.
Proof.
  assert (Hn : forall s, all_chars numeric s = true -> all_chars stamp_char s = true).
  { intros s. apply all_chars_weaken. intros a Ha. unfold stamp_char. now rewrite Ha. }
  unfold date_part. destruct (civil_of_day (Day t)) as [[y m] dd].
  rewrite !all_chars_append, (Hn _ (year_string_numeric y)), !(Hn _ (pad_numeric 2 _)).
  reflexivity.
Qed.

Lemma time_part_chars t : all_chars stamp_char (time_part t) = true.
Proof.
  assert (Hn : forall s, all_chars numeric s = true -> all_chars stamp_char s = true).
  { intros s. apply all_chars_weaken. intros a Ha. unfold stamp_char. now rewrite Ha. }
  unfold time_part.
  rewrite !all_chars_append, !(Hn _ (pad_numeric 2 _)).
  reflexivity.
Qed.

(** What [convertToRFC3339] cuts out of an ISO string: the date, and the
    clock time without the milliseconds. *)
Lemma iso_pieces (t : Z) :
  exists iso isoDate isoTime,
    toISOString (Some t) = Return iso
    /\ split "T" iso = [isoDate; isoTime]
    /\ isoDate = date_part t
    /\ hd "undefined" (split "." isoTime) = time_part t.
Proof.
  eexists. eexists. eexists. split; [apply toISOString_shape|].
  assert (HT : occurs "T" (date_part t) = false)
    by (apply (absent_from stamp_char); [reflexivity|apply date_part_chars]).
  assert (Hdot : occurs "." (time_part t) = false)
    by (apply (absent_from stamp_char); [reflexivity|apply time_part_chars]).
  assert (HT2 : occurs "T" (time_part t ++ String "." (pad 3 (msFromTime t) ++ "Z")) = false).
  { rewrite occurs_append. cbn [occurs].
    rewrite (absent_from stamp_char "T" (time_part t) eq_refl (time_part_chars t)).
    rewrite occurs_append.
    rewrite (absent_from numeric "T" (pad 3 (msFromTime t)) eq_refl (pad_numeric _ _)).
    reflexivity. }
  unfold split. rewrite split_go_first by exact HT.
  rewrite split_go_absent by exact HT2. cbn [append].
  split; [reflexivity|]. split; [reflexivity|].
  rewrite split_go_first by exact Hdot. reflexivity.
Qed.

Lemma fixed_zone_offset (now off : Z) : fixed_offset (fixed_zone now off) off.
Proof. intros t. split; reflexivity. Qed.

Lemma fixed_host_offset (rt : Runtime) (off : Z) : fixed_offset rt off -> host_offset rt = off.
Proof. intros Hfix. exact (proj1 (Hfix _)). Qed.


(** The core of [convertToRFC3339] in a zone with one fixed offset: a date
    is written as the wall clock of its local time. *)
Lemma convert_fixed_offset (rt : Runtime) (off t0 : Z) (d t : string) :
  fixed_offset rt off -> Z.abs off < 6000 ->
  Date_of_string rt (d ++ " " ++ t) = Some t0 ->
  Z.abs (t0 - off * msPerMinute) <= max_time ->
  convertToRFC3339 rt d t
  = Return (wall_clock (t0 - off * msPerMinute) ++ getTimezoneOffset rt).
Proof.
  intros Hfix Hoff Hdate Htl. unfold max_time in Htl.
  pose proof (fixed_host_offset rt off Hfix) as Hhost.
  destruct (OffsetFacts.offset_groups rt ltac:(rewrite Hhost; exact Hoff))
    as (sg & hh & mm & Hmatch & Hsg & Hhh & Hmm).
  unfold convertToRFC3339. rewrite Hmatch.
  rewrite (OffsetFacts.shifted_date rt _ sg hh mm Hsg Hhh Hmm), Hdate.
  assert (Hback : UTC rt (LocalTime rt t0 - host_offset rt * msPerMinute)
                  = t0 - off * msPerMinute).
  { unfold UTC, LocalTime. rewrite Hhost, (proj1 (Hfix _)), (proj2 (Hfix _)). lia. }
  rewrite Hback. unfold TimeClip.
  destruct (Z.leb_spec (Z.abs (t0 - off * msPerMinute)) 8640000000000000); [|lia].
  destruct (iso_pieces (t0 - off * msPerMinute))
    as (iso & isoDate & isoTime & Hiso & Hsplit & Hdt & Htime).
  rewrite Hiso. cbn [bind]. rewrite Hsplit, Htime, Hdt. unfold wall_clock.
  rewrite !OffsetFacts.append_assoc. reflexivity.
Qed.

(** The date of a string that reads as the local time [tl]. *)
Lemma Date_of_local (rt : Runtime) (off tl : Z) (s : string) :
  fixed_offset rt off -> parse_local s = Local tl ->
  Z.abs (tl + off * msPerMinute) <= max_time ->
  Date_of_string rt s = Some (tl + off * msPerMinute).
Proof.
  intros Hfix Hparse Htl. unfold Date_of_string. rewrite Hparse.
  unfold UTC. rewrite (proj2 (Hfix _)). unfold TimeClip, max_time in *.
  destruct (Z.leb_spec (Z.abs (tl + off * msPerMinute)) 8640000000000000); [reflexivity|lia].
Qed.

(** X5: in a zone with one fixed offset, [convertToRFC3339] writes the
    local wall-clock date and time of the date it was given, to the second,
    followed by the offset string of the zone: the string names the instant
    the user meant.  This holds for whatever the host reads the two strings
    as, and for the strings modelled the wall clock is the one written in
    them. *)
Theorem convertToRFC3339_wall_clock (rt : Runtime) (off : Z) (d t : string) :
  fixed_offset rt off -> Z.abs off < 6000 ->
  (forall t0,
     Date_of_string rt (d ++ " " ++ t) = Some t0 ->
     Z.abs (t0 - off * msPerMinute) <= max_time ->
     convertToRFC3339 rt d t
     = Return (wall_clock (LocalTime rt t0) ++ getTimezoneOffset rt))
  /\ (forall tl,
        parse_local (d ++ " " ++ t) = Local tl ->
        Z.abs tl <= max_time - 360000000 ->
        convertToRFC3339 rt d t = Return (wall_clock tl ++ getTimezoneOffset rt)).
Proof.
  intros Hfix Hoff. split.
  - intros t0 Hdate Hclip.
    assert (Hlocal : LocalTime rt t0 = t0 - off * msPerMinute)
      by (unfold LocalTime; now rewrite (proj1 (Hfix _))).
    rewrite Hlocal. now apply convert_fixed_offset.
  - intros tl Hparse Htl. unfold max_time, msPerMinute in *.
    assert (Hdate : Date_of_string rt (d ++ " " ++ t) = Some (tl + off * msPerMinute))
      by (apply Date_of_local; [exact Hfix|exact Hparse|unfold max_time, msPerMinute; lia]).
    rewrite (convert_fixed_offset rt off _ d t Hfix Hoff Hdate).
    + do 3 f_equal. unfold msPerMinute. lia.
    + unfold max_time, msPerMinute. lia.
Qed.

Lemma convertToRFC3339_wall_clock_witness :
  parse_local ("2024-03-09" ++ " " ++ "11:45 PM") = Local 1710027900000
  /\ parse_local ("2024-03-09" ++ " " ++ "23:45") = Local 1710027900000
  /\ wall_clock 1710027900000 = "2024-03-09T23:45:00"
  /\ convertToRFC3339 (fixed_zone 0 480) "2024-03-09" "11:45 PM"
     = Return (wall_clock 1710027900000 ++ getTimezoneOffset (fixed_zone 0 480))
  /\ convertToRFC3339 (fixed_zone 0 480) "2024-03-09" "23:45"
     = Return (wall_clock 1710027900000 ++ getTimezoneOffset (fixed_zone 0 480)).
Proof.
  split; [reflexivity|]. split; [reflexivity|]. split; [reflexivity|].
  assert (Hoff : Z.abs 480 < 6000) by (vm_compute; reflexivity).
  split.
  - apply (proj2 (convertToRFC3339_wall_clock (fixed_zone 0 480) 480 "2024-03-09" "11:45 PM"
                    (fixed_zone_offset 0 480) Hoff));
      [reflexivity|vm_compute; discriminate].
  - apply (proj2 (convertToRFC3339_wall_clock (fixed_zone 0 480) 480 "2024-03-09" "23:45"
                    (fixed_zone_offset 0 480) Hoff));
      [reflexivity|vm_compute; discriminate].
Defined.

(** *** Display times through [convertToRFC3339] *)

Lemma day_bounds (c : Z) : 0 <= year_of c <= 9999 -> -719528 <= Day c <= 2932896.
Proof.
  unfold year_of. intros Hy.
  pose proof (CalendarFacts.civil_of_day_ranges (Day c)) as Hr.
  pose proof (CalendarFacts.MakeDay_civil_of_day (Day c)) as Hd.
  destruct (civil_of_day (Day c)) as [[y mo] dd]. cbn [fst] in Hy.
  rewrite <- Hd. unfold MakeDay.
  destruct (Z.leb_spec mo 2); destruct (Z.ltb_spec 2 mo); try lia;
    Z.to_euclidean_division_equations; lia.
Qed.

Lemma clock_fields (D h m : Z) :
  valid_time h m ->
  let t := MakeDate D (MakeTime h m 0 0) in
  Day t = D /\ HourFromTime t = h /\ MinFromTime t = m /\ SecFromTime t = 0.
Proof.
  intros (Hh & Hm) t. subst t.
  unfold MakeDate, MakeTime, Day, HourFromTime, MinFromTime, SecFromTime,
    msPerDay, msPerHour, msPerMinute.
  repeat split; Z.to_euclidean_division_equations; lia.
Qed.

Lemma wall_clock_of_fields (c h m : Z) :
  valid_time h m ->
  wall_clock (MakeDate (Day c) (MakeTime h m 0 0))
  = date_part c ++ "T" ++ pad 2 h ++ ":" ++ pad 2 m ++ ":00".
Proof.
  intros Hv. destruct (clock_fields (Day c) h m Hv) as (Hd & Hh & Hm & Hs).
  unfold wall_clock, date_part, time_part. rewrite Hd, Hh, Hm, Hs. reflexivity.
Qed.

(** The date the host makes of today's date and a display time. *)
Lemma Date_of_display_time (rt : Runtime) (off h m : Z) :
  fixed_offset rt off -> Z.abs off < 6000 ->
  100 <= year_of (clock rt) <= 9999 -> valid_time h m ->
  Date_of_string rt (date_part (clock rt) ++ " " ++ formatTime h m)
  = Some (MakeDate (Day (clock rt)) (MakeTime h m 0 0) + off * msPerMinute).
Proof.
  intros Hfix Hoff Hyear Hv.
  pose proof (day_bounds (clock rt) ltac:(lia)) as Hday.
  apply Date_of_local; [exact Hfix| |].
  - apply CalendarFacts.parse_local_formatTime; assumption.
  - destruct Hv as (Hh & Hm).
    unfold max_time, MakeDate, MakeTime, msPerDay, msPerHour, msPerMinute. lia.
Qed.

(** What [formatTime] displays, [convertToRFC3339] reads back. *)
Lemma display_time_conversion (rt : Runtime) (off h m : Z) :
  fixed_offset rt off -> Z.abs off < 6000 ->
  100 <= year_of (clock rt) <= 9999 -> valid_time h m ->
  convertToRFC3339 rt (date_part (clock rt)) (formatTime h m)
  = Return (date_part (clock rt) ++ "T" ++ pad 2 h ++ ":" ++ pad 2 m ++ ":00"
            ++ getTimezoneOffset rt).
Proof.
  intros Hfix Hoff Hyear Hv.
  pose proof (day_bounds (clock rt) ltac:(lia)) as Hday.
  rewrite (convert_fixed_offset rt off _ _ _ Hfix Hoff
             (Date_of_display_time rt off h m Hfix Hoff Hyear Hv)).
  - replace (MakeDate (Day (clock rt)) (MakeTime h m 0 0) + off * msPerMinute
             - off * msPerMinute)
      with (MakeDate (Day (clock rt)) (MakeTime h m 0 0)) by lia.
    rewrite (wall_clock_of_fields (clock rt) h m Hv).
    rewrite !OffsetFacts.append_assoc. reflexivity.
  - destruct Hv as (Hh & Hm).
    unfold max_time, MakeDate, MakeTime, msPerDay, msPerHour, msPerMinute. lia.
Qed.

Lemma slot_is_valid_time (i : nat) :
  (i < 96)%nat -> valid_time (Z.of_nat i / 4) (Z.rem (Z.of_nat i) 4 * 15).
Proof.
  intros Hi. unfold valid_time. rewrite Z.rem_mod_nonneg by lia.
  Z.to_euclidean_division_equations; lia.
Qed.

(** X6: what [formatTime] displays, [convertToRFC3339] reads back.  On a
    host whose zone has one fixed offset, in a year from 100 to 9999, given
    the date part of the ISO string of now and the display string of a valid
    time, it returns that date, the time on two digits each with zero
    seconds, and the offset string; in particular it does so, without
    throwing, for every option [populateTimeOptions] offers. *)
Theorem dropdown_options_convert (rt : Runtime) (off : Z) :
  fixed_offset rt off -> Z.abs off < 6000 -> 100 <= year_of (clock rt) <= 9999 ->
  let today := date_part (clock rt) in
  (forall h m, valid_time h m ->
     convertToRFC3339 rt today (formatTime h m)
     = Return (today ++ "T" ++ pad 2 h ++ ":" ++ pad 2 m ++ ":00"
               ++ getTimezoneOffset rt))
  /\ (forall s, In s (populateTimeOptions rt) ->
        exists h m, valid_time h m /\ s = formatTime h m
          /\ convertToRFC3339 rt today s
             = Return (today ++ "T" ++ pad 2 h ++ ":" ++ pad 2 m ++ ":00"
                       ++ getTimezoneOffset rt)).
Proof.
  intros Hfix Hoff Hyear today. split.
  - intros h m Hv. exact (display_time_conversion rt off h m Hfix Hoff Hyear Hv).
  - intros s Hin. rewrite UtilityFacts.populateTimeOptions_labels in Hin.
    apply in_map_iff in Hin as (z & <- & Hz).
    apply in_map_iff in Hz as (i & <- & Hi). apply in_seq in Hi.
    pose proof (UtilityFacts.first_slot_range rt) as Hk.
    assert (Hv : valid_time (Z.of_nat i / 4) (Z.rem (Z.of_nat i) 4 * 15))
      by (apply slot_is_valid_time; lia).
    exists (Z.of_nat i / 4), (Z.rem (Z.of_nat i) 4 * 15).
    split; [exact Hv|]. split; [reflexivity|].
    exact (display_time_conversion rt off _ _ Hfix Hoff Hyear Hv).
Qed.

Lemma dropdown_options_convert_witness :
  date_part 1730485920123 = "2024-11-01"
  /\ formatTime 18 30 = "6:30 PM"
  /\ convertToRFC3339 (fixed_zone 1730485920123 (-60)) (date_part 1730485920123) (formatTime 18 30)
     = Return "2024-11-01T18:30:00+01:00".
Proof.
  split; [reflexivity|]. split; [reflexivity|].
  assert (Hoff : Z.abs (-60) < 6000) by (vm_compute; reflexivity).
  assert (Hyear : 100 <= year_of (clock (fixed_zone 1730485920123 (-60))) <= 9999)
    by (vm_compute; split; discriminate).
  destruct (dropdown_options_convert (fixed_zone 1730485920123 (-60)) (-60)
              (fixed_zone_offset _ _) Hoff Hyear) as (Hany & _).
  cbn [clock fixed_zone] in Hany.
  rewrite (Hany 18 30) by (unfold valid_time; lia). reflexivity.
Defined.

Lemma today_is_date_part (rt : Runtime) :
  BookRoomView.today rt = Return (date_part (clock rt)).
Proof.
  unfold BookRoomView.today.
  destruct (iso_pieces (clock rt)) as (iso & isoDate & isoTime & Hiso & Hsplit & Hdt & _).
  rewrite Hiso. cbn [bind]. rewrite Hsplit. cbn [hd]. now rewrite Hdt.
Qed.

End ConvertMore.

(* ================================================================== *)
(** ** Further properties of the API client *)
(* ================================================================== *)

Module ApiMore.
Import Api Spec.

(** *** What the interceptor leaves alone *)

Lemma dispatch_one_event cfg w :
  exists ev,
    trace (snd (dispatch cfg w)) = (trace w ++ [ev])%list
    /\ (ev = EvCanceled (rid cfg) \/ ev = EvRequest (rid cfg) (url cfg) (_retry cfg))
    /\ (exchanges (snd (dispatch cfg w)) <= S (exchanges w))%nat.
Proof.
  unfold dispatch, exchange, log. destruct (is_aborted w (signal cfg)); cbn [snd trace exchanges];
    eexists; (split; [reflexivity|]); split; auto.
Qed.

(** X7: only an answer with status 401 to a request not yet flagged sets
    the interceptor off.  Any other outcome (a success, a 403 or 500, a
    network failure, a cancellation) and any outcome of a flagged request is
    handed back as the adapter produced it, after a single exchange at most,
    with no refresh, no logout and no navigation. *)
Theorem only_unflagged_401_is_intercepted (n : nat) (api : Api.t) (cfg : Config) (w : World) :
  is_unauthorized (fst (dispatch cfg w)) = false \/ _retry cfg = true ->
  client (S n) api cfg w = Some (dispatch cfg w)
  /\ (exchanges (snd (dispatch cfg w)) <= S (exchanges w))%nat
  /\ exists ev, trace (snd (dispatch cfg w)) = (trace w ++ [ev])%list
                /\ (ev = EvCanceled (rid cfg) \/ ev = EvRequest (rid cfg) (url cfg) (_retry cfg)).
Proof.
  intros Hcase.
  split.
  - apply ApiFacts.client_passes_through.
    destruct Hcase as [-> | ->]; [reflexivity|]. cbn [negb]. apply andb_false_r.
  - destruct (dispatch_one_event cfg w) as (ev & Htr & Hev & Hex).
    split; [exact Hex|]. now exists ev.
Qed.

Lemma only_unflagged_401_is_intercepted_witness :
  exists e w',
    client 1 with_router first_request (world_of (fun _ => Failure 500 None))
    = Some (Rejected e, w')
    /\ status_is e 500 = true
    /\ trace w' = [EvRequest 0 "/api/floors" false].
Proof.
  destruct (only_unflagged_401_is_intercepted 0 with_router first_request
              (world_of (fun _ => Failure 500 None)) (or_introl eq_refl))
    as (Hrun & _ & _).
  eexists. eexists. split; [exact Hrun|]. split; reflexivity.
Defined.

(** *** Termination of the interceptor *)

Lemma dispatch_answer cfg w :
  is_unauthorized (fst (dispatch cfg w)) = true ->
  answers_401 (replies w (exchanges w)) = true.
Proof.
  unfold dispatch. destruct (is_aborted w (signal cfg)); cbn; [discriminate|].
  destruct (replies w (exchanges w)) as [http body|http body|why]; cbn; try discriminate.
  unfold status_is. cbn. auto.
Qed.

Lemma dispatch_world cfg w :
  replies (snd (dispatch cfg w)) = replies w
  /\ (exchanges w <= exchanges (snd (dispatch cfg w)))%nat.
Proof.
  unfold dispatch, exchange, log. destruct (is_aborted w (signal cfg)); cbn; auto.
Qed.

Lemma refreshToken_world w :
  replies (snd (refreshToken w)) = replies w
  /\ exchanges (snd (refreshToken w)) = S (exchanges w).
Proof.
  unfold refreshToken, exchange, log. cbn.
  destruct (settle (replies w (exchanges w))); cbn; auto.
Qed.

(** X8: the interceptor's recursion through [logout] ends as soon as the
    server stops answering 401: if every exchange from the [k]-th one on is
    answered otherwise, a call of the client settles within depth [k + 1]. *)
Theorem client_settles (api : Api.t) (k : nat) (cfg : Config) (w : World) :
  (forall i, (exchanges w + k <= i)%nat -> answers_401 (replies w i) = false) ->
  exists r w', client (S k) api cfg w = Some (r, w').
Proof.
  revert cfg w. induction k as [|k IH]; intros cfg w Hquiet.
  - rewrite ApiFacts.client_passes_through; [destruct (dispatch cfg w); eauto|].
    destruct (is_unauthorized (fst (dispatch cfg w))) eqn:Hu; [|reflexivity].
    apply dispatch_answer in Hu. rewrite Hquiet in Hu by lia. discriminate.
  - destruct (is_unauthorized (fst (dispatch cfg w)) && negb (_retry cfg)) eqn:Hgo.
    + rewrite ApiFacts.client_step.
      destruct (dispatch_world cfg w) as (Hrep1 & Hex1).
      destruct (dispatch cfg w) as [[res|e] w1]; cbn [fst snd is_unauthorized] in *;
        [discriminate|].
      rewrite Hgo.
      destruct (refreshToken_world w1) as (Hrep2 & Hex2).
      destruct (refreshToken w1) as [tok w2]. cbn [snd] in *.
      destruct (truthy tok); cbn [negb].
      * rewrite ApiFacts.client_passes_through
          by (cbn [set_retry _retry negb]; apply andb_false_r).
        destruct (dispatch (set_retry cfg) w2); eauto.
      * unfold logout_through. cbn [new_request].
        match goal with
        | |- context [client (S k) api ?c ?w3] =>
            destruct (IH c w3) as (r & w4 & Hrun)
        end.
        { cbn [replies exchanges]. intros i Hi. rewrite Hrep2, Hrep1.
          apply Hquiet. lia. }
        rewrite Hrun. destruct r; eauto.
    + rewrite ApiFacts.client_passes_through by exact Hgo.
      destruct (dispatch cfg w); eauto.
Qed.

Lemma client_settles_witness :
  exists r w', client 2 with_router first_request (world_of net_refresh_fails) = Some (r, w').
Proof.
  apply (client_settles with_router 1 first_request (world_of net_refresh_fails)).
  intros i Hi. cbn in Hi. destruct i as [|[|i]]; [lia|reflexivity|reflexivity].
Defined.

(** *** The trace of a call *)

Lemma filter_callback_app tr1 tr2 :
  filter is_callback (tr1 ++ tr2) = (filter is_callback tr1 ++ filter is_callback tr2)%list.
Proof. apply filter_app. Qed.

(** A request without a signal is sent: its event is in the trace at the
    end of the call. *)
Lemma client_trace api :
  forall fuel cfg w r w',
    client fuel api cfg w = Some (r, w') ->
    exists ext, trace w' = (trace w ++ ext)%list
                /\ (signal cfg = None ->
                    hd_error ext = Some (EvRequest (rid cfg) (url cfg) (_retry cfg))).
Proof.
  induction fuel as [|fuel IH]; intros cfg w r w' Hrun; [discriminate|].
  rewrite ApiFacts.client_step in Hrun.
  assert (Hd : exists ev, trace (snd (dispatch cfg w)) = (trace w ++ [ev])%list
                          /\ (signal cfg = None ->
                              ev = EvRequest (rid cfg) (url cfg) (_retry cfg))).
  { unfold dispatch, is_aborted, exchange, log.
    destruct (signal cfg) as [c|].
    - destruct (existsb (Nat.eqb c) (aborted w)); cbn [snd trace];
        eexists; (split; [reflexivity|]); discriminate.
    - cbn [snd trace]. eexists. split; reflexivity. }
  destruct Hd as (ev & Htr & Hev).
  destruct (dispatch cfg w) as [[res|e] w1]; cbn [snd] in Htr.
  - injection Hrun as _ <-. exists [ev]. split; [exact Htr|].
    intros Hs. cbn. now rewrite (Hev Hs).
  - destruct (status_is e 401 && negb (_retry cfg)).
    + destruct (ApiFacts.refreshToken_effects w1) as (Htr2 & _).
      destruct (refreshToken w1) as [tok w2]. cbn [snd] in Htr2.
      destruct (truthy tok); cbn [negb] in Hrun.
      * destruct (IH _ _ _ _ Hrun) as (ext & Hext & _).
        exists (ev :: EvRefresh :: ext). split.
        -- rewrite Hext, Htr2, Htr, <- !app_assoc. reflexivity.
        -- intros Hs. cbn. now rewrite (Hev Hs).
      * unfold logout_through in Hrun. cbn [new_request] in Hrun.
        match type of Hrun with
        | context [client fuel api ?c ?w3] =>
            destruct (client fuel api c w3) as [[r4 w4]|] eqn:Hlog; [|discriminate];
            destruct (IH c w3 r4 w4 Hlog) as (ext & Hext & _)
        end.
        cbn [trace] in Hext.
        assert (Hrun' : Some (Rejected e, call_navigate api ROUTES.signIn w4) = Some (r, w'))
          by (destruct r4; exact Hrun).
        injection Hrun' as _ <-.
        unfold call_navigate, log. destruct (navigate api) as [[]|]; cbn [trace].
        -- exists (ev :: EvRefresh :: ext ++ [EvNavigate ROUTES.signIn])%list. split.
           ++ rewrite Hext, Htr2, Htr, <- !app_assoc. reflexivity.
           ++ intros Hs. cbn. now rewrite (Hev Hs).
        -- exists (ev :: EvRefresh :: ext). split.
           ++ rewrite Hext, Htr2, Htr, <- !app_assoc. reflexivity.
           ++ intros Hs. cbn. now rewrite (Hev Hs).
    + injection Hrun as _ <-. exists [ev]. split; [exact Htr|].
      intros Hs. cbn. now rewrite (Hev Hs).
Qed.

Lemma request_trace api fuel m u ps w r w' :
  request fuel api m u ps None w = Some (r, w') ->
  exists id ext, trace w' = (trace w ++ EvRequest id u false :: ext)%list.
Proof.
  unfold request. cbn [new_request]. intros Hrun.
  destruct (client_trace api _ _ _ _ _ Hrun) as (ext & Hext & Hhd).
  specialize (Hhd eq_refl). cbn [trace rid url _retry] in *.
  destruct ext as [|ev ext]; [discriminate|]. injection Hhd as ->.
  now exists (next_rid w), ext.
Qed.

(** *** Signing in *)

Lemma request_first_answer n api m u ps s w :
  is_aborted w s = false ->
  answers_401 (replies w (exchanges w)) = false ->
  exists w', request (S n) api m u ps s w = Some (settle (replies w (exchanges w)), w')
             /\ aborted w' = aborted w /\ next_controller w' = next_controller w
             /\ exists id, trace w' = (trace w ++ [EvRequest id u false])%list.
Proof.
  intros Hlive Hans. unfold request. cbn [new_request].
  assert (Hlive' : forall nr,
             is_aborted {| replies := replies w; exchanges := exchanges w;
                           aborted := aborted w; next_rid := nr;
                           next_controller := next_controller w; trace := trace w |} s = false)
    by (intros nr; destruct s; exact Hlive).
  rewrite ApiFacts.client_passes_through.
  - unfold dispatch. cbn [signal]. rewrite Hlive'. unfold exchange, log. cbn.
    eexists. split; [reflexivity|]. split; [reflexivity|]. split; [reflexivity|].
    now eexists.
  - unfold dispatch. cbn [signal]. rewrite Hlive'. unfold exchange, log. cbn.
    destruct (replies w (exchanges w)) as [http body|http body|why]; cbn in *;
      try reflexivity.
    unfold status_is. cbn. now rewrite Hans.
Qed.

Lemma handleError_of_answer (r : Reply) (e : AxiosError) :
  settle r = Rejected e ->
  handleError e = match reply_envelope r with
                  | Some body => body
                  | None => generic_error
                  end.
Proof.
  destruct r as [http body|http body|why]; cbn [settle reply_envelope]; intros H;
    [discriminate| |]; injection H as <-.
  - destruct (http <? 500); destruct body; reflexivity.
  - destruct why; reflexivity.
Qed.

(** A request without a signal whose first answer is not a 401: what it
    settles with and the world it leaves. *)
Lemma request_first_answer_world n api m u ps w :
  answers_401 (replies w (exchanges w)) = false ->
  exists w', request (S n) api m u ps None w = Some (settle (replies w (exchanges w)), w')
             /\ replies w' = replies w /\ exchanges w' = S (exchanges w)
             /\ next_rid w' = S (next_rid w)
             /\ trace w' = (trace w ++ [EvRequest (next_rid w) u false])%list.
Proof.
  intros Hans. unfold request. cbn [new_request].
  rewrite ApiFacts.client_passes_through.
  - unfold dispatch, is_aborted, exchange, log. cbn.
    eexists. repeat split; reflexivity.
  - unfold dispatch, is_aborted, exchange, log. cbn.
    destruct (replies w (exchanges w)) as [http body|http body|why]; cbn in *;
      try reflexivity.
    unfold status_is. cbn. now rewrite Hans.
Qed.

(** The envelope [getOAuthUrl] makes of the first answer carries the data
    of that answer. *)
Lemma oauth_url_data (r : Reply) :
  data match settle r with
       | Fulfilled res => createReply success (Some EmptyString) (data (res_data res))
       | Rejected err => handleError err
       end
  = answer_data r.
Proof.
  destruct (settle r) as [res|e] eqn:Hs.
  - destruct r as [http body|http body|why]; cbn [settle] in Hs; [|discriminate..].
    injection Hs as <-. reflexivity.
  - rewrite (handleError_of_answer r e Hs). unfold answer_data.
    now destruct (reply_envelope r).
Qed.

(** The envelope [handleOAuthCallback] makes of the answer to the callback
    request says "error" unless the answer is accepted. *)
Lemma callback_envelope_status (r : Reply) :
  StatusTypes_eqb
    (status match settle r with
            | Fulfilled _ => createReply success None Undefined
            | Rejected err => handleError err
            end) Api.error
  = negb (callback_accepted r).
Proof.
  destruct (settle r) as [res|e] eqn:Hs.
  - destruct r as [http body|http body|why]; cbn [settle] in Hs; [|discriminate..].
    reflexivity.
  - rewrite (handleError_of_answer r e Hs).
    destruct r as [http body|http body|why]; [discriminate Hs| |reflexivity].
    cbn [callback_accepted reply_envelope]. destruct body as [body|]; [|reflexivity].
    now rewrite negb_involutive.
Qed.

(** X9: when its URL request, and its callback request if it makes one,
    are not answered 401, [loginChrome] settles, and never by a rejection
    nor with "ignore": it resolves to an
    envelope without data that says "success" or "error".  The extension is
    asked to run the flow for the data of the server's answer to the URL
    request, and only when that data is truthy; the callback endpoint is
    posted to exactly when the extension reports success; and the result
    says "success" exactly when, on top of that, the answer to the callback
    request is accepted.  When the extension fails, the message of the
    result is the error the extension gave. *)
Theorem loginChrome_outcomes (n : nat) (api : Api.t)
        (extension : Value -> AuthFlowResponse) (w : World) :
  let authUrl := answer_data (replies w (exchanges w)) in
  let answer := extension authUrl in
  let posted := truthy authUrl && flow_success answer in
  answers_401 (replies w (exchanges w)) = false ->
  (posted = true -> answers_401 (replies w (S (exchanges w))) = false) ->
  exists reply w',
    loginChrome (S n) api extension w = Some (Fulfilled reply, w')
    /\ data reply = Undefined
    /\ status reply
       = (if posted && callback_accepted (replies w (S (exchanges w)))
          then success else Api.error)
    /\ (truthy authUrl = true -> flow_success answer = false ->
        message reply = flow_error answer)
    /\ exchanges w' = (if posted then S (S (exchanges w)) else S (exchanges w))
    /\ filter is_callback (trace w')
       = (filter is_callback (trace w)
          ++ if posted then [EvRequest (S (next_rid w)) "/auth/oauth2/callback" false]
             else [])%list.
Proof.
  intros authUrl answer posted Hans1 Hans2.
  unfold loginChrome, getOAuthUrl.
  destruct (request_first_answer_world n api GET "/auth/oauth2/url" [] w Hans1)
    as (w1 & -> & Hrep1 & Hex1 & Hrid1 & Htr1).
  pose proof (oauth_url_data (replies w (exchanges w))) as Hdata.
  fold authUrl in Hdata.
  set (reply1 := match settle (replies w (exchanges w)) with
                 | Fulfilled res => createReply success (Some EmptyString) (data (res_data res))
                 | Rejected err => handleError err
                 end) in *.
  assert (Hquiet : filter is_callback (trace w1) = filter is_callback (trace w)).
  { rewrite Htr1, filter_callback_app. cbn. apply app_nil_r. }
  assert (Hstep : match settle (replies w (exchanges w)) with
                  | Fulfilled res =>
                      Some (Fulfilled (createReply success (Some EmptyString)
                                         (data (res_data res))), w1)
                  | Rejected err => Some (Fulfilled (handleError err), w1)
                  end = Some (Fulfilled reply1, w1))
    by (subst reply1; destruct (settle (replies w (exchanges w))); reflexivity).
  rewrite Hstep. clear Hstep. rewrite Hdata. clearbody reply1.
  subst posted. destruct (truthy authUrl) eqn:Htruthy; cbn [andb].
  2:{ eexists. eexists. split; [reflexivity|]. cbn [createReply data status message].
      split; [reflexivity|]. split; [reflexivity|]. split; [discriminate|].
      split; [exact Hex1|]. now rewrite Hquiet, app_nil_r. }
  unfold handleChromeOauthFlow. fold answer.
  destruct (flow_success answer) eqn:Hflow; cbn [negb].
  2:{ eexists. eexists. split; [reflexivity|]. cbn [createReply data status message].
      split; [reflexivity|]. split; [reflexivity|]. split; [reflexivity|].
      split; [exact Hex1|]. now rewrite Hquiet, app_nil_r. }
  unfold handleOAuthCallback.
  specialize (Hans2 eq_refl).
  assert (Hans2' : answers_401 (replies w1 (exchanges w1)) = false)
    by (rewrite Hrep1, Hex1; exact Hans2).
  destruct (request_first_answer_world n api POST "/auth/oauth2/callback"
              [("code", opt_str (flow_code answer))] w1 Hans2')
    as (w2 & -> & Hrep2 & Hex2 & Hrid2 & Htr2).
  rewrite Hrep1, Hex1.
  pose proof (callback_envelope_status (replies w (S (exchanges w)))) as Hcb.
  set (reply2 := match settle (replies w (S (exchanges w))) with
                 | Fulfilled _ => createReply success None Undefined
                 | Rejected err => handleError err
                 end) in *.
  assert (Hstep : match settle (replies w (S (exchanges w))) with
                  | Fulfilled _ => Some (Fulfilled (createReply success None Undefined), w2)
                  | Rejected err => Some (Fulfilled (handleError err), w2)
                  end = Some (Fulfilled reply2, w2))
    by (subst reply2; destruct (settle (replies w (S (exchanges w)))); reflexivity).
  rewrite Hstep. clear Hstep. rewrite Hcb. clearbody reply2.
  assert (Htrace : filter is_callback (trace w2)
                   = (filter is_callback (trace w)
                      ++ [EvRequest (S (next_rid w)) "/auth/oauth2/callback" false])%list).
  { rewrite Htr2, filter_callback_app, Hquiet, Hrid1. reflexivity. }
  destruct (callback_accepted (replies w (S (exchanges w)))); cbn [negb];
    eexists; eexists; (split; [reflexivity|]); cbn [createReply data status message];
    (split; [reflexivity|]); (split; [reflexivity|]); (split; [discriminate|]);
    (split; [now rewrite Hex2, Hex1|exact Htrace]).
Qed.

Lemma loginChrome_outcomes_witness :
  (exists reply w',
      loginChrome 1 with_router extension_ok (world_of net_oauth) = Some (Fulfilled reply, w')
      /\ status reply = success
      /\ filter is_callback (trace w') = [EvRequest 2 "/auth/oauth2/callback" false])
  /\ (exists reply w',
        loginChrome 1 with_router extension_denied (world_of net_oauth)
        = Some (Fulfilled reply, w')
        /\ status reply = Api.error
        /\ message reply = Some "denied"
        /\ filter is_callback (trace w') = [])
  /\ (exists reply w',
        loginChrome 1 with_router extension_ok (world_of net_oauth_refused)
        = Some (Fulfilled reply, w')
        /\ status reply = Api.error
        /\ filter is_callback (trace w') = [EvRequest 2 "/auth/oauth2/callback" false]).
Proof.
  split; [|split].
  - destruct (loginChrome_outcomes 0 with_router extension_ok (world_of net_oauth)
                eq_refl (fun _ => eq_refl)) as (reply & w' & Hrun & _ & Hst & _ & _ & Htr).
    exists reply, w'. split; [exact Hrun|]. split; [exact Hst|exact Htr].
  - destruct (loginChrome_outcomes 0 with_router extension_denied (world_of net_oauth)
                eq_refl (fun _ => eq_refl)) as (reply & w' & Hrun & _ & Hst & Hmsg & _ & Htr).
    exists reply, w'. split; [exact Hrun|]. split; [exact Hst|].
    split; [exact (Hmsg eq_refl eq_refl)|exact Htr].
  - destruct (loginChrome_outcomes 0 with_router extension_ok (world_of net_oauth_refused)
                eq_refl (fun _ => eq_refl)) as (reply & w' & Hrun & _ & Hst & _ & _ & Htr).
    exists reply, w'. split; [exact Hrun|]. split; [exact Hst|exact Htr].
Defined.

(** X10: [login] goes by the [data] of the envelope it gets, whichever way
    it got it.  When the first answer is not a 401: an envelope with truthy
    data, be it the body of an error response, makes [login] redirect the
    page to that data; falsy data or no envelope at all makes it show the
    error toast and stay. *)
Theorem login_follows_envelope_data (n : nat) (api : Api.t) (w : World) :
  answers_401 (replies w (exchanges w)) = false ->
  exists w',
    login (S n) api w
    = Some (Fulfilled
              match reply_envelope (replies w (exchanges w)) with
              | Some body =>
                  if truthy (data body) then Redirect (data body)
                  else ToastError "Failed to retrieve oauth callback url"
              | None => ToastError "Failed to retrieve oauth callback url"
              end, w').
Proof.
  intros Hans. unfold login, getOAuthUrl.
  destruct (request_first_answer n api GET "/auth/oauth2/url" [] None w eq_refl Hans)
    as (w' & -> & _).
  exists w'.
  destruct (settle (replies w (exchanges w))) as [res|e] eqn:Hsettle.
  - destruct (replies w (exchanges w)) as [http body|http body|why];
      cbn [settle] in Hsettle; [|discriminate|discriminate].
    injection Hsettle as <-. cbn [reply_envelope createReply data res_data].
    destruct (truthy (data body)); reflexivity.
  - rewrite (handleError_of_answer _ _ Hsettle).
    destruct (reply_envelope (replies w (exchanges w))) as [body|].
    + destruct (truthy (data body)); reflexivity.
    + reflexivity.
Qed.

Lemma login_follows_envelope_data_witness :
  exists w',
    login 1 with_router
      (world_of (fun _ => Failure 503 (Some (ok_envelope (Str "https://elsewhere.example")))))
    = Some (Fulfilled (Redirect (Str "https://elsewhere.example")), w').
Proof.
  exact (login_follows_envelope_data 0 with_router
           (world_of (fun _ => Failure 503 (Some (ok_envelope (Str "https://elsewhere.example")))))
           eq_refl).
Defined.

End ApiMore.

(* ================================================================== *)
(** ** Further properties of the booking view *)
(* ================================================================== *)

Module ViewMore.
Import Js Api BookRoomView Spec.

(** What a start does, spelled out. *)
Lemma start_world rt prefs v w q v1 w1 :
  setAvailableRooms_start rt prefs v w = Return (q, v1, w1) ->
  q_signal q = next_controller w
  /\ q_formData q = formData v
  /\ v1 = set_abortControllerRef (Some (next_controller w)) (setRoomLoading true v)
  /\ aborted w1 = match abortControllerRef v with
                  | Some c => c :: aborted w
                  | None => aborted w
                  end
  /\ next_controller w1 = S (next_controller w)
  /\ replies w1 = replies w /\ exchanges w1 = exchanges w /\ trace w1 = trace w.
Proof.
  unfold setAvailableRooms_start.
  destruct (today rt) as [date|ex]; cbn [bind]; [|discriminate].
  destruct (Utility.convertToRFC3339 rt date (startTime (formData v))) as [s|ex];
    cbn [bind]; [|discriminate].
  intros H. injection H as <- <- <-. cbn [q_signal q_formData abortControllerRef setRoomLoading].
  destruct (abortControllerRef v); cbn; repeat split; reflexivity.
Qed.

Lemma start_keeps_allocated rt prefs v w q v1 w1 :
  controllers_allocated v w ->
  setAvailableRooms_start rt prefs v w = Return (q, v1, w1) ->
  controllers_allocated v1 w1 /\ is_aborted w1 (Some (q_signal q)) = false.
Proof.
  intros (Hab & Href) Hstart.
  destruct (start_world _ _ _ _ _ _ _ Hstart)
    as (Hsig & _ & -> & Haborted & Hnext & _).
  assert (Hin : forall c, In c (aborted w1) -> (c < next_controller w)%nat).
  { intros c Hc. rewrite Haborted in Hc.
    destruct (abortControllerRef v) as [c0|]; [|now apply Hab].
    destruct Hc as [<-|Hc]; [now apply Href|now apply Hab]. }
  split.
  - split.
    + intros c Hc. specialize (Hin c Hc). lia.
    + cbn [abortControllerRef set_abortControllerRef]. intros c Hc. injection Hc as <-. lia.
  - destruct (is_aborted w1 (Some (q_signal q))) eqn:Hlive; [|reflexivity].
    apply ViewFacts.is_aborted_In in Hlive. specialize (Hin _ Hlive). lia.
Qed.

(** X11: a successful availability result rebuilds the form from the
    snapshot the query took when it started, whatever the form holds by
    then: edits made to the form while the query was in flight are
    overwritten.  The rooms of the result become the options, and the
    selected room is the first of them, or none when there are none. *)
Theorem successful_result_rebuilds_form (rt : Runtime) (prefs : Preferences)
        (v v1 current : View) (w w1 : World) (q : Query) (res : ApiResponse)
        (rooms : list IConferenceRoom) :
  setAvailableRooms_start rt prefs v w = Return (q, v1, w1) ->
  status res = success -> data res = Rooms rooms ->
  let after := snd (setAvailableRooms_resume q res current) in
  formData after = with_room (formData v) (option_map email (hd_error rooms))
  /\ availableRoomOptions after = createRoomDropdownOptions rooms
  /\ form_room (formData after) = option_map value (hd_error (availableRoomOptions after))
  /\ length (availableRoomOptions after) = length rooms
  /\ roomLoading after = false.
Proof.
  intros Hstart Hst Hdata after.
  destruct (start_world _ _ _ _ _ _ _ Hstart) as (_ & Hsnap & _).
  subst after. unfold setAvailableRooms_resume. rewrite Hst, Hdata, Hsnap.
  cbn [StatusTypes_eqb].
  destruct rooms as [|first rest]; cbn; repeat split; try reflexivity.
  now rewrite length_map.
Qed.

Lemma successful_result_rebuilds_form_witness :
  exists q v1 w1,
    setAvailableRooms_start sample_host sample_preferences (idle_view None) (world_of net_down)
    = Return (q, v1, w1)
    /\ title (formData
               (snd (setAvailableRooms_resume q (ok_envelope (Rooms [room_a]))
                       (setFormData
                          {| startTime := "2:00 PM"; duration := 30; form_seats := 1;
                             form_room := None; conference := None; form_attendees := None;
                             title := Some "Typed while loading" |} v1)))) = None.
Proof.
  assert (H1 : setAvailableRooms_start sample_host sample_preferences (idle_view None)
                 (world_of net_down) = Return (_, _, _)) by (vm_compute; reflexivity).
  match type of H1 with
  | _ = Return (?q, ?v1, ?w1) =>
      exists q, v1, w1; split; [exact H1|];
      destruct (successful_result_rebuilds_form sample_host sample_preferences
                  (idle_view None) v1
                  (setFormData
                     {| startTime := "2:00 PM"; duration := 30; form_seats := 1;
                        form_room := None; conference := None; form_attendees := None;
                        title := Some "Typed while loading" |} v1)
                  (world_of net_down) w1 q (ok_envelope (Rooms [room_a])) [room_a]
                  H1 eq_refl eq_refl) as (Hform & _)
  end.
  rewrite Hform. reflexivity.
Defined.

(** X12: a search that gets no answer from the network leaves the rooms of
    the search before on display and the form as it was: the call ends
    normally, the loading flag is lowered, and the generic error is
    surfaced once. *)
Theorem failed_search_keeps_rooms (n : nat) (rt : Runtime) (api : Api.t)
        (prefs : Preferences) (v v1 : View) (w w1 : World) (q : Query) (why : NetFault) :
  controllers_allocated v w ->
  setAvailableRooms_start rt prefs v w = Return (q, v1, w1) ->
  replies w (exchanges w) = NoReply why ->
  exists v' w',
    setAvailableRooms (S n) rt api prefs v w = Some (Return tt, v', w')
    /\ availableRoomOptions v' = availableRoomOptions v
    /\ formData v' = formData v
    /\ roomLoading v' = false
    /\ rendered v' = (rendered v ++ [generic_error])%list.
Proof.
  intros Halloc Hstart Hnet.
  destruct (start_keeps_allocated _ _ _ _ _ _ _ Halloc Hstart) as (_ & Hlive).
  destruct (start_world _ _ _ _ _ _ _ Hstart) as (_ & _ & Hv1 & _ & _ & Hrep & Hex & _).
  unfold setAvailableRooms. rewrite Hstart. unfold query_call, getAvailableRooms.
  assert (Hans : answers_401 (replies w1 (exchanges w1)) = false)
    by (rewrite Hrep, Hex, Hnet; reflexivity).
  match goal with
  | |- context [request (S n) api ?m ?u ?ps ?s w1] =>
      destruct (ApiMore.request_first_answer n api m u ps s w1 Hlive Hans) as (w2 & Hreq & _)
  end.
  rewrite Hreq, Hrep, Hex, Hnet. cbn [settle try_data].
  replace (handleError {| code := Some (net_code why); response := None |})
    with generic_error by (destruct why; reflexivity).
  eexists. eexists. split; [reflexivity|].
  subst v1. repeat split; reflexivity.
Qed.

Lemma failed_search_keeps_rooms_witness :
  exists v' w',
    setAvailableRooms 1 sample_host with_router sample_preferences
      (idle_view (Some "a@rooms.example")) (world_of net_down) = Some (Return tt, v', w')
    /\ availableRoomOptions v' = createRoomDropdownOptions [room_a]
    /\ rendered v' = [generic_error].
Proof.
  assert (H0 : controllers_allocated (idle_view (Some "a@rooms.example")) (world_of net_down)).
  { split; [intros c []|intros c Hc; discriminate Hc]. }
  assert (H1 : setAvailableRooms_start sample_host sample_preferences
                 (idle_view (Some "a@rooms.example")) (world_of net_down)
               = Return (_, _, _)) by (vm_compute; reflexivity).
  destruct (failed_search_keeps_rooms 0 sample_host with_router sample_preferences
              _ _ _ _ _ NetworkDown H0 H1 eq_refl)
    as (v' & w' & Hrun & Hopts & _ & _ & Hrendered).
  exists v', w'. split; [exact Hrun|]. split; [exact Hopts|exact Hrendered].
Defined.

(** *** Booking *)

Lemma setAvailableRooms_frame fuel rt api prefs v w c v' w' :
  setAvailableRooms fuel rt api prefs v w = Some (c, v', w') ->
  booked v' = booked v /\ bookClickLoading v' = bookClickLoading v /\ toasts v' = toasts v.
Proof.
  unfold setAvailableRooms.
  destruct (setAvailableRooms_start rt prefs v w) as [[[q v1] w1]|ex] eqn:Hstart.
  - destruct (start_world _ _ _ _ _ _ _ Hstart) as (_ & _ & -> & _).
    destruct (query_call fuel api q w1) as [[[res|e] w2]|]; [| |discriminate].
    + unfold setAvailableRooms_resume.
      destruct (StatusTypes_eqb (status res) ignore);
        [intros H; injection H as _ <- _; repeat split; reflexivity|].
      destruct (StatusTypes_eqb (status res) Api.error);
        [intros H; injection H as _ <- _; repeat split; reflexivity|].
      destruct (data res) as [| |b|z|s|l|[|first rest]|ev];
        intros H; injection H as _ <- _; repeat split; reflexivity.
    + intros H. injection H as _ <- _. repeat split; reflexivity.
  - intros H. injection H as _ <- _. repeat split; reflexivity.
Qed.

Lemma try_data_inv call r w :
  try_data call = Some (r, w) -> exists first, call = Some (first, w).
Proof.
  unfold try_data. destruct call as [[[res|e] w0]|]; intros H; [| |discriminate];
    injection H as _ <-; now eexists.
Qed.

(** X13: [onBookClick] tells its parent that a room was booked at most
    once, and only when the booking request it sent for the selected room
    resolved to an envelope that says "success"; it then also shows one
    toast, clears the room options and lowers the booking-loading flag.
    When the envelope says anything else the parent is not told and no
    toast is shown.  Whenever it ends normally with a room selected, the
    booking-loading flag is lowered. *)
Theorem onBookClick_notifies_on_success (fuel : nat) (rt : Runtime) (api : Api.t)
        (prefs : Preferences) (v v' : View) (w w' : World) (c : Completion unit) :
  onBookClick fuel rt api prefs v w = Some (c, v', w') ->
  (booked v' = booked v \/ booked v' = S (booked v))
  /\ (booked v' = S (booked v) ->
      exists room start res,
        or_else (form_room (formData v)) None = Some room
        /\ bind (today rt) (fun date => Utility.convertToRFC3339 rt date (startTime (formData v)))
           = Return start
        /\ createEvent fuel api (booking_request rt prefs (formData v) room start) w
           = Some (Fulfilled res, w')
        /\ status res = success
        /\ c = Return tt
        /\ bookClickLoading v' = false
        /\ availableRoomOptions v' = []
        /\ length (toasts v') = S (length (toasts v))
        /\ existsb is_booking (trace w') = true)
  /\ (forall room start res w1,
        or_else (form_room (formData v)) None = Some room ->
        bind (today rt) (fun date => Utility.convertToRFC3339 rt date (startTime (formData v)))
        = Return start ->
        createEvent fuel api (booking_request rt prefs (formData v) room start) w
        = Some (Fulfilled res, w1) ->
        status res <> success ->
        booked v' = booked v /\ toasts v' = toasts v)
  /\ (c = Return tt -> or_else (form_room (formData v)) None <> None ->
      bookClickLoading v' = false).
Proof.
  unfold onBookClick.
  destruct (or_else (form_room (formData v)) None) as [room|].
  2:{ intros H. injection H as <- <- <-. cbn [booked setBookClickLoading].
      split; [now left|]. split; [intros Hb; lia|].
      split; [intros room start res w1 Hroom; discriminate Hroom|].
      intros _ Hroom. now contradiction Hroom. }
  destruct (bind (today rt) (fun date => Utility.convertToRFC3339 rt date (startTime (formData v))))
    as [formattedStartTime|ex].
  2:{ intros H. injection H as <- <- <-. cbn [booked setBookClickLoading].
      split; [now left|]. split; [intros Hb; lia|].
      split; [intros room0 start res w1 _ Hstart; discriminate Hstart|].
      intros Hc. discriminate Hc. }
  change {| dto_startTime := formattedStartTime;
            dto_duration := duration (formData v);
            dto_seats := form_seats (formData v);
            dto_floor := or_else (pref_floor prefs) None;
            dto_timeZone := Utility.getTimeZoneString rt;
            dto_createConference := conference (formData v);
            dto_title := or_else (title (formData v)) (pref_title prefs);
            dto_room := room;
            dto_attendees := form_attendees (formData v) |}
    with (booking_request rt prefs (formData v) room formattedStartTime).
  destruct (createEvent fuel api (booking_request rt prefs (formData v) room formattedStartTime) w)
    as [[[reply|e] w1]|] eqn:Hce; [| |discriminate].
  2:{ apply ApiFacts.try_data_fulfils in Hce as (env & Henv). discriminate Henv. }
  assert (Hsent : existsb is_booking (trace w1) = true).
  { unfold createEvent in Hce. apply try_data_inv in Hce as (first & Hreq).
    destruct (ApiMore.request_trace _ _ _ _ _ _ _ _ Hreq) as (id & ext & Htr).
    rewrite Htr, existsb_app. cbn. apply orb_true_r. }
  destruct (StatusTypes_eqb (status reply) success) eqn:Hst; cbn [negb].
  - assert (Hsuccess : status reply = success) by (now destruct (status reply)).
    destruct (data reply) as [| |b|z|s|l|l|ev];
      intros H; injection H as <- <- <-;
      cbn [booked bookClickLoading availableRoomOptions toasts onRoomBooked
           setAvailableRoomOptions toast_success setBookClickLoading];
      try (split; [now left|]; split; [intros Hb; lia|];
           split; [intros room0 start res w2 Hr Hs Hc Hne;
                   injection Hr as <-; injection Hs as <-; rewrite Hce in Hc;
                   injection Hc as <- _;
                   now contradiction Hne|];
           intros Hc; discriminate Hc);
      (split; [now right|]; split;
       [intros _; exists room, formattedStartTime, reply;
        rewrite length_app, Nat.add_comm; repeat split; auto|];
       split; [intros room0 start res w2 Hr Hs Hc Hne;
               injection Hr as <-; injection Hs as <-; rewrite Hce in Hc;
                   injection Hc as <- _;
               now contradiction Hne|];
       intros _ _; reflexivity).
  - destruct (setAvailableRooms fuel rt api prefs
                (setBookClickLoading false (setBookClickLoading true v)) w1)
      as [[[c3 v3] w3]|] eqn:Hrefresh; [|discriminate].
    destruct (setAvailableRooms_frame _ _ _ _ _ _ _ _ _ Hrefresh) as (Hb & Hflag & Htoasts).
    cbn [booked bookClickLoading toasts setBookClickLoading] in Hb, Hflag, Htoasts.
    destruct c3 as [[]|ex]; intros H; injection H as <- <- <-.
    + cbn [booked bookClickLoading toasts renderError].
      split; [left; exact Hb|]. split; [intros Hb'; lia|].
      split; [intros; split; assumption|]. intros _ _. exact Hflag.
    + split; [left; exact Hb|]. split; [intros Hb'; lia|].
      split; [intros; split; assumption|]. intros Hc. discriminate Hc.
Qed.

Lemma onBookClick_notifies_on_success_witness :
  (exists v' w',
      onBookClick 1 sample_host with_router sample_preferences
        (idle_view (Some "a@rooms.example")) (world_of net_booked) = Some (Return tt, v', w')
      /\ booked v' = 1%nat
      /\ bookClickLoading v' = false
      /\ toasts v' = ["Room A has been booked!"])
  /\ (exists c v' w',
        onBookClick 1 sample_host with_router sample_preferences
          (idle_view (Some "a@rooms.example")) (world_of net_room_taken) = Some (c, v', w')
        /\ booked v' = 0%nat
        /\ toasts v' = []).
Proof.
  split.
  - assert (Hrun : onBookClick 1 sample_host with_router sample_preferences
                     (idle_view (Some "a@rooms.example")) (world_of net_booked)
                   = Some (Return tt, _, _)) by (vm_compute; reflexivity).
    destruct (onBookClick_notifies_on_success _ _ _ _ _ _ _ _ _ Hrun) as (_ & Hbooked & _).
    destruct (Hbooked eq_refl) as (room & start & res & _ & _ & _ & _ & _ & Hflag & _).
    eexists. eexists. split; [exact Hrun|]. split; [reflexivity|].
    split; [exact Hflag|reflexivity].
  - assert (Hrun : onBookClick 1 sample_host with_router sample_preferences
                     (idle_view (Some "a@rooms.example")) (world_of net_room_taken)
                   = Some (_, _, _)) by (vm_compute; reflexivity).
    assert (Hstart : bind (today sample_host)
                       (fun date => Utility.convertToRFC3339 sample_host date
                                      (startTime (formData (idle_view (Some "a@rooms.example")))))
                     = Return "2024-01-15T14:00:00+00:00") by (vm_compute; reflexivity).
    assert (Hce : createEvent 1 with_router
                    (booking_request sample_host sample_preferences
                       (formData (idle_view (Some "a@rooms.example")))
                       "a@rooms.example" "2024-01-15T14:00:00+00:00")
                    (world_of net_room_taken) = Some (Fulfilled _, _))
      by (vm_compute; reflexivity).
    destruct (onBookClick_notifies_on_success _ _ _ _ _ _ _ _ _ Hrun) as (_ & _ & Hfail & _).
    destruct (Hfail _ _ _ _ eq_refl Hstart Hce) as (Hb & Ht); [discriminate|].
    do 3 eexists. split; [exact Hrun|]. split; [exact Hb|exact Ht].
Defined.

(** *** Controllers *)

Lemma start_many_invariant rt prefs v w :
  controllers_allocated v w ->
  forall n qs v' w',
    start_many n rt prefs v w = Return (qs, v', w') ->
    controllers_allocated v' w'
    /\ length qs = n
    /\ match qs with
       | [] => True
       | latest :: older =>
           abortControllerRef v' = Some (q_signal latest)
           /\ is_aborted w' (Some (q_signal latest)) = false
           /\ forall q, In q older -> is_aborted w' (Some (q_signal q)) = true
       end.
Proof.
  intros Halloc. induction n as [|n IH]; intros qs v' w' Hrun.
  - injection Hrun as <- <- <-. auto.
  - cbn [start_many] in Hrun.
    destruct (start_many n rt prefs v w) as [[[qs1 v1] w1]|ex]; cbn [bind] in Hrun;
      [|discriminate].
    destruct (IH qs1 v1 w1 eq_refl) as (Halloc1 & Hlen & Hshape).
    destruct (setAvailableRooms_start rt prefs v1 w1) as [[[q v2] w2]|ex] eqn:Hstart;
      cbn [bind] in Hrun; [|discriminate].
    injection Hrun as <- <- <-.
    destruct (start_keeps_allocated _ _ _ _ _ _ _ Halloc1 Hstart) as (Halloc2 & Hlive).
    destruct (start_world _ _ _ _ _ _ _ Hstart) as (Hsig & _ & Hv2 & Hab & _).
    split; [exact Halloc2|]. split; [cbn; now rewrite Hlen|].
    split; [rewrite Hv2, Hsig; reflexivity|]. split; [exact Hlive|].
    intros q0 Hq0. apply ViewFacts.is_aborted_In. rewrite Hab.
    destruct qs1 as [|latest older]; [destruct Hq0|].
    destruct Hshape as (Href & _ & Holder). rewrite Href.
    destruct Hq0 as [<-|Hq0]; [now left|].
    right. apply ViewFacts.is_aborted_In. now apply Holder.
Qed.

(** X14: however many availability queries are started in a row, only the
    latest one is live: the view holds its controller, which is not
    aborted, and the controller of every earlier query has been aborted. *)
Theorem only_latest_query_is_live (n : nat) (rt : Runtime) (prefs : Preferences)
        (v v' : View) (w w' : World) (latest : Query) (older : list Query) :
  controllers_allocated v w ->
  start_many n rt prefs v w = Return (latest :: older, v', w') ->
  abortControllerRef v' = Some (q_signal latest)
  /\ is_aborted w' (Some (q_signal latest)) = false
  /\ (forall q, In q older -> is_aborted w' (Some (q_signal q)) = true)
  /\ S (length older) = n.
Proof.
  intros Halloc Hrun.
  destruct (start_many_invariant rt prefs v w Halloc n _ _ _ Hrun) as (_ & Hlen & Href & Hlive & Hold).
  repeat split; assumption.
Qed.

Lemma only_latest_query_is_live_witness :
  exists q3 q2 q1 v' w',
    start_many 3 sample_host sample_preferences (idle_view None) (world_of net_down)
    = Return ([q3; q2; q1], v', w')
    /\ aborted w' = [q_signal q2; q_signal q1]
    /\ abortControllerRef v' = Some (q_signal q3)
    /\ is_aborted w' (Some (q_signal q3)) = false.
Proof.
  assert (H0 : controllers_allocated (idle_view None) (world_of net_down)).
  { split; [intros c []|intros c Hc; discriminate Hc]. }
  assert (Hrun : start_many 3 sample_host sample_preferences (idle_view None)
                   (world_of net_down) = Return ([_; _; _], _, _))
    by (vm_compute; reflexivity).
  destruct (only_latest_query_is_live 3 _ _ _ _ _ _ _ _ H0 Hrun) as (Href & Hlive & _).
  do 5 eexists. split; [exact Hrun|]. split; [reflexivity|]. split; [exact Href|exact Hlive].
Defined.

(** *** Starting a search from the dropdown *)

(** X15: with a start time taken from the time dropdown (any display string
    of a valid time), on a host whose zone has one fixed offset, in a year
    from 100 to 9999, starting a search does not throw: it raises the
    loading flag and issues a query whose start time is today's date in UTC,
    the chosen clock time and the zone offset. *)
Theorem search_starts_for_dropdown_time (rt : Runtime) (off h m : Z) (prefs : Preferences)
        (v : View) (w : World) :
  fixed_offset rt off -> Z.abs off < 6000 -> 100 <= year_of (clock rt) <= 9999 ->
  valid_time h m ->
  startTime (formData v) = Utility.formatTime h m ->
  exists q v1 w1,
    setAvailableRooms_start rt prefs v w = Return (q, v1, w1)
    /\ q_startTime q = date_part (clock rt) ++ "T" ++ pad 2 h ++ ":" ++ pad 2 m ++ ":00"
                       ++ Utility.getTimezoneOffset rt
    /\ q_duration q = duration (formData v)
    /\ q_seats q = form_seats (formData v)
    /\ q_floor q = pref_floor prefs
    /\ roomLoading v1 = true.
Proof.
  intros Hfix Hoff Hyear Hv Hstart.
  unfold setAvailableRooms_start.
  rewrite ConvertMore.today_is_date_part. cbn [bind].
  rewrite Hstart, (ConvertMore.display_time_conversion rt off h m Hfix Hoff Hyear Hv).
  cbn [bind]. destruct (new_AbortController _) as [c w2].
  do 3 eexists. split; [reflexivity|]. cbn. repeat split; reflexivity.
Qed.

Lemma search_starts_for_dropdown_time_witness :
  exists q v1 w1,
    setAvailableRooms_start sample_host sample_preferences (idle_view None) (world_of net_down)
    = Return (q, v1, w1)
    /\ q_startTime q = "2024-01-15T14:00:00+00:00".
Proof.
  assert (Hoff : Z.abs 0 < 6000) by (vm_compute; reflexivity).
  assert (Hyear : 100 <= year_of (clock sample_host) <= 9999)
    by (vm_compute; split; discriminate).
  assert (Hv : valid_time 14 0) by (unfold valid_time; lia).
  destruct (search_starts_for_dropdown_time sample_host 0 14 0 sample_preferences
              (idle_view None) (world_of net_down) (ConvertMore.fixed_zone_offset _ 0)
              Hoff Hyear Hv eq_refl) as (q & v1 & w1 & Hrun & Hq & _).
  exists q, v1, w1. split; [exact Hrun|]. rewrite Hq. reflexivity.
Defined.

End ViewMore.

(* ================================================================== *)
(** ** Properties of the end time the backend derives *)
(* ================================================================== *)

Module ControllerFacts.
Import Js Utility CalenderController Spec.





Lemma endTime_core (rt : Runtime) (startTime : string) (duration t0 : Z) :
  Date_of_iso startTime = Some t0 ->
  offsetAtLocal rt (LocalTime rt t0 + duration * msPerMinute) = offsetAtUTC rt t0 ->
  Z.abs (t0 + duration * msPerMinute) <= max_time ->
  endTime rt startTime duration = toISOString (Some (t0 + duration * msPerMinute)).
Proof.
  intros Hdate Hzone Hclip. unfold endTime. rewrite Hdate.
  cbn [option_map nan_add setMinutes]. unfold getMinutes.
  rewrite OffsetFacts.recompose_minutes.
  assert (Hutc : UTC rt (LocalTime rt t0 + duration * msPerMinute)
                 = t0 + duration * msPerMinute).
  { unfold UTC. rewrite Hzone. unfold LocalTime. lia. }
  rewrite Hutc. unfold TimeClip, max_time in *.
  destruct (Z.leb_spec (Z.abs (t0 + duration * msPerMinute)) 8640000000000000); [reflexivity|lia].
Qed.

(** X16: for a start time in the date-time format, the end time the
    backend derives is the start instant plus [duration] minutes, written in
    UTC with milliseconds and [Z], whatever the zone of the server, as long
    as that zone has the same offset at both instants (the minutes are added
    to the server's local time). *)
Theorem endTime_adds_duration (rt : Runtime) (startTime : string) (duration t0 : Z) :
  Date_of_iso startTime = Some t0 ->
  offsetAtLocal rt (LocalTime rt t0 + duration * msPerMinute) = offsetAtUTC rt t0 ->
  Z.abs (t0 + duration * msPerMinute) <= max_time ->
  endTime rt startTime duration
  = Return (wall_clock (t0 + duration * msPerMinute) ++ "."
            ++ pad 3 (msFromTime (t0 + duration * msPerMinute)) ++ "Z").
Proof.
  intros Hdate Hzone Hclip.
  rewrite (endTime_core rt startTime duration t0 Hdate Hzone Hclip).
  rewrite ConvertMore.toISOString_shape. unfold wall_clock.
  rewrite !OffsetFacts.append_assoc. reflexivity.
Qed.

Lemma endTime_adds_duration_witness :
  Date_of_iso "2024-01-15T23:45:00+05:30" = Some 1705342500000
  /\ endTime (fixed_zone 0 300) "2024-01-15T23:45:00+05:30" 30
     = Return "2024-01-15T18:45:00.000Z".
Proof.
  split; [reflexivity|].
  rewrite (endTime_adds_duration (fixed_zone 0 300) "2024-01-15T23:45:00+05:30" 30 1705342500000).
  - reflexivity.
  - reflexivity.
  - reflexivity.
  - vm_compute. discriminate.
Defined.



End ControllerFacts.
